(** * Dwarf: the session / event-relay core

    A shallow embedding of [lib/core.py] (class [Dwarf]: the command gateway
    [dwarf_api], the message dispatcher [_on_message], the apply-context
    handler, [reinitialize]) and of [lib/range.py] (class [Range]: the
    address-range cache), followed by the properties of the specification
    that are stated about them.

    Python objects are records, the mutable [self] is threaded explicitly,
    everything a method sends to the outside world (signals, prints, posts
    and calls on the injected script) is collected in a trace, and a raised
    exception is an explicit outcome. *)

From stdpp Require Import base option list gmap strings.
From Stdlib Require Import ZArith Lia Ascii DecimalString HexadecimalString.

Set Warnings "-register-all".

Local Open Scope string_scope.
Local Open Scope list_scope.
Local Open Scope Z_scope.

(* ===================================================================== *)
(** ** Python values, exceptions and the few builtins the code relies on *)
(* ===================================================================== *)

Module Py.

(** A decoded JSON document or any other dynamically typed value that
    travels through the dispatcher.  Dictionaries keep insertion order, as
    Python's do.  (JSON floats do not occur in the protocol and have no
    constructor.) *)
Inductive pyval : Type :=
| PNone
| PBool (b : bool)
| PInt (z : Z)
| PStr (s : string)
| PBytes (b : list Byte.byte)
| PList (l : list pyval)
| PDict (d : list (string * pyval)).

(** Exceptions by class.  [InvalidLiteral s] is the [ValueError] that
    [int(s)] raises where the code goes on to read its text; [RemoteError]
    is an error of the engine with its message. *)
Inductive exn : Type :=
| IndexError
| KeyError
| ValueError
| TypeError
| AttributeError
| InvalidLiteral (literal : string)
| RemoteError (msg : string).

(** Outcome of a call: a returned value or a raised exception. *)
Inductive res (A : Type) : Type :=
| Ret (a : A)
| Raise (e : exn).
Arguments Ret {A} a.
Arguments Raise {A} e.

Definition res_bind {A B} (r : res A) (k : A -> res B) : res B :=
  match r with
  | Ret a => k a
  | Raise e => Raise e
  end.

Definition of_option {A} (o : option A) (e : exn) : res A :=
  match o with
  | Some a => Ret a
  | None => Raise e
  end.

(** [bool(v)] *)
Definition truthy (v : pyval) : bool :=
  match v with
  | PNone => false
  | PBool b => b
  | PInt z => negb (z =? 0)
  | PStr s => negb (String.eqb s "")
  | PBytes b => match b with [] => false | _ => true end
  | PList l => match l with [] => false | _ => true end
  | PDict d => match d with [] => false | _ => true end
  end.

(** [v == n] for an integer literal [n]; a [bool] compares as 0 or 1. *)
Definition eq_int (v : pyval) (n : Z) : bool :=
  match v with
  | PInt z => z =? n
  | PBool b => (if b then 1 else 0) =? n
  | _ => false
  end.

(** Ordered dictionaries with string keys. *)
Section Dict.
Context {V : Type}.

Fixpoint dict_get (k : string) (d : list (string * V)) : option V :=
  match d with
  | [] => None
  | (k', v) :: d' => if String.eqb k k' then Some v else dict_get k d'
  end.

(** [d[k] = v]: an existing key keeps its position, a new one goes last. *)
Fixpoint dict_set (k : string) (v : V) (d : list (string * V))
  : list (string * V) :=
  match d with
  | [] => [(k, v)]
  | (k', v') :: d' =>
      if String.eqb k k' then (k', v) :: d' else (k', v') :: dict_set k v d'
  end.

(** [del d[k]] *)
Fixpoint dict_del (k : string) (d : list (string * V)) : list (string * V) :=
  match d with
  | [] => []
  | (k', v') :: d' =>
      if String.eqb k k' then dict_del k d' else (k', v') :: dict_del k d'
  end.

Definition dict_keys (d : list (string * V)) : list string := map fst d.

Definition dict_has (k : string) (d : list (string * V)) : bool :=
  match dict_get k d with Some _ => true | None => false end.
End Dict.

(** [k in s] for two strings: substring test. *)
Fixpoint is_substring (k s : string) : bool :=
  String.prefix k s ||
  match s with
  | EmptyString => false
  | String _ s' => is_substring k s'
  end.

(** ['k' in v] *)
Definition contains (k : string) (v : pyval) : res bool :=
  match v with
  | PDict d => Ret (dict_has k d)
  | PList l =>
      Ret (existsb (fun x => match x with
                             | PStr s => String.eqb s k
                             | _ => false
                             end) l)
  | PStr s => Ret (is_substring k s)
  | _ => Raise TypeError
  end.

(** [v['k']] *)
Definition getitem (v : pyval) (k : string) : res pyval :=
  match v with
  | PDict d => of_option (dict_get k d) KeyError
  | _ => Raise TypeError
  end.

(** [len(v)] *)
Definition len (v : pyval) : res Z :=
  match v with
  | PStr s => Ret (Z.of_nat (String.length s))
  | PBytes b => Ret (Z.of_nat (length b))
  | PList l => Ret (Z.of_nat (length l))
  | PDict d => Ret (Z.of_nat (length d))
  | _ => Raise TypeError
  end.

(** [str(z)] for an integer. *)
Definition str_of_Z (z : Z) : string :=
  DecimalString.NilZero.string_of_int (Z.to_int z).

(** [hex(z)] *)
Definition hex (z : Z) : string :=
  let digits := HexadecimalString.NilZero.string_of_uint
                  (N.to_hex_uint (Z.to_N (Z.abs z))) in
  if z <? 0 then "-0x" +:+ digits else "0x" +:+ digits.

(** [s.split(sep)] for a non-empty separator: [split_from sep skip s] is the
    first field of [s] and the list of the fields after it, once [skip]
    characters of a separator already recognised have been passed over. *)
Fixpoint split_from (sep : string) (skip : nat) (s : string)
  : string * list string :=
  match s with
  | EmptyString => (EmptyString, [])
  | String c s' =>
      match skip with
      | S n => split_from sep n s'
      | O =>
          if String.prefix sep s
          then (EmptyString,
                let (f, fs) := split_from sep (String.length sep - 1) s' in
                f :: fs)
          else let (f, fs) := split_from sep 0 s' in (String c f, fs)
      end
  end.

Definition split (sep s : string) : list string :=
  let (f, fs) := split_from sep 0 s in f :: fs.

(** Python slice bounds: a negative index counts from the end, and both ends
    are clamped to the sequence. *)
Definition slice_index (n i : Z) : Z :=
  let i := if i <? 0 then i + n else i in
  if i <? 0 then 0 else if n <? i then n else i.

(** [data[lo:hi] = new] on a bytearray. *)
Definition slice_assign {A} (data : list A) (lo hi : Z) (new : list A)
  : list A :=
  let n := Z.of_nat (length data) in
  let start := slice_index n lo in
  let stop := Z.max start (slice_index n hi) in
  take (Z.to_nat start) data ++ new ++ drop (Z.to_nat stop) data.

End Py.
Import Py.

(* ===================================================================== *)
(** ** What lies outside the two source files *)
(* ===================================================================== *)

Inductive hook_kind : Type := HOOK_ONLOAD | HOOK_NATIVE | HOOK_JAVA | HOOK_WATCHER.

(** Modelled from the spec: [lib/hook.py] is not among the sources.  A hook
    carries its placement, the original bytes, a break condition, a break
    logic, the internal flag and the debug symbol; the setters and getters
    that [core.py] calls store and read the field of the same name.  The
    dispatcher additionally assigns an attribute called [internalHook]
    (line 611), which Python creates on the instance; it is kept here as a
    field of its own, [None] until assigned.  [internal_hook] is [None] when
    the class gives the instance no such attribute. *)
Record Hook : Type := {
  hook_type : hook_kind;
  ptr : Z;
  input : string;
  bytes : option (list Byte.byte);
  condition : pyval;
  logic : pyval;
  internal_hook : option bool;
  internalHook : option bool;
  debug_symbol : pyval
}.

Definition set_ptr (v : Z) (h : Hook) : Hook :=
  {| hook_type := hook_type h; ptr := v; input := input h; bytes := bytes h;
     condition := condition h; logic := logic h;
     internal_hook := internal_hook h; internalHook := internalHook h;
     debug_symbol := debug_symbol h |}.

Definition set_input (v : string) (h : Hook) : Hook :=
  {| hook_type := hook_type h; ptr := ptr h; input := v; bytes := bytes h;
     condition := condition h; logic := logic h;
     internal_hook := internal_hook h; internalHook := internalHook h;
     debug_symbol := debug_symbol h |}.

Definition set_bytes (v : list Byte.byte) (h : Hook) : Hook :=
  {| hook_type := hook_type h; ptr := ptr h; input := input h;
     bytes := Some v; condition := condition h; logic := logic h;
     internal_hook := internal_hook h; internalHook := internalHook h;
     debug_symbol := debug_symbol h |}.

Definition set_condition (v : pyval) (h : Hook) : Hook :=
  {| hook_type := hook_type h; ptr := ptr h; input := input h;
     bytes := bytes h; condition := v; logic := logic h;
     internal_hook := internal_hook h; internalHook := internalHook h;
     debug_symbol := debug_symbol h |}.

Definition set_logic (v : pyval) (h : Hook) : Hook :=
  {| hook_type := hook_type h; ptr := ptr h; input := input h;
     bytes := bytes h; condition := condition h; logic := v;
     internal_hook := internal_hook h; internalHook := internalHook h;
     debug_symbol := debug_symbol h |}.

Definition set_internalHook (v : bool) (h : Hook) : Hook :=
  {| hook_type := hook_type h; ptr := ptr h; input := input h;
     bytes := bytes h; condition := condition h; logic := logic h;
     internal_hook := internal_hook h; internalHook := Some v;
     debug_symbol := debug_symbol h |}.

Definition set_debug_symbol (v : pyval) (h : Hook) : Hook :=
  {| hook_type := hook_type h; ptr := ptr h; input := input h;
     bytes := bytes h; condition := condition h; logic := logic h;
     internal_hook := internal_hook h; internalHook := internalHook h;
     debug_symbol := v |}.

Definition get_ptr (h : Hook) : Z := ptr h.
Definition get_input (h : Hook) : string := input h.

(** Modelled from the spec: [lib/context.py] is not among the sources.  A
    context is the snapshot of register and variable state that came with
    a hook hit. *)
Record Context : Type := { snapshot : pyval }.

(** Handles of the instrumentation engine (device, session, script) and
    loaded plugin modules are opaque. *)
Definition handle : Type := nat.
Definition plugin : Type := string.

(** The collaborators of the core: library functions of Python, the helper
    module [lib/utils.py] and the class [Hook] (neither is among the
    sources), the plugin directory and the replies of the injected script. *)
Record Env : Type := {
  (** [int(s)] and [int(s, 16)]; [None] is [ValueError] *)
  py_int : string -> option Z;
  py_int16 : string -> option Z;
  (** [binascii.unhexlify] and [bytes.fromhex]; [None] is [ValueError] *)
  unhexlify : string -> option (list Byte.byte);
  fromhex : string -> option (list Byte.byte);
  (** [json.loads]; [None] is a decoding error *)
  json_loads : string -> option pyval;
  (** [repr(v)]; for bytes, lists and dictionaries it is [str(v)] too *)
  repr : pyval -> string;
  (** [utils.parse_ptr] *)
  parse_ptr : pyval -> Z;
  (** [Hook(kind)]: the instance as the constructor leaves it *)
  Hook_init : hook_kind -> Hook;
  (** the plugins found on disk, in discovery order; [None] is one whose
      loading raises *)
  plugin_candidates : list (option plugin);
  (** [script.post(message)]: [Some msg] when the engine raises *)
  post_error : pyval -> option string;
  (** [script.exports.api(tid, name, args)]: the reply, or the error *)
  api_reply : pyval -> string -> pyval -> pyval + string;
  (** [script.exports.hooks()]: the JSON text, or the error *)
  hooks_reply : string + string
}.

(** [str(v)] *)
Definition py_str (E : Env) (v : pyval) : string :=
  match v with
  | PStr s => s
  | PInt z => str_of_Z z
  | PNone => "None"
  | PBool true => "True"
  | PBool false => "False"
  | _ => repr E v
  end.

(** ['%d' % v] *)
Definition fmt_d (v : pyval) : res string :=
  match v with
  | PInt z => Ret (str_of_Z z)
  | PBool b => Ret (if b then "1" else "0")
  | _ => Raise TypeError
  end.

(* ===================================================================== *)
(** ** Signals and the other observable effects *)
(* ===================================================================== *)

(** The signals of class [Dwarf] that the modelled methods emit, with the
    argument types of their declarations (lines 49-88). *)
Inductive signal : Type :=
| onAddNativeHook (h : Hook)
| onAddJavaHook (h : Hook)
| onAddNativeOnLoadHook (h : Hook)
| onAddJavaOnLoadHook (h : Hook)
| onDeleteHook (parts : list string)
| onHitNativeOnLoad (args : list string)
| onHitJavaOnLoad (s : string)
| onWatcherAdded (hex_ptr : string) (flags : Z)
| onWatcherRemoved (hex_ptr : string)
| onSetRanges (l : list pyval)
| onSetModules (l : list pyval)
| onLogToConsole (s : string)
| onLogEvent (s : string)
| onThreadResumed (tid : Z)
| onRequestJsThreadResume (tid : Z)
| onApplyContext (d : list (string * pyval))
| onEnumerateJavaClassesStart
| onEnumerateJavaClassesMatch (s : string)
| onEnumerateJavaClassesComplete
| onEnumerateJavaMethodsComplete (l : list pyval)
| onJavaTraceEvent (parts : list string)
| onSetData (l : list pyval)
| onBackTrace (d : list (string * pyval))
| onMemoryScanResult (l : list pyval)
| onContextChanged (property value : string).

Inductive effect : Type :=
| Emit (s : signal)
| Print (s : string)
(** [self._script.post({"type": v})] *)
| ScriptPost (v : pyval)
(** [self._script.exports.api(tid, name, args)] *)
| ScriptApi (tid : pyval) (name : string) (args : pyval)
(** [self._script.exports.hooks()] *)
| ScriptHooks
(** [self.device.resume(pid)] *)
| DeviceResume (pid : Z)
(** calls into the application window *)
| UiEnableKernelMenu
| UiAddJavaOnLoadAction.

(* ===================================================================== *)
(** ** The session object *)
(* ===================================================================== *)

(** The attributes of a [Dwarf] instance that the modelled methods read or
    assign ([__init__], lines 93-145).  The application window, the kernel
    helper and the keystone flag are never touched by them and are left
    out.  [contexts] keeps insertion order because the release broadcast
    walks its keys. *)
Record Dwarf : Type := {
  java_available : pyval;
  _plugins : list plugin;
  _device : option handle;
  _pid : Z;
  _package : option string;
  _process : option handle;
  _script : option handle;
  _spawned : bool;
  _resumed : bool;
  hooks : gmap Z Hook;
  native_on_loads : gmap string Hook;
  java_on_loads : gmap string Hook;
  java_hooks : gmap string Hook;
  watchers : gmap string Hook;
  temporary_input : string;
  native_pending_args : pyval;
  java_pending_args : pyval;
  _arch : pyval;
  _pointer_size : pyval;
  contexts : list (string * Context);
  context_tid : pyval;
  _platform : pyval
}.

Definition set_java_available (v : pyval) (self : Dwarf) : Dwarf :=
  {| java_available := v; _plugins := _plugins self; _device := _device self;
     _pid := _pid self; _package := _package self; _process := _process self;
     _script := _script self; _spawned := _spawned self;
     _resumed := _resumed self; hooks := hooks self;
     native_on_loads := native_on_loads self;
     java_on_loads := java_on_loads self; java_hooks := java_hooks self;
     watchers := watchers self; temporary_input := temporary_input self;
     native_pending_args := native_pending_args self;
     java_pending_args := java_pending_args self; _arch := _arch self;
     _pointer_size := _pointer_size self; contexts := contexts self;
     context_tid := context_tid self; _platform := _platform self |}.

Definition set_resumed (v : bool) (self : Dwarf) : Dwarf :=
  {| java_available := java_available self; _plugins := _plugins self;
     _device := _device self; _pid := _pid self; _package := _package self;
     _process := _process self; _script := _script self;
     _spawned := _spawned self; _resumed := v; hooks := hooks self;
     native_on_loads := native_on_loads self;
     java_on_loads := java_on_loads self; java_hooks := java_hooks self;
     watchers := watchers self; temporary_input := temporary_input self;
     native_pending_args := native_pending_args self;
     java_pending_args := java_pending_args self; _arch := _arch self;
     _pointer_size := _pointer_size self; contexts := contexts self;
     context_tid := context_tid self; _platform := _platform self |}.

Definition set_hooks (v : gmap Z Hook) (self : Dwarf) : Dwarf :=
  {| java_available := java_available self; _plugins := _plugins self;
     _device := _device self; _pid := _pid self; _package := _package self;
     _process := _process self; _script := _script self;
     _spawned := _spawned self; _resumed := _resumed self; hooks := v;
     native_on_loads := native_on_loads self;
     java_on_loads := java_on_loads self; java_hooks := java_hooks self;
     watchers := watchers self; temporary_input := temporary_input self;
     native_pending_args := native_pending_args self;
     java_pending_args := java_pending_args self; _arch := _arch self;
     _pointer_size := _pointer_size self; contexts := contexts self;
     context_tid := context_tid self; _platform := _platform self |}.

Definition set_native_on_loads (v : gmap string Hook) (self : Dwarf) : Dwarf :=
  {| java_available := java_available self; _plugins := _plugins self;
     _device := _device self; _pid := _pid self; _package := _package self;
     _process := _process self; _script := _script self;
     _spawned := _spawned self; _resumed := _resumed self;
     hooks := hooks self; native_on_loads := v;
     java_on_loads := java_on_loads self; java_hooks := java_hooks self;
     watchers := watchers self; temporary_input := temporary_input self;
     native_pending_args := native_pending_args self;
     java_pending_args := java_pending_args self; _arch := _arch self;
     _pointer_size := _pointer_size self; contexts := contexts self;
     context_tid := context_tid self; _platform := _platform self |}.

Definition set_java_on_loads (v : gmap string Hook) (self : Dwarf) : Dwarf :=
  {| java_available := java_available self; _plugins := _plugins self;
     _device := _device self; _pid := _pid self; _package := _package self;
     _process := _process self; _script := _script self;
     _spawned := _spawned self; _resumed := _resumed self;
     hooks := hooks self; native_on_loads := native_on_loads self;
     java_on_loads := v; java_hooks := java_hooks self;
     watchers := watchers self; temporary_input := temporary_input self;
     native_pending_args := native_pending_args self;
     java_pending_args := java_pending_args self; _arch := _arch self;
     _pointer_size := _pointer_size self; contexts := contexts self;
     context_tid := context_tid self; _platform := _platform self |}.

Definition set_java_hooks (v : gmap string Hook) (self : Dwarf) : Dwarf :=
  {| java_available := java_available self; _plugins := _plugins self;
     _device := _device self; _pid := _pid self; _package := _package self;
     _process := _process self; _script := _script self;
     _spawned := _spawned self; _resumed := _resumed self;
     hooks := hooks self; native_on_loads := native_on_loads self;
     java_on_loads := java_on_loads self; java_hooks := v;
     watchers := watchers self; temporary_input := temporary_input self;
     native_pending_args := native_pending_args self;
     java_pending_args := java_pending_args self; _arch := _arch self;
     _pointer_size := _pointer_size self; contexts := contexts self;
     context_tid := context_tid self; _platform := _platform self |}.

Definition set_watchers (v : gmap string Hook) (self : Dwarf) : Dwarf :=
  {| java_available := java_available self; _plugins := _plugins self;
     _device := _device self; _pid := _pid self; _package := _package self;
     _process := _process self; _script := _script self;
     _spawned := _spawned self; _resumed := _resumed self;
     hooks := hooks self; native_on_loads := native_on_loads self;
     java_on_loads := java_on_loads self; java_hooks := java_hooks self;
     watchers := v; temporary_input := temporary_input self;
     native_pending_args := native_pending_args self;
     java_pending_args := java_pending_args self; _arch := _arch self;
     _pointer_size := _pointer_size self; contexts := contexts self;
     context_tid := context_tid self; _platform := _platform self |}.

Definition set_temporary_input (v : string) (self : Dwarf) : Dwarf :=
  {| java_available := java_available self; _plugins := _plugins self;
     _device := _device self; _pid := _pid self; _package := _package self;
     _process := _process self; _script := _script self;
     _spawned := _spawned self; _resumed := _resumed self;
     hooks := hooks self; native_on_loads := native_on_loads self;
     java_on_loads := java_on_loads self; java_hooks := java_hooks self;
     watchers := watchers self; temporary_input := v;
     native_pending_args := native_pending_args self;
     java_pending_args := java_pending_args self; _arch := _arch self;
     _pointer_size := _pointer_size self; contexts := contexts self;
     context_tid := context_tid self; _platform := _platform self |}.

Definition set_native_pending_args (v : pyval) (self : Dwarf) : Dwarf :=
  {| java_available := java_available self; _plugins := _plugins self;
     _device := _device self; _pid := _pid self; _package := _package self;
     _process := _process self; _script := _script self;
     _spawned := _spawned self; _resumed := _resumed self;
     hooks := hooks self; native_on_loads := native_on_loads self;
     java_on_loads := java_on_loads self; java_hooks := java_hooks self;
     watchers := watchers self; temporary_input := temporary_input self;
     native_pending_args := v; java_pending_args := java_pending_args self;
     _arch := _arch self; _pointer_size := _pointer_size self;
     contexts := contexts self; context_tid := context_tid self;
     _platform := _platform self |}.

Definition set_java_pending_args (v : pyval) (self : Dwarf) : Dwarf :=
  {| java_available := java_available self; _plugins := _plugins self;
     _device := _device self; _pid := _pid self; _package := _package self;
     _process := _process self; _script := _script self;
     _spawned := _spawned self; _resumed := _resumed self;
     hooks := hooks self; native_on_loads := native_on_loads self;
     java_on_loads := java_on_loads self; java_hooks := java_hooks self;
     watchers := watchers self; temporary_input := temporary_input self;
     native_pending_args := native_pending_args self; java_pending_args := v;
     _arch := _arch self; _pointer_size := _pointer_size self;
     contexts := contexts self; context_tid := context_tid self;
     _platform := _platform self |}.

Definition set_arch (v : pyval) (self : Dwarf) : Dwarf :=
  {| java_available := java_available self; _plugins := _plugins self;
     _device := _device self; _pid := _pid self; _package := _package self;
     _process := _process self; _script := _script self;
     _spawned := _spawned self; _resumed := _resumed self;
     hooks := hooks self; native_on_loads := native_on_loads self;
     java_on_loads := java_on_loads self; java_hooks := java_hooks self;
     watchers := watchers self; temporary_input := temporary_input self;
     native_pending_args := native_pending_args self;
     java_pending_args := java_pending_args self; _arch := v;
     _pointer_size := _pointer_size self; contexts := contexts self;
     context_tid := context_tid self; _platform := _platform self |}.

Definition set_pointer_size (v : pyval) (self : Dwarf) : Dwarf :=
  {| java_available := java_available self; _plugins := _plugins self;
     _device := _device self; _pid := _pid self; _package := _package self;
     _process := _process self; _script := _script self;
     _spawned := _spawned self; _resumed := _resumed self;
     hooks := hooks self; native_on_loads := native_on_loads self;
     java_on_loads := java_on_loads self; java_hooks := java_hooks self;
     watchers := watchers self; temporary_input := temporary_input self;
     native_pending_args := native_pending_args self;
     java_pending_args := java_pending_args self; _arch := _arch self;
     _pointer_size := v; contexts := contexts self;
     context_tid := context_tid self; _platform := _platform self |}.

Definition set_platform (v : pyval) (self : Dwarf) : Dwarf :=
  {| java_available := java_available self; _plugins := _plugins self;
     _device := _device self; _pid := _pid self; _package := _package self;
     _process := _process self; _script := _script self;
     _spawned := _spawned self; _resumed := _resumed self;
     hooks := hooks self; native_on_loads := native_on_loads self;
     java_on_loads := java_on_loads self; java_hooks := java_hooks self;
     watchers := watchers self; temporary_input := temporary_input self;
     native_pending_args := native_pending_args self;
     java_pending_args := java_pending_args self; _arch := _arch self;
     _pointer_size := _pointer_size self; contexts := contexts self;
     context_tid := context_tid self; _platform := v |}.

Definition set_contexts (v : list (string * Context)) (self : Dwarf) : Dwarf :=
  {| java_available := java_available self; _plugins := _plugins self;
     _device := _device self; _pid := _pid self; _package := _package self;
     _process := _process self; _script := _script self;
     _spawned := _spawned self; _resumed := _resumed self;
     hooks := hooks self; native_on_loads := native_on_loads self;
     java_on_loads := java_on_loads self; java_hooks := java_hooks self;
     watchers := watchers self; temporary_input := temporary_input self;
     native_pending_args := native_pending_args self;
     java_pending_args := java_pending_args self; _arch := _arch self;
     _pointer_size := _pointer_size self; contexts := v;
     context_tid := context_tid self; _platform := _platform self |}.

Definition set_context_tid (v : pyval) (self : Dwarf) : Dwarf :=
  {| java_available := java_available self; _plugins := _plugins self;
     _device := _device self; _pid := _pid self; _package := _package self;
     _process := _process self; _script := _script self;
     _spawned := _spawned self; _resumed := _resumed self;
     hooks := hooks self; native_on_loads := native_on_loads self;
     java_on_loads := java_on_loads self; java_hooks := java_hooks self;
     watchers := watchers self; temporary_input := temporary_input self;
     native_pending_args := native_pending_args self;
     java_pending_args := java_pending_args self; _arch := _arch self;
     _pointer_size := _pointer_size self; contexts := contexts self;
     context_tid := v; _platform := _platform self |}.

Definition set_script (v : option handle) (self : Dwarf) : Dwarf :=
  {| java_available := java_available self; _plugins := _plugins self;
     _device := _device self; _pid := _pid self; _package := _package self;
     _process := _process self; _script := v; _spawned := _spawned self;
     _resumed := _resumed self; hooks := hooks self;
     native_on_loads := native_on_loads self;
     java_on_loads := java_on_loads self; java_hooks := java_hooks self;
     watchers := watchers self; temporary_input := temporary_input self;
     native_pending_args := native_pending_args self;
     java_pending_args := java_pending_args self; _arch := _arch self;
     _pointer_size := _pointer_size self; contexts := contexts self;
     context_tid := context_tid self; _platform := _platform self |}.

Definition set_plugins (v : list plugin) (self : Dwarf) : Dwarf :=
  {| java_available := java_available self; _plugins := v;
     _device := _device self; _pid := _pid self; _package := _package self;
     _process := _process self; _script := _script self;
     _spawned := _spawned self; _resumed := _resumed self;
     hooks := hooks self; native_on_loads := native_on_loads self;
     java_on_loads := java_on_loads self; java_hooks := java_hooks self;
     watchers := watchers self; temporary_input := temporary_input self;
     native_pending_args := native_pending_args self;
     java_pending_args := java_pending_args self; _arch := _arch self;
     _pointer_size := _pointer_size self; contexts := contexts self;
     context_tid := context_tid self; _platform := _platform self |}.

(* ===================================================================== *)
(** ** Two small monads: reading methods and assigning methods *)
(* ===================================================================== *)

(** A method that only reads [self]: its outcome and what it sent out. *)
Definition T (A : Type) : Type := (res A * list effect)%type.

#[global] Instance T_ret : MRet T := fun _ a => (Ret a, []).

#[global] Instance T_bind : MBind T := fun _ _ k m =>
  match m with
  | (Ret a, t) => let (r, t') := k a in (r, t ++ t')
  | (Raise e, t) => (Raise e, t)
  end.

Definition t_res {A} (r : res A) : T A := (r, []).
Definition t_tell (e : effect) : T unit := (Ret tt, [e]).

(** [try: m  except Exception as e: h e] *)
Definition t_try {A} (m : T A) (h : exn -> T A) : T A :=
  match m with
  | (Ret a, t) => (Ret a, t)
  | (Raise e, t) => let (r, t') := h e in (r, t ++ t')
  end.

(** A method that may assign attributes of [self], of type [S]. *)
Definition M (S A : Type) : Type := S -> res A * S * list effect.

#[global] Instance M_ret {S} : MRet (M S) := fun _ a s => (Ret a, s, []).

#[global] Instance M_bind {S} : MBind (M S) := fun _ _ k m s =>
  match m s with
  | (Ret a, s', t) => let '(r, s'', t') := k a s' in (r, s'', t ++ t')
  | (Raise e, s', t) => (Raise e, s', t)
  end.

Definition raise {S A} (e : exn) : M S A := fun s => (Raise e, s, []).
Definition get {S} : M S S := fun s => (Ret s, s, []).
Definition modify {S} (f : S -> S) : M S unit := fun s => (Ret tt, f s, []).
Definition tell {S} (e : effect) : M S unit := fun s => (Ret tt, s, [e]).
Definition emit {S} (sg : signal) : M S unit := tell (Emit sg).
Definition lift_res {S A} (r : res A) : M S A := fun s => (r, s, []).

(** Run a reading method on the current [self]. *)
Definition reading {S A} (f : S -> T A) : M S A :=
  fun s => let (r, t) := f s in (r, s, t).

(** [try: x = m  except Exception: ...]: [None] when [m] raised. *)
Definition attempt {S A} (m : T A) : M S (option A) :=
  fun s =>
    match m with
    | (Ret a, t) => (Ret (Some a), s, t)
    | (Raise _, t) => (Ret None, s, t)
    end.

Definition outcome {S A} (x : res A * S * list effect) : res A := x.1.1.
Definition state {S A} (x : res A * S * list effect) : S := x.1.2.
Definition trace {S A} (x : res A * S * list effect) : list effect := x.2.

(** [parts[i]] *)
Definition part (parts : list string) (i : nat) : res string :=
  of_option (nth_error parts i) IndexError.

(* ===================================================================== *)
(** ** The command gateway (core.py, lines 419-448 and 500-528) *)
(* ===================================================================== *)

Section Gateway.
Context (E : Env).

(** [str(e)] in the handler of [dwarf_api] (line 447): the engine's
    message for an engine error, and the text of the [ValueError] of
    [int(tid)].  Nothing else is raised under that handler (lemma
    [dwarf_api_loop_raises]), so the text of the other classes is never
    read; it is left empty. *)
Definition exn_str (e : exn) : string :=
  match e with
  | RemoteError msg => msg
  | InvalidLiteral s =>
      "invalid literal for int() with base 10: " +:+ repr E (PStr s)
  | IndexError | KeyError | ValueError | TypeError | AttributeError => ""
  end.

Definition script_post (v : pyval) : T unit :=
  (match post_error E v with
   | None => Ret tt
   | Some msg => Raise (RemoteError msg)
   end, [ScriptPost v]).

Definition script_api (tid : pyval) (name : string) (args : pyval) : T pyval :=
  (match api_reply E tid name args with
   | inl v => Ret v
   | inr msg => Raise (RemoteError msg)
   end, [ScriptApi tid name args]).

(** [log] and [log_event] (lines 500-504), for a string argument. *)
Definition log (what : string) : effect := Emit (onLogToConsole what).
Definition log_event (what : string) : effect := Emit (onLogEvent what).

(** The loop of lines 437-440 over the keys of [self.contexts]; it returns
    the value the loop variable [tid] has when the loop is left. *)
Fixpoint dwarf_api_loop (is_releasing : bool) (api : string)
         (keys : list string) (tid : pyval) : T pyval :=
  match keys with
  | [] => mret tid
  | k :: keys' =>
      script_post (PStr k) ;;
      (if is_releasing
       then n ← t_res (of_option (py_int E k) (InvalidLiteral k));
            script_api (PInt n) api (PList [PInt n]) ;; mret tt
       else mret tt) ;;
      dwarf_api_loop is_releasing api keys' (PStr k)
  end.

(** [dwarf_api(api, args, tid)]; [args] is [PNone] when omitted. *)
Definition dwarf_api (self : Dwarf) (api : string) (args : pyval)
           (tid : pyval) : T pyval :=
  if (negb (_pid self =? 0) && (_pid self =? 0))
     || bool_decide (_process self = None)
  then mret PNone
  else
    let is_releasing := String.eqb api "release" in
    let tid := if negb is_releasing && eq_int tid 0
               then context_tid self else tid in
    let args := match args with
                | PNone | PList _ => args
                | _ => PList [args]
                end in
    if bool_decide (_script self = None) then mret PNone
    else
      t_try
        (if eq_int tid 0
         then
           tid' ← dwarf_api_loop is_releasing api
                   (dict_keys (contexts self)) tid;
           if is_releasing then mret PNone
           else script_api tid' api args
         else
           script_post (PStr (py_str E tid)) ;;
           script_api tid api args)
        (fun e => t_tell (log_event (exn_str e)) ;; mret PNone).

(** The bytes of an iterable of small ints, as [bytearray(l)] takes them. *)
Definition byte_of_int (v : pyval) : res Byte.byte :=
  match v with
  | PInt z =>
      if (0 <=? z) && (z <? 256)
      then of_option (Byte.of_N (Z.to_N z)) ValueError
      else Raise ValueError
  | PBool b => Ret (if b then Byte.x01 else Byte.x00)
  | _ => Raise TypeError
  end.

Fixpoint bytes_of_ints (l : list pyval) : res (list Byte.byte) :=
  match l with
  | [] => Ret []
  | v :: l' =>
      res_bind (byte_of_int v) (fun b =>
      res_bind (bytes_of_ints l') (fun bs => Ret (b :: bs)))
  end.

(** What [data += v] appends to a bytearray (line 513): the operand has to
    be a bytes object; a list, a string, a number or [None] raises
    [TypeError]. *)
Definition extend_of (v : pyval) : res (list Byte.byte) :=
  match v with
  | PBytes b => Ret b
  | _ => Raise TypeError
  end.

Definition MiB : Z := 1024 * 1024.

(** The [while True] loop of [read_memory] (lines 511-523).  Every round
    moves [position] forward, so [Z.to_nat length] rounds are never used
    up (lemma [read_memory_loop_fuel]). *)
Fixpoint read_memory_loop (self : Dwarf) (fuel : nat)
         (ptr length position next_size : Z) (data : list Byte.byte)
  : T pyval :=
  match fuel with
  | O => mret PNone
  | S fuel' =>
      r ← dwarf_api self "readBytes"
            (PList [PInt (ptr + position); PInt next_size]) (PInt 0);
      match extend_of r with
      | Raise _ => mret PNone
      | Ret chunk =>
          let data := data ++ chunk in
          let position := position + next_size in
          let diff := length - position in
          if diff >? MiB
          then read_memory_loop self fuel' ptr length position MiB data
          else if diff >? 0
          then read_memory_loop self fuel' ptr length position diff data
          else mret (PBytes data)
      end
  end.

Definition read_memory (self : Dwarf) (ptr length : Z) : T pyval :=
  if length >? MiB
  then read_memory_loop self (Z.to_nat length) ptr length 0 MiB []
  else dwarf_api self "readBytes" (PList [PInt ptr; PInt length]) (PInt 0).

End Gateway.

(* ===================================================================== *)
(** ** Lifecycle: [__init__], [reload_plugins], [reinitialize], [resume_proc] *)
(* ===================================================================== *)

Section Core.
Context (E : Env).

(** [reload_plugins] (lines 774-793): every plugin that loads is appended
    to [self._plugins]; the first one that fails ends the scan.  What a
    plugin's own [init] does to the session is outside the core. *)
Fixpoint load_plugins (candidates : list (option plugin)) : M Dwarf unit :=
  match candidates with
  | [] => mret tt
  | Some p :: rest =>
      modify (fun self => set_plugins (_plugins self ++ [p]) self) ;;
      load_plugins rest
  | None :: _ => tell (Print "failed to load plugin")
  end.

Definition reload_plugins : M Dwarf unit :=
  load_plugins (plugin_candidates E).

(** The attribute values that [__init__] assigns (lines 98-132), before it
    loads the plugins. *)
Definition Dwarf_fields (device : option handle) : Dwarf :=
  {| java_available := PBool false; _plugins := []; _device := device;
     _pid := 0; _package := None; _process := None; _script := None;
     _spawned := false; _resumed := false;
     hooks := ∅; native_on_loads := ∅; java_on_loads := ∅; java_hooks := ∅;
     watchers := ∅; temporary_input := ""; native_pending_args := PNone;
     java_pending_args := PNone;
     _arch := PStr ""; _pointer_size := PInt 0; contexts := [];
     context_tid := PInt 0; _platform := PStr "" |}.

Definition Dwarf_init (device : option handle) : Dwarf :=
  state (reload_plugins (Dwarf_fields device)).

(** [reinitialize] (lines 147-177).  The attributes it does not assign
    ([watchers], [contexts], [_arch], [_pointer_size], [_platform]) keep
    their values. *)
Definition reinitialize : M Dwarf unit :=
  modify (fun self =>
    {| _plugins := [];
       _pid := 0; _package := None; _process := None; _script := None;
       _spawned := false; _resumed := false;
       java_available := PBool false;
       _device := None;
       hooks := ∅; native_on_loads := ∅; java_on_loads := ∅;
       java_hooks := ∅;
       temporary_input := ""; native_pending_args := PNone;
       java_pending_args := PNone;
       context_tid := PInt 0;
       watchers := watchers self; contexts := contexts self;
       _arch := _arch self; _pointer_size := _pointer_size self;
       _platform := _platform self |}) ;;
  reload_plugins.

(** [resume_proc] (lines 377-384).  Only a missing device is modelled as a
    failure of [self.device.resume]. *)
Definition resume_proc : M Dwarf unit :=
  self ← get;
  if _spawned self && negb (_resumed self)
  then
    modify (set_resumed true) ;;
    match _device self with
    | None => raise AttributeError
    | Some _ => tell (DeviceResume (_pid self))
    end
  else mret tt.

(** [current_context] (lines 222-226) *)
Definition current_context (self : Dwarf) : option Context :=
  dict_get (py_str E (context_tid self)) (contexts self).

(* ===================================================================== *)
(** ** The apply-context handler (lines 720-754) *)
(* ===================================================================== *)

Definition item (v : pyval) (k : string) : M Dwarf pyval :=
  lift_res (getitem v k).

(** [list(v)]: the items that iterating over [v] gives. *)
Fixpoint chars (s : string) : list pyval :=
  match s with
  | EmptyString => []
  | String c s' => PStr (String c EmptyString) :: chars s'
  end.

Definition iter_of (v : pyval) : res (list pyval) :=
  match v with
  | PStr s => Ret (chars s)
  | PList l => Ret l
  | PDict d => Ret (map PStr (dict_keys d))
  | PBytes b => Ret (map (fun x => PInt (Z.of_N (Byte.to_N x))) b)
  | PNone | PBool _ | PInt _ => Raise TypeError
  end.

Definition int_of (v : pyval) : option Z :=
  match v with
  | PInt z => Some z
  | PBool b => Some (if b then 1 else 0)
  | _ => None
  end.

(** [a += b], the value [a] is bound to afterwards: concatenation of two
    strings or two bytes objects, the sum of two numbers, and a list
    extended by the items of any iterable. *)
Definition iadd (a b : pyval) : res pyval :=
  match a, b with
  | PStr x, PStr y => Ret (PStr (x +:+ y))
  | PBytes x, PBytes y => Ret (PBytes (x ++ y))
  | PList l, _ => res_bind (iter_of b) (fun items => Ret (PList (l ++ items)))
  | _, _ =>
      match int_of a, int_of b with
      | Some x, Some y => Ret (PInt (x + y))
      | _, _ => Raise TypeError
      end
  end.

(** Lines 739-748: the name and the symbol of a hit.  The symbol is built
    with [+=] from the module name, [' - '] and the symbol name.  A module
    name that is a list is extended in place by Python; what that does to
    the snapshot held by [Context], a class that is not among the sources,
    is not modelled. *)
Definition hit_symbol (cd : pyval) : res (pyval * pyval) :=
  res_bind (getitem cd "context") (fun ctx =>
  res_bind (contains "pc" ctx) (fun has_pc =>
  if has_pc
  then
    res_bind (getitem cd "ptr") (fun name =>
    res_bind (getitem ctx "pc") (fun pc =>
    res_bind (contains "symbol" pc) (fun has_symbol =>
    if has_symbol
    then
      res_bind (getitem pc "symbol") (fun symbol =>
      res_bind (getitem symbol "name") (fun sname =>
      match sname with
      | PNone => Ret (name, PStr "")
      | _ =>
          res_bind (getitem symbol "moduleName") (fun sym =>
          res_bind (iadd sym (PStr " - ")) (fun sym =>
          res_bind (getitem symbol "name") (fun sname =>
          res_bind (iadd sym sname) (fun sym =>
          Ret (name, sym)))))
      end))
    else Ret (name, PStr ""))))
  else res_bind (getitem cd "ptr") (fun name => Ret (name, PStr ""))))%string.

Definition _on_apply_context (context_data : list (string * pyval))
  : M Dwarf unit :=
  let cd := PDict context_data in
  reason ← item cd "reason";
  (if eq_int reason (-1)
   then
     v ← item cd "arch"; modify (set_arch v) ;;
     v ← item cd "platform"; modify (set_platform v) ;;
     v ← item cd "pointerSize"; modify (set_pointer_size v) ;;
     v ← item cd "java"; modify (set_java_available v) ;;
     self ← get;
     emit (onLogEvent ("injected into := " +:+ str_of_Z (_pid self))) ;;
     if truthy (java_available self)
     then tell UiAddJavaOnLoadAction
     else mret tt
   else if dict_has "context" context_data
   then
     c ← item cd "context";
     let context := {| snapshot := c |} in
     tid ← item cd "tid";
     modify (fun self =>
       set_contexts (dict_set (py_str E tid) context (contexts self)) self) ;;
     '(name, sym) ← lift_res (hit_symbol cd);
     r ← item cd "reason";
     if eq_int r 0
     then
       tid ← item cd "tid";
       d ← lift_res (fmt_d tid);
       emit (onLogEvent ("hook " +:+ py_str E name +:+ " " +:+ py_str E sym
                         +:+ " @thread := " +:+ d))
     else mret tt
   else mret tt) ;;
  self ← get;
  if negb (eq_int reason (-1)) && eq_int (context_tid self) 0
  then tid ← item cd "tid"; modify (set_context_tid tid)
  else mret tt.

(** [_on_request_resume_from_js] (lines 756-757) *)
Definition _on_request_resume_from_js (tid : Z) : M Dwarf unit :=
  reading (fun self => dwarf_api E self "release" (PInt tid) (PInt tid)) ;;
  mret tt.

End Core.

(* ===================================================================== *)
(** ** The message dispatcher (lines 554-718) *)
(* ===================================================================== *)

Section Dispatcher.
Context (E : Env).

Definition loads (s : string) : M Dwarf pyval :=
  lift_res (of_option (json_loads E s) ValueError).

(** The argument check of a signal declared with [list] or [dict]. *)
Definition as_list (v : pyval) : M Dwarf (list pyval) :=
  match v with PList l => mret l | _ => raise TypeError end.

Definition as_dict (v : pyval) : M Dwarf (list (string * pyval)) :=
  match v with PDict d => mret d | _ => raise TypeError end.

(** [registry.pop(key)] *)
Definition pop `{Countable K} (k : K) (m : gmap K Hook)
  : res (gmap K Hook) :=
  match m !! k with
  | Some _ => Ret (delete k m)
  | None => Raise KeyError
  end.

Section Handlers.
Context (what : string) (parts : list string) (data : option (list Byte.byte)).

Definition p (i : nat) : M Dwarf string := lift_res (part parts i).

Definition on_api_ping_timeout : M Dwarf unit :=
  self ← get;
  match _script self with
  | None => raise AttributeError
  | Some _ => p1 ← p 1; reading (fun _ => script_post E (PStr p1))
  end.

Definition on_backtrace : M Dwarf unit :=
  p1 ← p 1; v ← loads p1; d ← as_dict v; emit (onBackTrace d).

Definition on_class_loader_loading_class : M Dwarf unit :=
  p1 ← p 1; p2 ← p 2;
  tell (log_event ("@thread " +:+ p1 +:+ " loading class := " +:+ p2)).

Definition on_enumerate_java_classes_match : M Dwarf unit :=
  p1 ← p 1; emit (onEnumerateJavaClassesMatch p1).

Definition on_enumerate_java_methods_complete : M Dwarf unit :=
  p1 ← p 1; p2 ← p 2; v ← loads p2;
  emit (onEnumerateJavaMethodsComplete [PStr p1; v]).

(** Line 583 reads [self.app]; the class defines no attribute of that name
    (the window is [self._app_window]). *)
Definition on_ftrace : M Dwarf unit := raise AttributeError.

Definition on_hook_java_callback : M Dwarf unit :=
  let h := Hook_init E HOOK_JAVA in
  let h := set_ptr 1 h in
  p1 ← p 1;
  let h := set_input p1 h in
  self ← get;
  h ← (if truthy (java_pending_args self)
       then
         c ← lift_res (getitem (java_pending_args self) "condition");
         l ← lift_res (getitem (java_pending_args self) "logic");
         modify (set_java_pending_args PNone) ;;
         mret (set_logic l (set_condition c h))
       else mret h);
  modify (fun self =>
    set_java_hooks (<[get_input h := h]> (java_hooks self)) self) ;;
  emit (onAddJavaHook h).

Definition on_hook_java_on_load_callback : M Dwarf unit :=
  let h := Hook_init E HOOK_JAVA in
  let h := set_ptr 0 h in
  p1 ← p 1;
  let h := set_input p1 h in
  modify (fun self =>
    set_java_on_loads (<[p1 := h]> (java_on_loads self)) self) ;;
  emit (onAddJavaOnLoadHook h).

Definition on_hook_native_callback : M Dwarf unit :=
  let h := Hook_init E HOOK_NATIVE in
  p1 ← p 1;
  a ← lift_res (of_option (py_int16 E p1) ValueError);
  let h := set_ptr a h in
  self ← get;
  let h := set_input (temporary_input self) h in
  p2 ← p 2;
  b ← lift_res (of_option (unhexlify E p2) ValueError);
  let h := set_bytes b h in
  modify (set_temporary_input "") ;;
  p4 ← p 4;
  let h := set_condition (PStr p4) h in
  p3 ← p 3;
  let h := set_logic (PStr p3) h in
  p5 ← p 5;
  let h := set_internalHook (String.eqb p5 "true") h in
  p6 ← p 6;
  s ← loads p6;
  let h := set_debug_symbol s h in
  modify (set_native_pending_args PNone) ;;
  match internal_hook h with
  | None => raise AttributeError
  | Some true => mret tt
  | Some false =>
      modify (fun self => set_hooks (<[get_ptr h := h]> (hooks self)) self) ;;
      emit (onAddNativeHook h)
  end.

Definition on_hook_native_on_load_callback : M Dwarf unit :=
  let h := Hook_init E HOOK_ONLOAD in
  let h := set_ptr 0 h in
  p1 ← p 1;
  let h := set_input p1 h in
  modify (fun self =>
    set_native_on_loads (<[p1 := h]> (native_on_loads self)) self) ;;
  emit (onAddNativeOnLoadHook h).

Definition on_hook_deleted : M Dwarf unit :=
  p1 ← p 1;
  (if String.eqb p1 "java"
   then
     p2 ← p 2; self ← get;
     m ← lift_res (pop p2 (java_hooks self));
     modify (set_java_hooks m)
   else if String.eqb p1 "native_on_load"
   then
     p2 ← p 2; self ← get;
     m ← lift_res (pop p2 (native_on_loads self));
     modify (set_native_on_loads m)
   else if String.eqb p1 "java_on_load"
   then
     p2 ← p 2; self ← get;
     m ← lift_res (pop p2 (java_on_loads self));
     modify (set_java_on_loads m)
   else
     p2 ← p 2; self ← get;
     m ← lift_res (pop (parse_ptr E (PStr p2)) (hooks self));
     modify (set_hooks m)) ;;
  emit (onDeleteHook parts).

Definition on_java_on_load_callback : M Dwarf unit :=
  p1 ← p 1; p2 ← p 2;
  tell (log_event ("Hook java onload " +:+ p1 +:+ " @thread := " +:+ p2)) ;;
  emit (onHitJavaOnLoad p1).

Definition on_log : M Dwarf unit :=
  p1 ← p 1; tell (log p1).

Definition on_native_on_load_callback : M Dwarf unit :=
  p1 ← p 1; p3 ← p 3;
  tell (log_event ("Hook native onload " +:+ p1 +:+ " @thread := " +:+ p3)) ;;
  p2 ← p 2;
  emit (onHitNativeOnLoad [p1; p2]).

Definition on_native_on_load_module_loading : M Dwarf unit :=
  p1 ← p 1; p2 ← p 2;
  tell (log_event ("@thread " +:+ p1 +:+ " loading module := " +:+ p2)).

Definition on_new_thread : M Dwarf unit :=
  p1 ← p 1; p2 ← p 2;
  tell (log_event ("@thread " +:+ p1
                   +:+ " starting new thread with target fn := " +:+ p2)).

Definition on_release : M Dwarf unit :=
  p1 ← p 1;
  tell (log_event ("releasing := " +:+ p1)) ;;
  self ← get;
  (if dict_has p1 (contexts self)
   then modify (set_contexts (dict_del p1 (contexts self)))
   else mret tt) ;;
  n ← lift_res (of_option (py_int E p1) ValueError);
  emit (onThreadResumed n).

Definition on_resume : M Dwarf unit :=
  self ← get;
  if negb (_resumed self) then resume_proc else mret tt.

Definition on_release_js : M Dwarf unit :=
  p1 ← p 1;
  n ← lift_res (of_option (py_int E p1) ValueError);
  emit (onRequestJsThreadResume n) ;;
  _on_request_resume_from_js E n.

Definition on_set_context : M Dwarf unit :=
  p1 ← p 1;
  data ← loads p1;
  has ← lift_res (contains "modules" data);
  (if has : bool
   then v ← item data "modules"; l ← as_list v; emit (onSetModules l)
   else mret tt) ;;
  has ← lift_res (contains "ranges" data);
  (if has : bool
   then v ← item data "ranges"; l ← as_list v; emit (onSetRanges l)
   else mret tt) ;;
  has ← lift_res (contains "backtrace" data);
  (if has : bool
   then v ← item data "backtrace"; d ← as_dict v; emit (onBackTrace d)
   else mret tt) ;;
  d ← as_dict data;
  emit (onApplyContext d) ;;
  _on_apply_context E d.

Definition on_set_context_value : M Dwarf unit :=
  p1 ← p 1; p2 ← p 2; emit (onContextChanged p1 p2).

Definition on_set_data : M Dwarf unit :=
  match data with
  | Some (b :: bs) =>
      p1 ← p 1; emit (onSetData [PStr "raw"; PStr p1; PBytes (b :: bs)])
  | _ =>
      p1 ← p 1; p2 ← p 2;
      emit (onSetData [PStr "plain"; PStr p1; PStr p2])
  end.

Definition on_update_modules : M Dwarf unit :=
  p2 ← p 2; v ← loads p2; l ← as_list v; emit (onSetModules l).

Definition on_update_ranges : M Dwarf unit :=
  p2 ← p 2; v ← loads p2; l ← as_list v; emit (onSetRanges l).

Definition on_watcher : M Dwarf unit :=
  p1 ← p 1;
  exception ← loads p1;
  m ← item exception "memory"; op ← item m "operation";
  m ← item exception "memory"; addr ← item m "address";
  p2 ← p 2;
  tell (log_event ("watcher hit op " +:+ py_str E op +:+ " address "
                   +:+ py_str E addr +:+ " @thread := " +:+ p2)).

Definition on_watcher_added : M Dwarf unit :=
  p1 ← p 1;
  let ptr := parse_ptr E (PStr p1) in
  let hex_ptr := hex ptr in
  p2 ← p 2;
  flags ← lift_res (of_option (py_int E p2) ValueError);
  let h := Hook_init E HOOK_WATCHER in
  let h := set_ptr ptr h in
  let h := set_logic (PInt flags) h in
  p3 ← p 3;
  s ← loads p3;
  let h := set_debug_symbol s h in
  modify (fun self => set_watchers (<[hex_ptr := h]> (watchers self)) self) ;;
  emit (onWatcherAdded hex_ptr flags).

Definition on_watcher_removed : M Dwarf unit :=
  p1 ← p 1;
  let hex_ptr := hex (parse_ptr E (PStr p1)) in
  self ← get;
  m ← lift_res (pop hex_ptr (watchers self));
  modify (set_watchers m) ;;
  emit (onWatcherRemoved hex_ptr).

Definition on_memoryscan_result : M Dwarf unit :=
  p1 ← p 1;
  if String.eqb p1 ""
  then emit (onMemoryScanResult [])
  else v ← loads p1; l ← as_list v; emit (onMemoryScanResult l).

(** The [if]/[elif] chain on [cmd = parts[0]] (lines 566-718). *)
Definition dispatch (cmd : string) : M Dwarf unit :=
  if String.eqb cmd "api_ping_timeout" then on_api_ping_timeout
  else if String.eqb cmd "backtrace" then on_backtrace
  else if String.eqb cmd "class_loader_loading_class"
  then on_class_loader_loading_class
  else if String.eqb cmd "enumerate_java_classes_start"
  then emit onEnumerateJavaClassesStart
  else if String.eqb cmd "enumerate_java_classes_match"
  then on_enumerate_java_classes_match
  else if String.eqb cmd "enumerate_java_classes_complete"
  then emit onEnumerateJavaClassesComplete
  else if String.eqb cmd "enumerate_java_methods_complete"
  then on_enumerate_java_methods_complete
  else if String.eqb cmd "ftrace" then on_ftrace
  else if String.eqb cmd "enable_kernel" then tell UiEnableKernelMenu
  else if String.eqb cmd "hook_java_callback" then on_hook_java_callback
  else if String.eqb cmd "hook_java_on_load_callback"
  then on_hook_java_on_load_callback
  else if String.eqb cmd "hook_native_callback" then on_hook_native_callback
  else if String.eqb cmd "hook_native_on_load_callback"
  then on_hook_native_on_load_callback
  else if String.eqb cmd "hook_deleted" then on_hook_deleted
  else if String.eqb cmd "java_on_load_callback" then on_java_on_load_callback
  else if String.eqb cmd "java_trace" then emit (onJavaTraceEvent parts)
  else if String.eqb cmd "log" then on_log
  else if String.eqb cmd "native_on_load_callback"
  then on_native_on_load_callback
  else if String.eqb cmd "native_on_load_module_loading"
  then on_native_on_load_module_loading
  else if String.eqb cmd "new_thread" then on_new_thread
  else if String.eqb cmd "release" then on_release
  else if String.eqb cmd "resume" then on_resume
  else if String.eqb cmd "release_js" then on_release_js
  else if String.eqb cmd "set_context" then on_set_context
  else if String.eqb cmd "set_context_value" then on_set_context_value
  else if String.eqb cmd "set_data" then on_set_data
  else if String.eqb cmd "unhandled_exception" then mret tt
  else if String.eqb cmd "update_modules" then on_update_modules
  else if String.eqb cmd "update_ranges" then on_update_ranges
  else if String.eqb cmd "watcher" then on_watcher
  else if String.eqb cmd "watcher_added" then on_watcher_added
  else if String.eqb cmd "watcher_removed" then on_watcher_removed
  else if String.eqb cmd "memoryscan_result" then on_memoryscan_result
  else tell (Print ("unknown message: " +:+ what)).

End Handlers.

(** [_on_message(message, data)]: [message] is the dictionary the engine
    delivers, [data] the out-of-band buffer.  The pumping of the UI event
    queue (line 555) is not part of the model. *)
Definition _on_message (message : list (string * pyval))
           (data : option (list Byte.byte)) : M Dwarf unit :=
  match dict_get "payload" message with
  | None => tell (Print ("payload: " +:+ py_str E (PDict message)))
  | Some (PStr what) =>
      let parts := split ":::" what in
      if (length parts <? 2)%nat
      then tell (Print what)
      else dispatch what parts data (nth 0 parts "")
  | Some (PBytes _) => raise TypeError
  | Some _ => raise AttributeError
  end.

(** The tags of the protocol, in the order of the chain. *)
Definition known_tags : list string :=
  [ "api_ping_timeout"; "backtrace"; "class_loader_loading_class";
    "enumerate_java_classes_start"; "enumerate_java_classes_match";
    "enumerate_java_classes_complete"; "enumerate_java_methods_complete";
    "ftrace"; "enable_kernel"; "hook_java_callback";
    "hook_java_on_load_callback"; "hook_native_callback";
    "hook_native_on_load_callback"; "hook_deleted"; "java_on_load_callback";
    "java_trace"; "log"; "native_on_load_callback";
    "native_on_load_module_loading"; "new_thread"; "release"; "resume";
    "release_js"; "set_context"; "set_context_value"; "set_data";
    "unhandled_exception"; "update_modules"; "update_ranges"; "watcher";
    "watcher_added"; "watcher_removed"; "memoryscan_result" ].

End Dispatcher.

(* ===================================================================== *)
(** ** The address-range cache (range.py) *)
(* ===================================================================== *)

Module Range.

(** The attributes of a [Range] instance.  [self.dwarf] is a reference to
    the session; the methods below only read it, so it is passed to them
    as an argument. *)
Record Range : Type := {
  source : Z;
  base : Z;
  size : Z;
  tail : Z;
  data : pyval;
  start_address : Z;
  start_offset : Z
}.

Definition SOURCE_TARGET : Z := 0.

Definition set_base (v : Z) (self : Range) : Range :=
  {| source := source self; base := v; size := size self; tail := tail self;
     data := data self; start_address := start_address self;
     start_offset := start_offset self |}.

Definition set_size (v : Z) (self : Range) : Range :=
  {| source := source self; base := base self; size := v; tail := tail self;
     data := data self; start_address := start_address self;
     start_offset := start_offset self |}.

Definition set_tail (v : Z) (self : Range) : Range :=
  {| source := source self; base := base self; size := size self; tail := v;
     data := data self; start_address := start_address self;
     start_offset := start_offset self |}.

Definition set_data (v : pyval) (self : Range) : Range :=
  {| source := source self; base := base self; size := size self;
     tail := tail self; data := v; start_address := start_address self;
     start_offset := start_offset self |}.

Definition set_start_address (v : Z) (self : Range) : Range :=
  {| source := source self; base := base self; size := size self;
     tail := tail self; data := data self; start_address := v;
     start_offset := start_offset self |}.

Definition set_start_offset_field (v : Z) (self : Range) : Range :=
  {| source := source self; base := base self; size := size self;
     tail := tail self; data := data self;
     start_address := start_address self; start_offset := v |}.

(** [__init__] (lines 27-39) *)
Definition Range_init (src : Z) : Range :=
  {| source := src; base := 0; size := 0; tail := 0; data := PBytes [];
     start_address := 0; start_offset := 0 |}.

(** [invalidate] (lines 41-48) *)
Definition invalidate (self : Range) : Range :=
  {| source := source self; base := 0; size := 0; tail := 0;
     data := PBytes []; start_address := 0; start_offset := 0 |}.

(** [set_start_offset] (lines 105-107) *)
Definition set_start_offset (offset : Z) (self : Range) : Range :=
  set_start_address (base self + offset) (set_start_offset_field offset self).

Section Methods.
Context (E : Env) (dwarf : Dwarf).

(** [bytearray(v)] *)
Definition bytearray_of (v : pyval) : res (list Byte.byte) :=
  match v with
  | PBytes b => Ret b
  | PList l => bytes_of_ints l
  | PInt n => if n <? 0 then Raise ValueError
              else Ret (replicate (Z.to_nat n) Byte.x00)
  | PBool b => Ret (if b then [Byte.x00] else [])
  | PDict [] => Ret []
  | _ => Raise TypeError
  end.

(** [patch_bytes] (lines 99-103) *)
Definition patch_bytes (_bytes : pyval) (offset : Z) : M Range unit :=
  self ← get;
  data_bt ← lift_res (bytearray_of (data self));
  org_bytes ← lift_res (match _bytes with
                        | PStr s => of_option (fromhex E s) ValueError
                        | _ => Raise TypeError
                        end);
  let data_bt :=
    slice_assign data_bt offset (offset + Z.of_nat (length org_bytes))
                 org_bytes in
  modify (set_data (PBytes data_bt)).

(** The body of the loop of lines 82-91, for one entry of the hook table. *)
Definition patch_hook (hook : pyval) : M Range unit :=
  np ← lift_res (getitem hook "nativePtr");
  if negb (parse_ptr E np =? 1)
  then
    hb ← lift_res (getitem hook "bytes");
    if truthy hb
    then
      let hook_address := parse_ptr E np in
      let hook_address :=
        if negb (hook_address mod 2 =? 0) then hook_address - 1
        else hook_address in
      self ← get;
      if (base self <? hook_address) && (hook_address <? tail self)
      then
        let offset := hook_address - base self in
        hb ← lift_res (getitem hook "bytes");
        patch_bytes hb offset
      else mret tt
    else mret tt
  else mret tt.

Fixpoint patch_hooks (hooks : list (string * pyval)) (keys : list string)
  : M Range unit :=
  match keys with
  | [] => mret tt
  | key :: keys' =>
      hook ← lift_res (of_option (dict_get key hooks) KeyError);
      patch_hook hook ;;
      patch_hooks hooks keys'
  end.

(** [self.dwarf._script.exports.hooks()] *)
Definition script_hooks : T string :=
  match _script dwarf with
  | None => (Raise AttributeError, [])
  | Some _ =>
      (match hooks_reply E with
       | inl s => Ret s
       | inr msg => Raise (RemoteError msg)
       end, [ScriptHooks])
  end.

(** A number read from a reply, where the code does arithmetic on it. *)
Definition as_int (v : pyval) : res Z :=
  match v with
  | PInt z => Ret z
  | PBool b => Ret (if b then 1 else 0)
  | _ => Raise TypeError
  end.

(** Lines 58-91: the fetch from the target.  The result is [Some status]
    where the code returns from inside the block.  A [size] in the reply
    that is not a number makes line 71 or 73 raise [TypeError]; the model
    raises it when the value is read. *)
Definition fetch (length base_arg : Z) (require_data : bool)
  : M Range (option Z) :=
  self ← get;
  reply ← attempt (dwarf_api E dwarf "getRange"
                     (PInt (start_address self)) (PInt 0));
  match reply with
  | None => mret (Some 1)
  | Some PNone => mret (Some 1)
  | Some _range =>
      n ← lift_res (len _range);
      if n =? 0 then mret (Some 1)
      else
        b ← lift_res (getitem _range "base");
        b ← lift_res (match b with
                      | PStr x => of_option (py_int16 E x) ValueError
                      | _ => Raise TypeError
                      end);
        modify (set_base b) ;;
        (if base_arg >? 0 then modify (set_base base_arg) else mret tt) ;;
        sz ← lift_res (getitem _range "size");
        sz ← lift_res (as_int sz);
        modify (set_size sz) ;;
        (if (0 <? length) && (length <? sz)
         then modify (set_size length) else mret tt) ;;
        modify (fun self => set_tail (base self + size self) self) ;;
        modify (fun self =>
          set_start_offset_field (start_address self - base self) self) ;;
        (if require_data
         then
           self ← get;
           d ← reading (fun _ => read_memory E dwarf (base self) (size self));
           modify (set_data d) ;;
           js ← reading (fun _ => script_hooks);
           hooks ← lift_res (of_option (json_loads E js) ValueError);
           match hooks with
           | PDict hs => patch_hooks hs (dict_keys hs)
           | _ => raise AttributeError
           end
         else mret tt) ;;
        mret None
  end.

(** Lines 92-97: the status once the fetch is over. *)
Definition data_status : M Range Z :=
  self ← get;
  match data self with
  | PNone => modify (set_data (PBytes [])) ;; mret 1
  | d =>
      n ← lift_res (len d);
      if n =? 0 then mret 1 else mret 0
  end.

(** Lines 53-54: the request falls into the cached region. *)
Definition cache_hit (self : Range) : bool :=
  (base self >? 0)
  && (base self <? start_address self) && (start_address self <? tail self).

(** [init_with_address(address, length, base, require_data)] (lines 50-97) *)
Definition init_with_address (address : pyval) (length base_arg : Z)
           (require_data : bool) : M Range Z :=
  modify (set_start_address (parse_ptr E address)) ;;
  self ← get;
  if cache_hit self
  then
    modify (set_start_offset_field (start_address self - base self)) ;;
    mret (-1)
  else
    early ← (if source self =? SOURCE_TARGET
             then fetch length base_arg require_data
             else mret None);
    match early with
    | Some status => mret status
    | None => data_status
    end.

(** The range lookup of lines 59-64 fails: the call raises, or the reply is
    [None] or empty. *)
Definition lookup_fails (self : Range) (a : Z) : Prop :=
  source self = SOURCE_TARGET /\
  match dwarf_api E dwarf "getRange" (PInt a) (PInt 0) with
  | (Raise _, _) => True
  | (Ret PNone, _) => True
  | (Ret v, _) => len v = Ret 0
  end.

End Methods.
End Range.

(* ===================================================================== *)
(** ** A concrete environment, for running the model on examples *)
(* ===================================================================== *)

Module Sample.

Definition digit_value (c : ascii) : option Z :=
  let n := Z.of_N (N_of_ascii c) in
  if (48 <=? n) && (n <=? 57) then Some (n - 48)
  else if (97 <=? n) && (n <=? 102) then Some (n - 87)
  else if (65 <=? n) && (n <=? 70) then Some (n - 55)
  else None.

Fixpoint digits (radix : Z) (s : string) (acc : Z) : option Z :=
  match s with
  | EmptyString => Some acc
  | String c s' =>
      match digit_value c with
      | Some d => if d <? radix then digits radix s' (radix * acc + d)
                  else None
      | None => None
      end
  end.

Definition number (radix : Z) (s : string) : option Z :=
  match s with
  | EmptyString => None
  | String "-" EmptyString => None
  | String "-" s' => option_map Z.opp (digits radix s' 0)
  | _ => digits radix s 0
  end.

(** [int(s)] on plain decimal numerals *)
Definition int10 (s : string) : option Z := number 10 s.

(** [int(s, 16)] on hexadecimal numerals, with or without [0x] *)
Definition int16 (s : string) : option Z :=
  match s with
  | String "0" (String "x" s') => number 16 s'
  | _ => number 16 s
  end.

(** [bytes.fromhex] / [binascii.unhexlify] on an even number of digits *)
Fixpoint hex_bytes (s : string) : option (list Byte.byte) :=
  match s with
  | EmptyString => Some []
  | String a (String b s') =>
      match digit_value a, digit_value b, hex_bytes s' with
      | Some x, Some y, Some bs =>
          option_map (fun c => c :: bs) (Byte.of_N (Z.to_N (16 * x + y)))
      | _, _, _ => None
      end
  | String _ EmptyString => None
  end.

(** [utils.parse_ptr] on integers and on [0x...] or decimal strings *)
Definition ptr_of (v : pyval) : Z :=
  match v with
  | PInt z => z
  | PStr (String "0" (String "x" s')) => default 0 (number 16 s')
  | PStr s => default 0 (number 10 s)
  | _ => 0
  end.

(** A freshly constructed hook: nothing set, not internal. *)
Definition fresh_hook (k : hook_kind) : Hook :=
  {| hook_type := k; ptr := 0; input := ""; bytes := None;
     condition := PStr ""; logic := PStr ""; internal_hook := Some false;
     internalHook := None; debug_symbol := PNone |}.

(** An environment whose JSON decoder is a table of the texts in use and
    whose script never raises unless [api] says so. *)
Definition env (json : list (string * pyval))
           (api : pyval -> string -> pyval -> pyval + string)
           (hooks_text : string) : Env :=
  {| py_int := int10; py_int16 := int16;
     unhexlify := hex_bytes; fromhex := hex_bytes;
     json_loads := fun s => dict_get s json;
     repr := fun v => match v with
                      | PStr s => "'" +:+ s +:+ "'"
                      | _ => "<object>"
                      end;
     parse_ptr := ptr_of;
     Hook_init := fresh_hook;
     plugin_candidates := [];
     post_error := fun _ => None;
     api_reply := api;
     hooks_reply := inl hooks_text |}.

Definition no_reply : pyval -> string -> pyval -> pyval + string :=
  fun _ _ _ => inl PNone.

(** A decoder for the three shortest JSON texts, every call answered with
    [None]. *)
Definition quiet : Env :=
  env [("null", PNone); ("{}", PDict []); ("[]", PList [])] no_reply "{}".

(** The decoded handshake of a 64-bit Linux target without Java;
    ["<initial>"] stands for its JSON text. *)
Definition initial_context : list (string * pyval) :=
  [("reason", PInt (-1)); ("arch", PStr "arm64"); ("platform", PStr "linux");
   ("pointerSize", PInt 8); ("java", PBool false)].

Definition handshake : Env :=
  env [("<initial>", PDict initial_context)] no_reply "{}".

(** A session attached to process 1234 with the script loaded. *)
Definition attached : Dwarf :=
  {| java_available := PBool false; _plugins := []; _device := Some 1%nat;
     _pid := 1234; _package := None; _process := Some 2%nat;
     _script := Some 3%nat; _spawned := false; _resumed := false;
     hooks := ∅; native_on_loads := ∅; java_on_loads := ∅; java_hooks := ∅;
     watchers := ∅; temporary_input := ""; native_pending_args := PNone;
     java_pending_args := PNone;
     _arch := PStr "arm64"; _pointer_size := PInt 8; contexts := [];
     context_tid := PInt 0; _platform := PStr "linux" |}.

Definition ctx (pc : Z) : Context :=
  {| snapshot := PDict [("pc", PDict [("value", PInt pc)])] |}.

(** The same session with threads 7 and 9 stopped at a hook. *)
Definition stopped : Dwarf :=
  set_context_tid (PInt 7)
    (set_contexts [("7", ctx 4096); ("9", ctx 8192)] attached).

(** A target with one region of 8 bytes at 0x1000.  The bytes 00 .. 07
    were there originally; hooks at 0x1000 and at 0x1004 have overwritten
    two bytes each with the trap [cc cc], and the script reports both with
    their original bytes.  ["<hooks>"] stands for the JSON text of that
    report, which the decoder table maps to its value. *)
Definition region_api : pyval -> string -> pyval -> pyval + string :=
  fun _ name _ =>
    if String.eqb name "getRange"
    then inl (PDict [("base", PStr "0x1000"); ("size", PInt 8)])
    else if String.eqb name "readBytes"
    then inl (PBytes [Byte.xcc; Byte.xcc; Byte.x02; Byte.x03;
                      Byte.xcc; Byte.xcc; Byte.x06; Byte.x07])
    else inl PNone.

Definition region_hooks : pyval :=
  PDict [("0x1000", PDict [("nativePtr", PStr "0x1000");
                           ("bytes", PStr "0001")]);
         ("0x1004", PDict [("nativePtr", PStr "0x1004");
                           ("bytes", PStr "0405")])].

Definition target : Env := env [("<hooks>", region_hooks)] region_api "<hooks>".

(** The cache after a first fetch of that region, with and without data. *)
Definition fetched : Range.Range :=
  state (Range.init_with_address target attached (PInt 4100) 0 0 true
           (Range.Range_init 0)).

Definition fetched_without_data : Range.Range :=
  state (Range.init_with_address target attached (PInt 4100) 0 0 false
           (Range.Range_init 0)).


Definition reader : Env :=
  env []
      (fun _ name _ =>
         if String.eqb name "readBytes" then inl (PBytes [Byte.x01])
         else inl PNone)
      "{}".

Definition evaluating : Env :=
  env [("null", PNone)]
      (fun _ name _ =>
         if String.eqb name "evaluatePtr" then inl (PInt 4096)
         else inl PNone)
      "{}".

(** A session that spawned process 1234 and has not resumed it yet. *)
Definition spawned : Dwarf :=
  {| java_available := PBool false; _plugins := []; _device := Some 1%nat;
     _pid := 1234; _package := Some "com.app"; _process := Some 2%nat;
     _script := Some 3%nat; _spawned := true; _resumed := false;
     hooks := ∅; native_on_loads := ∅; java_on_loads := ∅; java_hooks := ∅;
     watchers := ∅; temporary_input := ""; native_pending_args := PNone;
     java_pending_args := PNone;
     _arch := PStr ""; _pointer_size := PInt 0; contexts := [];
     context_tid := PInt 0; _platform := PStr "" |}.

(** A cache of the region at 0x1000 that holds only its first four
    bytes. *)
Definition short_cache : Range.Range :=
  {| Range.source := 0; Range.base := 4096; Range.size := 8;
     Range.tail := 4104;
     Range.data := PBytes [Byte.xcc; Byte.xcc; Byte.xcc; Byte.xcc];
     Range.start_address := 4096; Range.start_offset := 0 |}.

End Sample.

(* ===================================================================== *)
(** ** Requests of the user interface (core.py, lines 231-236, 450-498,
       533-539, 551-552) *)
(* ===================================================================== *)

Section Requests.
Context (E : Env).

(** [is_address_watched] (lines 231-236) *)
Definition is_address_watched (self : Dwarf) (ptr : pyval) : bool :=
  match watchers self !! hex (parse_ptr E ptr) with
  | Some _ => true
  | None => false
  end.

(** [_on_script_destroyed] (lines 551-552) *)
Definition _on_script_destroyed : M Dwarf unit := modify (set_script None).

(** [s.replace(' ', '')] *)
Fixpoint remove_spaces (s : string) : string :=
  match s with
  | EmptyString => EmptyString
  | String c s' =>
      if Ascii.eqb c " " then remove_spaces s'
      else String c (remove_spaces s')
  end.

(** [hook_java] (lines 450-459), called with a string [input_]; without
    one the method asks the user through a dialog, which is outside the
    core. *)
Definition hook_java (input_ : string) (pending_args : pyval)
  : M Dwarf unit :=
  modify (set_java_pending_args pending_args) ;;
  let input_ := remove_spaces input_ in
  reading (fun self => dwarf_api E self "hookJava" (PStr input_) (PInt 0)) ;;
  mret tt.

(** [hook_native] (lines 461-471), called with a string [input_].
    [window] is the session that the application window holds
    ([self._app_window.dwarf]); [own_input] is [None] when omitted. *)
Definition hook_native (window : Dwarf) (input_ : string)
           (pending_args : pyval) (own_input : option string)
  : M Dwarf unit :=
  r ← reading (fun _ => dwarf_api E window "evaluatePtr" (PStr input_)
                          (PInt 0));
  let ptr := parse_ptr E r in
  if ptr >? 0
  then
    modify (set_temporary_input input_) ;;
    (match own_input with
     | Some o => modify (set_temporary_input o)
     | None => mret tt
     end) ;;
    modify (set_native_pending_args pending_args) ;;
    reading (fun self => dwarf_api E self "hookNative" (PInt ptr) (PInt 0)) ;;
    mret tt
  else mret tt.

(** [hook_native_on_load] and [hook_java_on_load] (lines 473-498), called
    with a string [input_].  Both look the name up in the native on-load
    registry of the window's session. *)
Definition hook_native_on_load (window : Dwarf) (input_ : string)
  : M Dwarf unit :=
  match native_on_loads window !! input_ with
  | Some _ => mret tt
  | None =>
      reading (fun self =>
        dwarf_api E self "hookNativeOnLoad" (PStr input_) (PInt 0)) ;;
      mret tt
  end.

Definition hook_java_on_load (window : Dwarf) (input_ : string)
  : M Dwarf unit :=
  match native_on_loads window !! input_ with
  | Some _ => mret tt
  | None =>
      reading (fun self =>
        dwarf_api E self "hookJavaOnLoad" (PStr input_) (PInt 0)) ;;
      mret tt
  end.



(** [int(v)] for a number or a numeral *)
Definition to_int (v : pyval) : res Z :=
  match v with
  | PInt z => Ret z
  | PBool b => Ret (if b then 1 else 0)
  | PStr s => of_option (py_int E s) ValueError
  | _ => Raise TypeError
  end.


End Requests.

(* ===================================================================== *)
(** ** Vocabulary of the statements *)
(* ===================================================================== *)

(** One round of the release broadcast for the context key [k]: the routing
    notification, then the release call for the thread id that [k] spells. *)
Definition release_round (E : Env) (k : string) : list effect :=
  let n := default 0 (py_int E k) in
  [ScriptPost (PStr k); ScriptApi (PInt n) "release" (PList [PInt n])].

(** The round for [k] goes through: [k] spells an integer and neither the
    post nor the call raises. *)
Definition round_succeeds (E : Env) (k : string) : Prop :=
  exists n v, py_int E k = Some n /\ post_error E (PStr k) = None
              /\ api_reply E (PInt n) "release" (PList [PInt n]) = inl v.

Definition is_post_to (k : string) (e : effect) : bool :=
  match e with
  | ScriptPost (PStr k') => String.eqb k k'
  | _ => false
  end.

Definition is_api_call (e : effect) : bool :=
  match e with
  | ScriptApi _ _ _ => true
  | _ => false
  end.

(** [m] never leaves the set of sessions described by [P]. *)
Definition keeps {A} (P : Dwarf -> Prop) (m : M Dwarf A) : Prop :=
  forall s, P s -> P (state (m s)).

(** No character of [s] is a colon, so [s] is a single field. *)
Fixpoint no_colon (s : string) : bool :=
  match s with
  | EmptyString => true
  | String c s' => negb (Ascii.eqb c ":") && no_colon s'
  end.

(** The entry [k] of a decoded message is absent or a list, respectively
    absent or a dictionary: what the signals that republish it accept. *)
Definition optional_list (k : string) (d : list (string * pyval)) : Prop :=
  match dict_get k d with
  | None | Some (PList _) => True
  | Some _ => False
  end.

Definition optional_dict (k : string) (d : list (string * pyval)) : Prop :=
  match dict_get k d with
  | None | Some (PDict _) => True
  | Some _ => False
  end.

(** The plugins that [reload_plugins] ends up loading: the candidates up to
    the first one that fails. *)
Fixpoint loadable (candidates : list (option plugin)) : list plugin :=
  match candidates with
  | Some p :: rest => p :: loadable rest
  | _ => []
  end.

(** The arguments as [dwarf_api] passes them on: a value that is neither
    [None] nor a list is wrapped into a one-element list. *)
Definition passed_args (args : pyval) : pyval :=
  match args with
  | PNone | PList _ => args
  | _ => PList [args]
  end.

(** The thread a call is routed to: the active thread when the caller
    gives 0 and the call is not a release. *)
Definition routed_tid (self : Dwarf) (api : string) (tid : pyval) : pyval :=
  if negb (String.eqb api "release") && eq_int tid 0
  then context_tid self else tid.

(** The [k]-th read of a chunked [read_memory]: its address and its size,
    1 MiB or what is left of [length]. *)
Definition chunk (ptr length : Z) (k : nat) : Z * Z :=
  (ptr + MiB * Z.of_nat k, Z.min MiB (length - MiB * Z.of_nat k)).

Definition chunks (ptr length : Z) (k count : nat) : list (Z * Z) :=
  map (chunk ptr length) (seq k count).

(** One read of [read_memory], and the bytes it contributes when the reply
    is something a bytearray can be extended with. *)
Definition read_chunk (E : Env) (self : Dwarf) (c : Z * Z) : T pyval :=
  dwarf_api E self "readBytes" (PList [PInt c.1; PInt c.2]) (PInt 0).

Definition chunk_bytes (E : Env) (self : Dwarf) (c : Z * Z)
  : option (list Byte.byte) :=
  match (read_chunk E self c).1 with
  | Ret r => match extend_of r with Ret b => Some b | Raise _ => None end
  | Raise _ => None
  end.

(** On the runs of [m] that return, [P] is kept, respectively [Q] holds at
    the end whatever the start. *)
Definition maintains {S A} (P : S -> Prop) (m : M S A) : Prop :=
  forall s a s' t, m s = (Ret a, s', t) -> P s -> P s'.

Definition ensures {S A} (Q : S -> Prop) (m : M S A) : Prop :=
  forall s a s' t, m s = (Ret a, s', t) -> Q s'.

(** The tags whose handlers assign an attribute of the session. *)
Definition mutating_tags : list string :=
  [ "hook_java_callback"; "hook_java_on_load_callback";
    "hook_native_callback"; "hook_native_on_load_callback"; "hook_deleted";
    "release"; "resume"; "set_context"; "watcher_added"; "watcher_removed" ].

(** Tags whose handlers read a third field before they publish anything. *)
Definition three_field_tags : list string :=
  [ "class_loader_loading_class"; "enumerate_java_methods_complete";
    "java_on_load_callback"; "native_on_load_callback";
    "native_on_load_module_loading"; "new_thread"; "set_context_value";
    "update_modules"; "update_ranges"; "hook_deleted"; "watcher_added" ].

(* ===================================================================== *)
(** * Properties *)
(* ===================================================================== *)

(** ** The builtins on examples *)

Example split_fields :
  split ":::" "release:::12" = ["release"; "12"] /\
  split ":::" "a::::b" = ["a"; ":b"] /\
  split ":::" "log" = ["log"] /\
  split ":::" "memoryscan_result:::" = ["memoryscan_result"; ""] /\
  split ":::" "" = [""].
Proof. repeat split. Qed.

Example hex_and_str :
  hex 4096 = "0x1000" /\ hex (-255) = "-0xff" /\ hex 0 = "0x0" /\
  str_of_Z 0 = "0" /\ str_of_Z (-42) = "-42" /\ str_of_Z 1234 = "1234".
Proof. repeat split. Qed.

Example slice_assign_cases :
  slice_assign [1; 2; 3; 4; 5] 1 3 [9; 9] = [1; 9; 9; 4; 5] /\
  slice_assign [1; 2; 3] 2 6 [7; 7; 7; 7] = [1; 2; 7; 7; 7; 7] /\
  slice_assign [1; 2; 3] 5 7 [7; 7] = [1; 2; 3; 7; 7].
Proof. repeat split. Qed.

Example sample_parsers :
  Sample.int10 "42" = Some 42 /\ Sample.int10 "-7" = Some (-7) /\
  Sample.int10 "4x" = None /\ Sample.int16 "0x1000" = Some 4096 /\
  Sample.hex_bytes "00ff" = Some [Byte.x00; Byte.xff].
Proof. repeat split. Qed.

(** ** The command gateway *)

(** C10.  Whatever the api name, the arguments and the thread id,
    [dwarf_api] returns [None], posts nothing to the target and raises
    nothing when no process is attached or no script is loaded. *)
Theorem dwarf_api_without_session (E : Env) (self : Dwarf) (api : string)
        (args tid : pyval) :
  _process self = None \/ _script self = None ->
  dwarf_api E self api args tid = (Ret PNone, []).
Proof.
  intros H. unfold dwarf_api.
  destruct (bool_decide (_process self = None)) eqn:Hp.
  - rewrite orb_true_r. reflexivity.
  - rewrite orb_false_r.
    destruct (negb (_pid self =? 0) && (_pid self =? 0)); [reflexivity|].
    destruct H as [H|H].
    + apply bool_decide_eq_false in Hp. contradiction.
    + rewrite (bool_decide_eq_true_2 _ H). reflexivity.
Qed.

Lemma dwarf_api_without_session_witness :
  (_process (Dwarf_fields (Some 1%nat)) = None
   \/ _script (Dwarf_fields (Some 1%nat)) = None)
  /\ dwarf_api Sample.quiet
       (Dwarf_fields (Some 1%nat)) "readBytes"
       (PList [PInt 4096; PInt 16]) (PInt 0) = (Ret PNone, []).
Proof.
  split.
  - left. reflexivity.
  - apply dwarf_api_without_session. left. reflexivity.
Defined.

(** The loop of [read_memory] leaves through its [break] before the fuel
    is used up: from [Z.to_nat (length - position)] rounds on, one more
    round of fuel changes nothing. *)
Lemma read_memory_loop_fuel (E : Env) (self : Dwarf) (ptr length : Z)
      (fuel : nat) (position next_size : Z) (data : list Byte.byte) :
  0 < next_size -> position < length ->
  (Z.to_nat (length - position) <= fuel)%nat ->
  read_memory_loop E self fuel ptr length position next_size data
  = read_memory_loop E self (S fuel) ptr length position next_size data.
Proof.
  revert position next_size data.
  induction fuel as [|fuel IH]; intros position next_size data Hn Hp Hf.
  - exfalso. lia.
  - cbn [read_memory_loop]. unfold mbind, T_bind.
    destruct (dwarf_api E self "readBytes" _ _) as [[r|e] t]; [|reflexivity].
    destruct (extend_of r) as [chunk|e]; [|reflexivity].
    destruct (length - (position + next_size) >? MiB) eqn:Hbig.
    + apply Z.gtb_lt in Hbig. unfold MiB in Hbig.
      rewrite (IH (position + next_size) MiB (data ++ chunk))
        by (unfold MiB; lia).
      reflexivity.
    + destruct (length - (position + next_size) >? 0) eqn:Hpos;
        [|reflexivity].
      apply Z.gtb_lt in Hpos.
      rewrite (IH (position + next_size) (length - (position + next_size))
                  (data ++ chunk)) by lia.
      reflexivity.
Qed.

Lemma dwarf_api_loop_release (E : Env) (keys : list string) (tid : pyval) :
  Forall (round_succeeds E) keys ->
  exists tid', dwarf_api_loop E true "release" keys tid
               = (Ret tid', flat_map (release_round E) keys).
Proof.
  intros H. revert tid. induction H as [|k keys Hk _ IH]; intros tid.
  - exists tid. reflexivity.
  - destruct Hk as (n & v & Hn & Hp & Ha).
    destruct (IH (PStr k)) as [tid' IH'].
    exists tid'. cbn [dwarf_api_loop flat_map].
    unfold mbind, T_bind, script_post, script_api, t_res, release_round.
    rewrite Hp, Hn. cbn. rewrite Ha. cbn.
    unfold mbind, T_bind in IH'. rewrite IH'. reflexivity.
Qed.

Lemma filter_post_flat_map (E : Env) (k : string) (keys : list string) :
  length (List.filter (is_post_to k) (flat_map (release_round E) keys))
  = length (List.filter (String.eqb k) keys).
Proof.
  induction keys as [|k' keys IH]; [reflexivity|].
  cbn [flat_map release_round app List.filter is_post_to is_api_call].
  destruct (String.eqb k k'); cbn [length]; rewrite IH; reflexivity.
Qed.

Lemma filter_api_flat_map (E : Env) (keys : list string) :
  length (List.filter is_api_call (flat_map (release_round E) keys))
  = length keys.
Proof.
  induction keys as [|k' keys IH]; [reflexivity|].
  cbn [flat_map release_round app List.filter is_post_to is_api_call length].
  rewrite IH; reflexivity.
Qed.

Lemma filter_eqb_NoDup (k : string) (keys : list string) :
  NoDup keys -> In k keys -> length (List.filter (String.eqb k) keys) = 1%nat.
Proof.
  induction 1 as [|k' keys Hnot Hnd IH]; intros Hin; [destruct Hin|].
  cbn [List.filter]. destruct (String.eqb_spec k k') as [->|Hne].
  - cbn [length]. f_equal.
    assert (Hnone : forall l, k' ∉ l -> List.filter (String.eqb k') l = []).
    { clear. induction l as [|x l IHl]; intros Hx; [reflexivity|].
      cbn [List.filter]. destruct (String.eqb_spec k' x) as [->|_].
      - exfalso. apply Hx. left.
      - apply IHl. intros Hl. apply Hx. right. exact Hl. }
    rewrite Hnone by exact Hnot. reflexivity.
  - apply IH. destruct Hin as [Heq|Hin]; [congruence|exact Hin].
Qed.

(** C3, amended.  With an empty context store, [dwarf_api('release')] with
    tid 0 performs no post and no call and returns [None].  With a process
    attached and a script loaded, and as long as every round goes through
    (no post or call raises), it walks the thread ids of the context store,
    posts the routing notification and invokes the release call for each
    of them, each id being served exactly once, and then returns [None]. *)
Theorem release_broadcast (E : Env) (self : Dwarf) (args : pyval) :
  (contexts self = [] ->
   dwarf_api E self "release" args (PInt 0) = (Ret PNone, []))
  /\
  (_process self <> None -> _script self <> None ->
   NoDup (dict_keys (contexts self)) ->
   Forall (round_succeeds E) (dict_keys (contexts self)) ->
   let calls := flat_map (release_round E) (dict_keys (contexts self)) in
   dwarf_api E self "release" args (PInt 0) = (Ret PNone, calls)
   /\ length (List.filter is_api_call calls)
      = length (dict_keys (contexts self))
   /\ forall k, In k (dict_keys (contexts self)) ->
        length (List.filter (is_post_to k) calls) = 1%nat).
Proof.
  split.
  - intros Hempty. unfold dwarf_api. rewrite Hempty.
    destruct ((negb (_pid self =? 0) && (_pid self =? 0))
              || bool_decide (_process self = None)); [reflexivity|].
    destruct (bool_decide (_script self = None)); reflexivity.
  - intros Hp Hs Hnd Hok calls. split; [|split].
    + unfold dwarf_api.
      rewrite (bool_decide_eq_false_2 _ Hp), (bool_decide_eq_false_2 _ Hs).
      destruct (_pid self =? 0); cbn [negb andb orb String.eqb eq_int Z.eqb].
      all: cbn.
      all: destruct (dwarf_api_loop_release E _ (PInt 0) Hok) as [tid' Hloop].
      all: unfold mbind, T_bind; rewrite Hloop; cbn.
      all: rewrite app_nil_r; reflexivity.
    + apply filter_api_flat_map.
    + intros k Hk. unfold calls. rewrite filter_post_flat_map.
      apply filter_eqb_NoDup; assumption.
Qed.

Lemma release_broadcast_witness :
  (_process Sample.stopped <> None /\ _script Sample.stopped <> None
   /\ NoDup (dict_keys (contexts Sample.stopped))
   /\ Forall (round_succeeds Sample.quiet)
             (dict_keys (contexts Sample.stopped)))
  /\ dwarf_api Sample.quiet Sample.stopped "release" PNone (PInt 0)
     = (Ret PNone,
        [ScriptPost (PStr "7");
         ScriptApi (PInt 7) "release" (PList [PInt 7]);
         ScriptPost (PStr "9");
         ScriptApi (PInt 9) "release" (PList [PInt 9])]).
Proof.
  assert (Hp : _process Sample.stopped <> None) by discriminate.
  assert (Hs : _script Sample.stopped <> None) by discriminate.
  assert (Hnd : NoDup (dict_keys (contexts Sample.stopped))).
  { apply (bool_decide_unpack (NoDup ["7"; "9"])). vm_compute. exact I. }
  assert (Hok : Forall (round_succeeds Sample.quiet)
                       (dict_keys (contexts Sample.stopped))).
  { repeat constructor.
    - exists 7, PNone. repeat split.
    - exists 9, PNone. repeat split. }
  split; [tauto|].
  exact (proj1 (proj2 (release_broadcast Sample.quiet Sample.stopped PNone)
                      Hp Hs Hnd Hok)).
Defined.

(** C3 as stated fails once the script is gone: threads 7 and 9 are still
    in the context store, and the broadcast posts nothing. *)
Lemma broadcast_without_script_posts_nothing :
  ~ (forall k,
       In k (dict_keys (contexts (set_script None Sample.stopped))) ->
       length (List.filter (is_post_to k)
                 (dwarf_api Sample.quiet (set_script None Sample.stopped)
                            "release" PNone (PInt 0)).2) = 1%nat).
Proof.
  intros H. specialize (H "7" (or_introl eq_refl)). discriminate H.
Qed.

(** ** Running monadic code *)

Section Running.
Context {S : Type}.

Lemma bind_run {A B} (m : M S A) (k : A -> M S B) (s : S) :
  (m ≫= k) s
  = match m s with
    | (Ret a, s', t) => let '(r, s'', t') := k a s' in (r, s'', t ++ t')
    | (Raise e, s', t) => (Raise e, s', t)
    end.
Proof. reflexivity. Qed.

(** A bind that returns: both halves returned. *)
Lemma bind_returns {A B} (m : M S A) (k : A -> M S B) (s s2 : S) (b : B)
      (t : list effect) :
  (m ≫= k) s = (Ret b, s2, t) ->
  exists a s1 t1 t2,
    m s = (Ret a, s1, t1) /\ k a s1 = (Ret b, s2, t2) /\ t = t1 ++ t2.
Proof.
  rewrite bind_run. destruct (m s) as [[[a|e] s1] t1]; [|discriminate].
  destruct (k a s1) as [[r s''] t'] eqn:Hk. intros [= -> -> <-].
  exists a, s1, t1, t'. auto.
Qed.

Lemma modify_run (f : S -> S) (s : S) : modify f s = (Ret tt, f s, []).
Proof. reflexivity. Qed.

Lemma get_run (s : S) : get s = (Ret s, s, []).
Proof. reflexivity. Qed.

Lemma ret_run {A} (a : A) (s : S) : (mret a : M S A) s = (Ret a, s, []).
Proof. reflexivity. Qed.

Lemma lift_res_run {A} (r : res A) (s : S) : lift_res r s = (r, s, []).
Proof. reflexivity. Qed.

End Running.

(** ** The address-range cache *)

Import Range.

(** C5, amended.  When the cached region has a positive base and the
    request address lies strictly above the base and below the tail,
    [init_with_address] returns -1 and assigns only the start address and
    the start offset: base, size, tail and the byte buffer are the cached
    ones, and nothing is asked of the target. *)
Theorem init_with_address_cached (E : Env) (dwarf : Dwarf) (self : Range)
        (address : pyval) (length base_arg : Z) (require_data : bool) :
  0 < base self ->
  base self < parse_ptr E address < tail self ->
  let x := init_with_address E dwarf address length base_arg require_data
                             self in
  x = (Ret (-1),
       {| source := source self; base := base self; size := size self;
          tail := tail self; data := data self;
          start_address := parse_ptr E address;
          start_offset := parse_ptr E address - base self |},
       []).
Proof.
  intros Hb [Hlo Hhi]. unfold init_with_address.
  rewrite bind_run, modify_run, bind_run, get_run.
  unfold cache_hit. cbn [set_start_address base tail start_address].
  replace (base self >? 0) with true by (symmetry; apply Z.gtb_lt; lia).
  replace (base self <? parse_ptr E address) with true
    by (symmetry; apply Z.ltb_lt; lia).
  replace (parse_ptr E address <? tail self) with true
    by (symmetry; apply Z.ltb_lt; lia).
  reflexivity.
Qed.

Lemma init_with_address_cached_witness :
  (0 < base Sample.fetched
   /\ base Sample.fetched < parse_ptr Sample.target (PInt 4102)
      < tail Sample.fetched)
  /\ init_with_address Sample.target Sample.attached (PInt 4102) 0 0 true
       Sample.fetched
     = (Ret (-1),
        {| source := 0; base := 4096; size := 8; tail := 4104;
           data := PBytes [Byte.xcc; Byte.xcc; Byte.x02; Byte.x03;
                           Byte.x04; Byte.x05; Byte.x06; Byte.x07];
           start_address := 4102; start_offset := 6 |},
        []).
Proof.
  assert (Hb : 0 < base Sample.fetched) by (vm_compute; reflexivity).
  assert (Hin : base Sample.fetched < parse_ptr Sample.target (PInt 4102)
                < tail Sample.fetched) by (vm_compute; split; reflexivity).
  split; [tauto|].
  exact (init_with_address_cached Sample.target Sample.attached
           Sample.fetched (PInt 4102) 0 0 true Hb Hin).
Defined.

(** C5 as stated fails at the first address of the cached region: asked
    for the base itself, the cache fetches the region again (status 0, and
    the target is called) instead of returning -1. *)
Lemma init_with_address_at_base_refetches :
  base Sample.fetched <= parse_ptr Sample.target (PInt 4096)
    < tail Sample.fetched
  /\ ~ (outcome (init_with_address Sample.target Sample.attached (PInt 4096)
                   0 0 true Sample.fetched) = Ret (-1)
        /\ trace (init_with_address Sample.target Sample.attached (PInt 4096)
                    0 0 true Sample.fetched) = []).
Proof.
  split.
  - vm_compute. split; [intros H; discriminate H | reflexivity].
  - intros [H _]. vm_compute in H. discriminate H.
Qed.

(** C6, the failing input.  The region at 0x1000 is fetched with data; the
    script reports a hook at 0x1000 (original bytes 00 01) and one at
    0x1004 (original bytes 04 05).  The hook at 0x1004 is restored in the
    buffer, the hook on the first address of the region is not: the
    comparison of line 88 is strict, and the buffer keeps its trap bytes. *)
Theorem init_with_address_hook_at_base :
  init_with_address Sample.target Sample.attached (PInt 4100) 0 0 true
    (Range_init 0)
  = (Ret 0,
     {| source := 0; base := 4096; size := 8; tail := 4104;
        data := PBytes [Byte.xcc; Byte.xcc; Byte.x02; Byte.x03;
                        Byte.x04; Byte.x05; Byte.x06; Byte.x07];
        start_address := 4100; start_offset := 4 |},
     [ScriptApi (PInt 0) "getRange" (PList [PInt 4100]);
      ScriptApi (PInt 0) "readBytes" (PList [PInt 4096; PInt 8]);
      ScriptHooks]).
Proof. vm_compute. reflexivity. Qed.

Lemma slice_index_within (n i : Z) : 0 <= i <= n -> slice_index n i = i.
Proof.
  intros H. unfold slice_index.
  destruct (Z.ltb_spec i 0); [lia|]. cbv zeta.
  destruct (Z.ltb_spec i 0); [lia|].
  destruct (Z.ltb_spec n i); [lia|]. reflexivity.
Qed.

Lemma slice_assign_within {A} (buf new : list A) (offset : Z) :
  0 <= offset ->
  offset + Z.of_nat (length new) <= Z.of_nat (length buf) ->
  slice_assign buf offset (offset + Z.of_nat (length new)) new
  = take (Z.to_nat offset) buf ++ new
    ++ drop (Z.to_nat offset + length new) buf.
Proof.
  intros Hlo Hhi. unfold slice_assign. cbv zeta.
  rewrite !slice_index_within by lia.
  rewrite Z.max_r by lia.
  replace (Z.to_nat (offset + Z.of_nat (length new)))
    with (Z.to_nat offset + length new)%nat by lia.
  reflexivity.
Qed.

(** Inside the buffer, [patch_bytes] keeps the length of the buffer and
    leaves the original bytes at the offset. *)
Lemma patch_bytes_restores (E : Env) (self : Range) (buf org : list Byte.byte)
      (text : string) (offset : Z) :
  data self = PBytes buf ->
  fromhex E text = Some org ->
  0 <= offset ->
  offset + Z.of_nat (length org) <= Z.of_nat (length buf) ->
  exists buf',
    patch_bytes E (PStr text) offset self
    = (Ret tt, set_data (PBytes buf') self, [])
    /\ length buf' = length buf
    /\ take (length org) (drop (Z.to_nat offset) buf') = org.
Proof.
  intros Hd Hx Hlo Hhi.
  exists (take (Z.to_nat offset) buf ++ org
          ++ drop (Z.to_nat offset + length org) buf).
  split; [|split].
  - unfold patch_bytes, mbind, M_bind, modify, get, lift_res.
    rewrite Hd, Hx. cbn [bytearray_of of_option].
    rewrite (slice_assign_within buf org offset Hlo Hhi). reflexivity.
  - rewrite !length_app, length_take, length_drop. lia.
  - rewrite drop_app_length'
      by (rewrite length_take; lia).
    rewrite take_app_length. reflexivity.
Qed.

(** A reported hook with known original bytes whose address, thumb bit
    stripped, lies strictly between base and tail is restored in the
    buffer, provided its bytes fit into what was read. *)
Lemma patch_hook_restores (E : Env) (self : Range)
      (hook : list (string * pyval)) (np : pyval) (text : string)
      (buf org : list Byte.byte) :
  dict_get "nativePtr" hook = Some np ->
  dict_get "bytes" hook = Some (PStr text) ->
  parse_ptr E np <> 1 -> text <> "" ->
  fromhex E text = Some org ->
  data self = PBytes buf ->
  let address := if parse_ptr E np mod 2 =? 0 then parse_ptr E np
                 else parse_ptr E np - 1 in
  base self < address < tail self ->
  address - base self + Z.of_nat (length org) <= Z.of_nat (length buf) ->
  exists buf',
    patch_hook E (PDict hook) self
    = (Ret tt, set_data (PBytes buf') self, [])
    /\ length buf' = length buf
    /\ take (length org) (drop (Z.to_nat (address - base self)) buf') = org.
Proof.
  intros Hnp Hb Hone Htext Hx Hd address [Hlo Hhi] Hfit.
  destruct (patch_bytes_restores E self buf org text (address - base self)
              Hd Hx ltac:(lia) Hfit) as (buf' & Hrun & Hlen & Hat).
  exists buf'. split; [|split; assumption].
  unfold patch_hook, mbind, M_bind, get, lift_res, mret, M_ret.
  cbn [getitem]. rewrite Hnp, Hb. cbn [of_option truthy].
  replace (parse_ptr E np =? 1) with false
    by (symmetry; apply Z.eqb_neq; exact Hone).
  replace (text =? "")%string with false
    by (symmetry; apply String.eqb_neq; exact Htext).
  cbn [negb].
  fold address.
  replace (if negb (parse_ptr E np mod 2 =? 0)
           then parse_ptr E np - 1 else parse_ptr E np) with address
    by (subst address; destruct (parse_ptr E np mod 2 =? 0); reflexivity).
  replace (base self <? address) with true
    by (symmetry; apply Z.ltb_lt; lia).
  replace (address <? tail self) with true
    by (symmetry; apply Z.ltb_lt; lia).
  cbn [andb]. rewrite Hrun. reflexivity.
Qed.

Ltac bind_inv H :=
  let a := fresh "a" in let s1 := fresh "s" in
  let t1 := fresh "t" in let t2 := fresh "t" in
  let H1 := fresh "Hrun" in let Ht := fresh "Htr" in
  apply bind_returns in H;
  destruct H as (a & s1 & t1 & t2 & H1 & H & Ht).

Lemma len_nonneg (v : pyval) (n : Z) : len v = Ret n -> 0 <= n.
Proof. destruct v; cbn; intros [= <-]; lia. Qed.

Lemma data_status_spec (s s' : Range) (status : Z) (t : list effect) :
  data_status s = (Ret status, s', t) ->
  (status = 1 <-> len (data s') = Ret 0)
  /\ (status = 0 -> exists n, len (data s') = Ret n /\ 0 < n)
  /\ (status = 0 \/ status = 1).
Proof.
  unfold data_status. rewrite bind_run, get_run.
  destruct (data s) eqn:Hd.
  1: { cbn. intros [= <- <- <-]. cbn. repeat split; auto; try discriminate. }
  all: rewrite bind_run, lift_res_run;
    destruct (len _) as [n|e] eqn:Hlen; [|discriminate];
    pose proof (len_nonneg _ _ Hlen) as Hn;
    destruct (n =? 0) eqn:Hz; cbn; intros [= <- <- <-]; rewrite Hd, Hlen;
    [apply Z.eqb_eq in Hz; subst n | apply Z.eqb_neq in Hz].
  all: repeat split; auto; try discriminate; try (intros [= ?]; lia).
  all: try (intros _; exists n; split; [reflexivity|lia]).
Qed.

Lemma fetch_outcome (E : Env) (dwarf : Dwarf) (length base_arg : Z)
      (require_data : bool) (s s' : Range) (early : option Z)
      (t : list effect) :
  fetch E dwarf length base_arg require_data s = (Ret early, s', t) ->
  match early with
  | Some status =>
      status = 1 /\ s' = s
      /\ match dwarf_api E dwarf "getRange" (PInt (start_address s)) (PInt 0)
         with
         | (Raise _, _) => True
         | (Ret PNone, _) => True
         | (Ret v, _) => len v = Ret 0
         end
  | None =>
      ~ match dwarf_api E dwarf "getRange" (PInt (start_address s)) (PInt 0)
        with
        | (Raise _, _) => True
        | (Ret PNone, _) => True
        | (Ret v, _) => len v = Ret 0
        end
  end.
Proof.
  intros H. unfold fetch in H.
  bind_inv H. rewrite get_run in Hrun. injection Hrun as <- <- <-.
  bind_inv H. unfold attempt in Hrun.
  destruct (dwarf_api E dwarf "getRange" _ _) as [[v|e] tq];
    injection Hrun as <- <- <-.
  2: { rewrite ret_run in H. injection H as <- <- <-. auto. }
  destruct v.
  1: { rewrite ret_run in H. injection H as <- <- <-. auto. }
  all: bind_inv H; rewrite lift_res_run in Hrun;
    injection Hrun as Hlen <- <-.
  all: try discriminate Hlen.
  all: destruct (a =? 0) eqn:Hz;
    [ rewrite ret_run in H; injection H as <- <- <-;
      apply Z.eqb_eq in Hz; repeat split; cbn [len]; f_equal; lia
    | repeat bind_inv H; rewrite ret_run in H; injection H as <- _ _;
      apply Z.eqb_neq in Hz; cbn [len]; intros [= ?]; lia ].
Qed.

Lemma status_after_fetch (E : Env) (dwarf : Dwarf)
      (self self' : Range) (address : pyval) (length base_arg : Z)
      (require_data : bool) (status : Z) (t : list effect) :
  ~ (0 < base self /\ base self < parse_ptr E address < tail self) ->
  init_with_address E dwarf address length base_arg require_data self
  = (Ret status, self', t) ->
  (status = 1 <->
   lookup_fails E dwarf self (parse_ptr E address)
   \/ len (data self') = Ret 0)
  /\ (status = 0 -> exists n, len (data self') = Ret n /\ 0 < n).
Proof.
  intros Hno H. unfold init_with_address in H.
  bind_inv H. rewrite modify_run in Hrun. injection Hrun as <- <- <-.
  bind_inv H. rewrite get_run in Hrun. injection Hrun as <- <- <-.
  destruct (cache_hit _) eqn:Hhit.
  { exfalso. apply Hno. unfold cache_hit in Hhit.
    cbn [set_start_address base tail start_address] in Hhit.
    apply andb_prop in Hhit as [Hhit H3]. apply andb_prop in Hhit as [H1 H2].
    apply Z.gtb_lt in H1. apply Z.ltb_lt in H2, H3. lia. }
  bind_inv H.
  cbn [set_start_address source] in Hrun.
  unfold lookup_fails.
  destruct (source self =? SOURCE_TARGET) eqn:Hsrc.
  - apply Z.eqb_eq in Hsrc. apply fetch_outcome in Hrun.
    cbn [set_start_address start_address] in Hrun.
    destruct a as [st|].
    + destruct Hrun as (-> & -> & Hcore).
      rewrite ret_run in H. injection H as <- <- <-.
      split; [|discriminate]. split; auto.
    + apply data_status_spec in H. destruct H as (Hone & Hzero & _).
      split; [|exact Hzero]. rewrite Hone. split; [auto|].
      intros [[_ Hcore]|Hlen]; [contradiction|exact Hlen].
  - apply Z.eqb_neq in Hsrc. rewrite ret_run in Hrun.
    injection Hrun as <- <- <-.
    apply data_status_spec in H. destruct H as (Hone & Hzero & _).
    split; [|exact Hzero]. rewrite Hone. split; [auto|].
    intros [[Hs _]|Hlen]; [contradiction|exact Hlen].
Qed.

Lemma init_with_address_cold_without_data (E : Env) (dwarf : Dwarf)
      (r : Range) (address : pyval) (length base_arg : Z)
      (reply : list (string * pyval)) (t0 : list effect)
      (x : string) (b sz : Z) :
  source r = SOURCE_TARGET ->
  dwarf_api E dwarf "getRange" (PInt (parse_ptr E address)) (PInt 0)
  = (Ret (PDict reply), t0) ->
  dict_get "base" reply = Some (PStr x) ->
  py_int16 E x = Some b ->
  dict_get "size" reply = Some (PInt sz) ->
  let base' := if base_arg >? 0 then base_arg else b in
  let size' := if (0 <? length) && (length <? sz) then length else sz in
  init_with_address E dwarf address length base_arg false (invalidate r)
  = (Ret 1,
     {| source := source r; base := base'; size := size';
        tail := base' + size'; data := PBytes [];
        start_address := parse_ptr E address;
        start_offset := parse_ptr E address - base' |},
     t0).
Proof.
  intros Hsrc Hreply Hbase Hb Hsize base' size'.
  destruct reply as [|kv reply']; [discriminate Hbase|].
  assert (Hn : forall n, (Z.of_nat (S n) =? 0) = false)
    by (intros n; apply Z.eqb_neq; lia).
  unfold init_with_address, cache_hit, fetch, attempt, data_status,
    mbind, M_bind, modify, get, lift_res, mret, M_ret.
  cbn -[dwarf_api dict_get Z.add Z.sub Z.ltb Z.gtb Z.of_nat].
  change (0 >? 0) with false.
  cbn -[dwarf_api dict_get Z.add Z.sub Z.ltb Z.gtb Z.of_nat].
  rewrite Hsrc. cbn -[dwarf_api dict_get Z.add Z.sub Z.ltb Z.gtb Z.of_nat].
  rewrite Hreply.
  cbn -[dwarf_api dict_get Z.add Z.sub Z.ltb Z.gtb Z.of_nat].
  rewrite ?Hn.
  cbn -[dwarf_api dict_get Z.add Z.sub Z.ltb Z.gtb Z.of_nat].
  rewrite Hbase. cbn -[dwarf_api dict_get Z.add Z.sub Z.ltb Z.gtb Z.of_nat].
  rewrite Hb. cbn -[dwarf_api dict_get Z.add Z.sub Z.ltb Z.gtb Z.of_nat].
  subst base' size'.
  destruct (base_arg >? 0);
    cbn -[dwarf_api dict_get Z.add Z.sub Z.ltb Z.gtb Z.of_nat];
    rewrite Hsize;
    cbn -[dwarf_api dict_get Z.add Z.sub Z.ltb Z.gtb Z.of_nat];
    destruct ((0 <? length) && (length <? sz));
    cbn -[dwarf_api dict_get Z.add Z.sub Z.ltb Z.gtb Z.of_nat];
    rewrite ?Hn;
    cbn -[dwarf_api dict_get Z.add Z.sub Z.ltb Z.gtb Z.of_nat];
    change (Z.of_nat 0 =? 0) with true;
    cbn -[dwarf_api dict_get Z.add Z.sub Z.ltb Z.gtb Z.of_nat];
    rewrite ?app_nil_r;
    cbv [set_start_offset_field set_tail set_size set_base set_start_address
         invalidate];
    cbn [source base size tail data start_address start_offset];
    rewrite ?Hsrc; reflexivity.
Qed.

(** C8, amended.  A call that is not answered from the cached region
    returns 1 exactly when the range lookup fails or the byte buffer it
    leaves is empty, and returns 0 only when that buffer holds data.  In
    particular, on a fresh or invalidated cache, a fetch with
    [require_data] false returns 1 although the lookup succeeded and base,
    size, tail and offset have been set. *)
Theorem init_with_address_status (E : Env) (dwarf : Dwarf)
        (self self' : Range) (address : pyval) (length base_arg : Z)
        (require_data : bool) (status : Z) (t : list effect) :
  ~ (0 < base self /\ base self < parse_ptr E address < tail self) ->
  init_with_address E dwarf address length base_arg require_data self
  = (Ret status, self', t) ->
  ((status = 1 <->
    lookup_fails E dwarf self (parse_ptr E address)
    \/ len (data self') = Ret 0)
   /\ (status = 0 -> exists n, len (data self') = Ret n /\ 0 < n))
  /\
  (forall reply t0 x b sz,
     source self = SOURCE_TARGET ->
     dwarf_api E dwarf "getRange" (PInt (parse_ptr E address)) (PInt 0)
     = (Ret (PDict reply), t0) ->
     dict_get "base" reply = Some (PStr x) ->
     py_int16 E x = Some b ->
     dict_get "size" reply = Some (PInt sz) ->
     let base' := if base_arg >? 0 then base_arg else b in
     let size' := if (0 <? length) && (length <? sz) then length else sz in
     init_with_address E dwarf address length base_arg false
                       (invalidate self)
     = (Ret 1,
        {| source := source self; base := base'; size := size';
           tail := base' + size'; data := PBytes [];
           start_address := parse_ptr E address;
           start_offset := parse_ptr E address - base' |},
        t0)).
Proof.
  intros Hno Hrun. split.
  - eapply status_after_fetch; eassumption.
  - intros reply t0 x b sz. apply init_with_address_cold_without_data.
Qed.

Lemma init_with_address_status_witness :
  (~ (0 < base (Range_init 0)
      /\ base (Range_init 0) < parse_ptr Sample.target (PInt 4100)
         < tail (Range_init 0))
   /\ init_with_address Sample.target Sample.attached (PInt 4100) 0 0 false
        (Range_init 0)
      = (Ret 1, Sample.fetched_without_data,
         [ScriptApi (PInt 0) "getRange" (PList [PInt 4100])]))
  /\ (1 = 1 <->
      lookup_fails Sample.target Sample.attached (Range_init 0)
                   (parse_ptr Sample.target (PInt 4100))
      \/ len (data Sample.fetched_without_data) = Ret 0).
Proof.
  assert (Hno : ~ (0 < base (Range_init 0)
                   /\ base (Range_init 0)
                      < parse_ptr Sample.target (PInt 4100)
                      < tail (Range_init 0))).
  { cbn. lia. }
  assert (Hrun : init_with_address Sample.target Sample.attached (PInt 4100)
                   0 0 false (Range_init 0)
                 = (Ret 1, Sample.fetched_without_data,
                    [ScriptApi (PInt 0) "getRange" (PList [PInt 4100])])).
  { vm_compute. reflexivity. }
  split; [split; assumption|].
  exact (proj1 (proj1 (init_with_address_status Sample.target
                         Sample.attached (Range_init 0)
                         Sample.fetched_without_data (PInt 4100) 0 0 false
                         1 _ Hno Hrun))).
Defined.

(** C8 as stated fails on a request answered from the cache: after a fetch
    without data the buffer is empty, and the next request inside the
    region returns -1, not 1. *)
Lemma cached_empty_buffer_returns_minus_one :
  ~ (outcome (init_with_address Sample.target Sample.attached (PInt 4102)
                0 0 true Sample.fetched_without_data) = Ret 1
     <-> lookup_fails Sample.target Sample.attached
                      Sample.fetched_without_data
                      (parse_ptr Sample.target (PInt 4102))
         \/ len (data (state (init_with_address Sample.target
                                Sample.attached (PInt 4102) 0 0 true
                                Sample.fetched_without_data))) = Ret 0).
Proof.
  intros [_ H].
  assert (Hone : outcome (init_with_address Sample.target Sample.attached
                            (PInt 4102) 0 0 true
                            Sample.fetched_without_data) = Ret 1).
  { apply H. right. vm_compute. reflexivity. }
  vm_compute in Hone. discriminate Hone.
Qed.

(** ** The dispatcher *)

Lemma dispatch_release (E : Env) (what : string) (parts : list string)
      (data : option (list Byte.byte)) :
  dispatch E what parts data "release" = on_release E parts.
Proof. reflexivity. Qed.

Lemma on_message_dispatches (E : Env) (message : list (string * pyval))
      (data : option (list Byte.byte)) (what cmd p1 : string)
      (rest : list string) :
  dict_get "payload" message = Some (PStr what) ->
  split ":::" what = cmd :: p1 :: rest ->
  _on_message E message data = dispatch E what (cmd :: p1 :: rest) data cmd.
Proof.
  intros Hp Hs. unfold _on_message. rewrite Hp, Hs. reflexivity.
Qed.

(** C9.  A release message for a thread id that has no stored context
    still publishes the thread-resumed event carrying that id, after the
    log line; when the context is there it is deleted, and the log line
    and the event are the same. *)
Theorem release_always_publishes (E : Env) (self : Dwarf)
        (message : list (string * pyval)) (data : option (list Byte.byte))
        (what p1 : string) (rest : list string) (n : Z) :
  dict_get "payload" message = Some (PStr what) ->
  split ":::" what = "release" :: p1 :: rest ->
  py_int E p1 = Some n ->
  (dict_get p1 (contexts self) = None ->
   _on_message E message data self
   = (Ret tt, self,
      [Emit (onLogEvent ("releasing := " +:+ p1));
       Emit (onThreadResumed n)]))
  /\
  (dict_get p1 (contexts self) <> None ->
   _on_message E message data self
   = (Ret tt, set_contexts (dict_del p1 (contexts self)) self,
      [Emit (onLogEvent ("releasing := " +:+ p1));
       Emit (onThreadResumed n)])).
Proof.
  intros Hp Hs Hn.
  rewrite (on_message_dispatches E message data what _ _ _ Hp Hs).
  rewrite dispatch_release.
  unfold on_release, p, part, dict_has, mbind, M_bind, modify, get, lift_res,
    tell, emit, mret, M_ret.
  cbn [nth_error of_option]. rewrite Hn. cbn [of_option].
  split; intros Hc.
  - rewrite Hc. reflexivity.
  - destruct (dict_get p1 (contexts self)); [reflexivity|contradiction].
Qed.

Lemma release_always_publishes_witness :
  (dict_get "payload" [("payload", PStr "release:::42")]
   = Some (PStr "release:::42")
   /\ split ":::" "release:::42" = ["release"; "42"]
   /\ py_int Sample.quiet "42" = Some 42
   /\ dict_get "42" (contexts Sample.attached) = None)
  /\ _on_message Sample.quiet [("payload", PStr "release:::42")] None
       Sample.attached
     = (Ret tt, Sample.attached,
        [Emit (onLogEvent "releasing := 42"); Emit (onThreadResumed 42)]).
Proof.
  assert (Hp : dict_get "payload" [("payload", PStr "release:::42")]
               = Some (PStr "release:::42")) by reflexivity.
  assert (Hs : split ":::" "release:::42" = ["release"; "42"])
    by reflexivity.
  assert (Hn : py_int Sample.quiet "42" = Some 42) by reflexivity.
  assert (Hc : dict_get "42" (contexts Sample.attached) = None)
    by reflexivity.
  split; [tauto|].
  exact (proj1 (release_always_publishes Sample.quiet Sample.attached
                  [("payload", PStr "release:::42")] None "release:::42"
                  "42" [] 42 Hp Hs Hn) Hc).
Defined.

(** C2, what the code does.  Line 611 stores the internal flag of the
    message in an attribute named [internalHook]; line 614 tests
    [internal_hook], which is still what the constructor left.  So when a
    fresh hook is not internal, every well-formed [hook_native_callback]
    message registers the hook under its pointer and publishes the add-hook
    event, whatever its internal-flag field [p5] says, ['true'] included. *)
Theorem hook_native_callback_ignores_flag (E : Env) (self : Dwarf)
        (message : list (string * pyval)) (data : option (list Byte.byte))
        (what p1 p2 p3 p4 p5 p6 : string) (rest : list string)
        (a : Z) (b : list Byte.byte) (sym : pyval) :
  dict_get "payload" message = Some (PStr what) ->
  split ":::" what
  = "hook_native_callback" :: p1 :: p2 :: p3 :: p4 :: p5 :: p6 :: rest ->
  internal_hook (Hook_init E HOOK_NATIVE) = Some false ->
  py_int16 E p1 = Some a ->
  unhexlify E p2 = Some b ->
  json_loads E p6 = Some sym ->
  let h :=
    set_debug_symbol sym
      (set_internalHook (String.eqb p5 "true")
         (set_logic (PStr p3)
            (set_condition (PStr p4)
               (set_bytes b
                  (set_input (temporary_input self)
                     (set_ptr a (Hook_init E HOOK_NATIVE))))))) in
  _on_message E message data self
  = (Ret tt,
     set_hooks (<[a := h]> (hooks self))
       (set_native_pending_args PNone (set_temporary_input "" self)),
     [Emit (onAddNativeHook h)]).
Proof.
  intros Hp Hs Hi Ha Hb Hsym h.
  rewrite (on_message_dispatches E message data what _ _ _ Hp Hs).
  change (dispatch E what _ data "hook_native_callback")
    with (on_hook_native_callback E
            ("hook_native_callback" :: p1 :: p2 :: p3 :: p4 :: p5 :: p6
               :: rest)).
  unfold on_hook_native_callback, p, part, loads, mbind, M_bind, modify, get,
    lift_res, tell, emit, mret, M_ret.
  cbn [nth_error of_option]. rewrite Ha. cbn [of_option].
  rewrite Hb. cbn [of_option]. rewrite Hsym. cbn [of_option].
  cbn [internal_hook set_debug_symbol set_internalHook set_logic
       set_condition set_bytes set_input set_ptr].
  rewrite Hi. reflexivity.
Qed.

Lemma hook_native_callback_ignores_flag_witness :
  (split ":::" "hook_native_callback:::0x1000:::cccc:::l:::c:::true:::null"
   = ["hook_native_callback"; "0x1000"; "cccc"; "l"; "c"; "true"; "null"]
   /\ internal_hook (Hook_init Sample.quiet HOOK_NATIVE) = Some false
   /\ py_int16 Sample.quiet "0x1000" = Some 4096
   /\ unhexlify Sample.quiet "cccc" = Some [Byte.xcc; Byte.xcc]
   /\ json_loads Sample.quiet "null" = Some PNone)
  /\ _on_message Sample.quiet
       [("payload",
         PStr "hook_native_callback:::0x1000:::cccc:::l:::c:::true:::null")]
       None Sample.attached
     = (Ret tt,
        set_hooks
          (<[4096 := {| hook_type := HOOK_NATIVE; ptr := 4096; input := "";
                        bytes := Some [Byte.xcc; Byte.xcc];
                        condition := PStr "c"; logic := PStr "l";
                        internal_hook := Some false;
                        internalHook := Some true;
                        debug_symbol := PNone |}]> ∅)
          Sample.attached,
        [Emit (onAddNativeHook
                 {| hook_type := HOOK_NATIVE; ptr := 4096; input := "";
                    bytes := Some [Byte.xcc; Byte.xcc];
                    condition := PStr "c"; logic := PStr "l";
                    internal_hook := Some false; internalHook := Some true;
                    debug_symbol := PNone |})]).
Proof.
  split; [repeat split|].
  exact (hook_native_callback_ignores_flag Sample.quiet Sample.attached
           [("payload",
             PStr "hook_native_callback:::0x1000:::cccc:::l:::c:::true:::null")]
           None
           "hook_native_callback:::0x1000:::cccc:::l:::c:::true:::null"
           "0x1000" "cccc" "l" "c" "true" "null" [] 4096
           [Byte.xcc; Byte.xcc] PNone
           eq_refl eq_refl eq_refl eq_refl eq_refl eq_refl).
Defined.

Lemma dispatch_unknown (E : Env) (what : string) (parts : list string)
      (data : option (list Byte.byte)) (cmd : string) :
  ~ In cmd (known_tags) ->
  dispatch E what parts data cmd = tell (Print ("unknown message: " +:+ what)).
Proof.
  intros H. unfold dispatch.
  repeat match goal with
         | |- context [String.eqb cmd ?t] =>
             replace (String.eqb cmd t) with false
               by (symmetry; apply String.eqb_neq; intros ->; apply H;
                   unfold known_tags;
                   repeat (first [left; reflexivity | right]))
         end.
  reflexivity.
Qed.

(** C4, amended.  A message without a payload envelope, a payload with
    fewer than two fields and a message with an unrecognized tag are each
    printed and dropped: nothing is raised and the session, all its
    registries included, is left as it was.  The handlers of recognized
    tags are not shielded: [hook_deleted], for each of its four kinds of
    hook, and [watcher_removed] raise [KeyError] for a key that is absent
    from its registry, and then publish nothing. *)
Theorem on_message_drops_or_raises (E : Env) (self : Dwarf)
        (message : list (string * pyval)) (data : option (list Byte.byte)) :
  (dict_get "payload" message = None ->
   _on_message E message data self
   = (Ret tt, self, [Print ("payload: " +:+ py_str E (PDict message))]))
  /\
  (forall what,
     dict_get "payload" message = Some (PStr what) ->
     (length (split ":::" what) < 2)%nat ->
     _on_message E message data self = (Ret tt, self, [Print what]))
  /\
  (forall what,
     dict_get "payload" message = Some (PStr what) ->
     (2 <= length (split ":::" what))%nat ->
     ~ In (nth 0 (split ":::" what) "") known_tags ->
     _on_message E message data self
     = (Ret tt, self, [Print ("unknown message: " +:+ what)]))
  /\
  (forall what kind key rest,
     dict_get "payload" message = Some (PStr what) ->
     split ":::" what = "hook_deleted" :: kind :: key :: rest ->
     (kind = "java" -> java_hooks self !! key = None) ->
     (kind = "native_on_load" -> native_on_loads self !! key = None) ->
     (kind = "java_on_load" -> java_on_loads self !! key = None) ->
     (kind <> "java" -> kind <> "native_on_load" -> kind <> "java_on_load" ->
      hooks self !! parse_ptr E (PStr key) = None) ->
     _on_message E message data self = (Raise KeyError, self, []))
  /\
  (forall what p1 rest,
     dict_get "payload" message = Some (PStr what) ->
     split ":::" what = "watcher_removed" :: p1 :: rest ->
     watchers self !! hex (parse_ptr E (PStr p1)) = None ->
     _on_message E message data self = (Raise KeyError, self, [])).
Proof.
  repeat split.
  - intros Hp. unfold _on_message. rewrite Hp. reflexivity.
  - intros what Hp Hlen. unfold _on_message. rewrite Hp.
    replace (length (split ":::" what) <? 2)%nat with true
      by (symmetry; apply Nat.ltb_lt; exact Hlen).
    reflexivity.
  - intros what Hp Hlen Htag. unfold _on_message. rewrite Hp.
    replace (length (split ":::" what) <? 2)%nat with false
      by (symmetry; apply Nat.ltb_ge; exact Hlen).
    rewrite dispatch_unknown by exact Htag. reflexivity.
  - intros what kind key rest Hp Hs Hjava Hnative Hload Hptr.
    rewrite (on_message_dispatches E message data what _ _ _ Hp Hs).
    change (dispatch E what _ data "hook_deleted")
      with (on_hook_deleted E ("hook_deleted" :: kind :: key :: rest)).
    unfold on_hook_deleted, p, part, pop, mbind, M_bind, modify, get,
      lift_res, tell, emit, mret, M_ret.
    cbn [nth_error of_option].
    destruct (String.eqb_spec kind "java") as [Hk|Hk1];
      [rewrite (Hjava Hk); reflexivity|].
    destruct (String.eqb_spec kind "native_on_load") as [Hk|Hk2];
      [rewrite (Hnative Hk); reflexivity|].
    destruct (String.eqb_spec kind "java_on_load") as [Hk|Hk3];
      [rewrite (Hload Hk); reflexivity|].
    rewrite (Hptr Hk1 Hk2 Hk3). reflexivity.
  - intros what p1 rest Hp Hs Hk.
    rewrite (on_message_dispatches E message data what _ _ _ Hp Hs).
    change (dispatch E what _ data "watcher_removed")
      with (on_watcher_removed E ("watcher_removed" :: p1 :: rest)).
    unfold on_watcher_removed, p, part, pop, mbind, M_bind, modify, get,
      lift_res, tell, emit, mret, M_ret.
    cbn [nth_error of_option]. rewrite Hk. reflexivity.
Qed.

Lemma on_message_drops_or_raises_witness :
  (dict_get "payload" [("payload", PStr "bogus:::1")]
   = Some (PStr "bogus:::1")
   /\ (2 <= length (split ":::" "bogus:::1"))%nat
   /\ ~ In (nth 0 (split ":::" "bogus:::1") "") known_tags)
  /\ _on_message Sample.quiet [("payload", PStr "bogus:::1")] None
       Sample.stopped
     = (Ret tt, Sample.stopped, [Print "unknown message: bogus:::1"])
  /\ _on_message Sample.quiet
       [("payload", PStr "hook_deleted:::native:::0x1000")] None
       Sample.stopped
     = (Raise KeyError, Sample.stopped, []).
Proof.
  assert (Hp : dict_get "payload" [("payload", PStr "bogus:::1")]
               = Some (PStr "bogus:::1")) by reflexivity.
  assert (Hl : (2 <= length (split ":::" "bogus:::1"))%nat) by (cbn; lia).
  assert (Ht : ~ In (nth 0 (split ":::" "bogus:::1") "") known_tags).
  { cbn. intros H.
    repeat (destruct H as [H|H]; [discriminate H|]). exact H. }
  split; [tauto|]. split.
  - exact (proj1 (proj2 (proj2 (on_message_drops_or_raises Sample.quiet
                                  Sample.stopped
                                  [("payload", PStr "bogus:::1")] None)))
                 "bogus:::1" Hp Hl Ht).
  - refine (proj1 (proj2 (proj2 (proj2
              (on_message_drops_or_raises Sample.quiet Sample.stopped
                 [("payload", PStr "hook_deleted:::native:::0x1000")]
                 None))))
              "hook_deleted:::native:::0x1000" "native" "0x1000" []
              eq_refl eq_refl _ _ _ _); try discriminate.
    intros _ _ _. reflexivity.
Defined.

(** C4 as stated fails: a [hook_deleted] message for a java hook that is
    not in the registry makes the dispatcher raise [KeyError]. *)
Lemma on_message_hook_deleted_raises :
  ~ (exists u,
       outcome (_on_message Sample.quiet
                  [("payload", PStr "hook_deleted:::java:::com.app.Main")]
                  None Sample.attached) = Ret u).
Proof. intros [u H]. vm_compute in H. discriminate H. Qed.

(** ** What the handlers leave alone *)

Section Keeps.
Context (P : Dwarf -> Prop).

Lemma keeps_ret {A} (a : A) : keeps P (mret a).
Proof. intros s H. exact H. Qed.

Lemma keeps_raise {A} (e : exn) : keeps P (raise e : M Dwarf A).
Proof. intros s H. exact H. Qed.

Lemma keeps_tell (e : effect) : keeps P (tell e).
Proof. intros s H. exact H. Qed.

Lemma keeps_emit (sg : signal) : keeps P (emit sg).
Proof. intros s H. exact H. Qed.

Lemma keeps_lift_res {A} (r : res A) : keeps P (lift_res r).
Proof. intros s H. exact H. Qed.

Lemma keeps_get : keeps P get.
Proof. intros s H. exact H. Qed.

Lemma keeps_reading {A} (f : Dwarf -> T A) : keeps P (reading f).
Proof. intros s H. unfold reading, state. destruct (f s). exact H. Qed.

Lemma keeps_modify (f : Dwarf -> Dwarf) :
  (forall s, P s -> P (f s)) -> keeps P (modify f).
Proof. intros Hf s H. apply Hf, H. Qed.

Lemma keeps_bind {A B} (m : M Dwarf A) (k : A -> M Dwarf B) :
  keeps P m -> (forall a, keeps P (k a)) -> keeps P (m ≫= k).
Proof.
  intros Hm Hk s H. specialize (Hm s H). unfold state in *.
  rewrite bind_run. destruct (m s) as [[[a|e] s1] t1]; cbn in *.
  - specialize (Hk a s1 Hm). unfold state in Hk.
    destruct (k a s1) as [[r s2] t2]. exact Hk.
  - exact Hm.
Qed.

End Keeps.

(** Breaks a handler down to its assignments. *)
Ltac keeps_step :=
  lazymatch goal with
  | |- keeps _ (mbind _ _) => apply keeps_bind; [|intros ?]
  | |- keeps _ (mret _) => apply keeps_ret
  | |- keeps _ (raise _) => apply keeps_raise
  | |- keeps _ (tell _) => apply keeps_tell
  | |- keeps _ (emit _) => apply keeps_emit
  | |- keeps _ (lift_res _) => apply keeps_lift_res
  | |- keeps _ get => apply keeps_get
  | |- keeps _ (reading _) => apply keeps_reading
  | |- keeps _ (modify _) => apply keeps_modify
  | |- keeps _ (if ?b then _ else _) => destruct b
  | |- keeps _ (match ?x with _ => _ end) => destruct x
  end.

Ltac keeps_unfold :=
  unfold on_api_ping_timeout, on_backtrace, on_class_loader_loading_class,
    on_enumerate_java_classes_match, on_enumerate_java_methods_complete,
    on_ftrace, on_hook_java_callback, on_hook_java_on_load_callback,
    on_hook_native_callback, on_hook_native_on_load_callback,
    on_hook_deleted, on_java_on_load_callback, on_log,
    on_native_on_load_callback, on_native_on_load_module_loading,
    on_new_thread, on_resume, on_release_js, on_set_context,
    on_set_context_value, on_set_data, on_update_modules, on_update_ranges,
    on_watcher, on_watcher_added, on_watcher_removed, on_memoryscan_result,
    resume_proc, _on_request_resume_from_js, _on_apply_context,
    p, loads, item, as_list, as_dict.

(** Dictionary facts. *)

Lemma dict_get_set_same {V} (k : string) (v : V) (d : list (string * V)) :
  dict_get k (dict_set k v d) = Some v.
Proof.
  induction d as [|[k' v'] d IH]; cbn.
  - rewrite String.eqb_refl. reflexivity.
  - destruct (String.eqb k k') eqn:Hk; cbn; rewrite Hk; [reflexivity|exact IH].
Qed.

Lemma dict_get_set_other {V} (k k0 : string) (v : V)
      (d : list (string * V)) :
  k0 <> k -> dict_get k0 (dict_set k v d) = dict_get k0 d.
Proof.
  intros Hne. induction d as [|[k' v'] d IH]; cbn.
  - apply String.eqb_neq in Hne. rewrite Hne. reflexivity.
  - destruct (String.eqb k k') eqn:Hk; cbn.
    + apply String.eqb_eq in Hk. subst k'.
      apply String.eqb_neq in Hne. rewrite Hne. reflexivity.
    + rewrite IH. reflexivity.
Qed.

Lemma dict_has_set {V} (k k0 : string) (v : V) (d : list (string * V)) :
  dict_has k0 d = true -> dict_has k0 (dict_set k v d) = true.
Proof.
  unfold dict_has. destruct (String.eqb_spec k0 k) as [->|Hne].
  - rewrite dict_get_set_same. reflexivity.
  - rewrite dict_get_set_other by exact Hne. auto.
Qed.

Lemma dict_get_del_same {V} (k : string) (d : list (string * V)) :
  dict_get k (dict_del k d) = None.
Proof.
  induction d as [|[k' v'] d IH]; cbn; [reflexivity|].
  destruct (String.eqb k k') eqn:Hk; cbn; [exact IH|].
  rewrite Hk. exact IH.
Qed.

Lemma dict_get_del_other {V} (k k0 : string) (d : list (string * V)) :
  k0 <> k -> dict_get k0 (dict_del k d) = dict_get k0 d.
Proof.
  intros Hne. induction d as [|[k' v'] d IH]; cbn; [reflexivity|].
  destruct (String.eqb k k') eqn:Hk; cbn.
  - apply String.eqb_eq in Hk. subst k'.
    apply String.eqb_neq in Hne. rewrite Hne. exact IH.
  - rewrite IH. reflexivity.
Qed.

(** Every handler but the one of [release] keeps the keys of the context
    store. *)
Lemma dispatch_keeps_context (E : Env) (what : string) (parts : list string)
      (data : option (list Byte.byte)) (cmd k : string) :
  cmd <> "release" ->
  keeps (fun s => dict_has k (contexts s) = true)
        (dispatch E what parts data cmd).
Proof.
  intros Hcmd. unfold dispatch.
  repeat match goal with
         | |- keeps _ (if String.eqb cmd ?t then _ else _) =>
             destruct (String.eqb_spec cmd t)
         end.
  all: try contradiction.
  all: keeps_unfold.
  all: repeat keeps_step.
  all: try (intros s Hs; exact Hs).
  all: intros s Hs; cbn [contexts set_contexts]; apply dict_has_set; exact Hs.
Qed.

(** The handlers of all tags but [release] and [set_context] do not touch
    the context store at all. *)
Lemma dispatch_keeps_store (E : Env) (what : string) (parts : list string)
      (data : option (list Byte.byte)) (cmd : string)
      (store : list (string * Context)) :
  cmd <> "release" -> cmd <> "set_context" ->
  keeps (fun s => contexts s = store) (dispatch E what parts data cmd).
Proof.
  intros Hrel Hset. unfold dispatch.
  repeat match goal with
         | |- keeps _ (if String.eqb cmd ?t then _ else _) =>
             destruct (String.eqb_spec cmd t)
         end.
  all: try contradiction.
  all: keeps_unfold.
  all: repeat keeps_step.
  all: intros s Hs; exact Hs.
Qed.

Lemma prefix_sep_no_colon (c : ascii) (s : string) :
  Ascii.eqb c ":" = false -> String.prefix ":::" (String c s) = false.
Proof.
  intros Hc. cbn [String.prefix].
  destruct (ascii_dec ":" c) as [<-|_]; [|reflexivity].
  discriminate Hc.
Qed.

Lemma prefix_empty (s : string) : String.prefix "" s = true.
Proof. destruct s; reflexivity. Qed.

Lemma split_from_no_colon (s : string) :
  no_colon s = true -> split_from ":::" 0 s = (s, []).
Proof.
  induction s as [|c s IH]; [reflexivity|].
  cbn [no_colon]. intros H. apply andb_prop in H as [Hc Hs].
  apply negb_true_iff in Hc.
  cbn [split_from]. rewrite (prefix_sep_no_colon c s Hc), (IH Hs).
  reflexivity.
Qed.

Lemma split_from_field (a b : string) :
  no_colon a = true ->
  split_from ":::" 0 (a +:+ ":::" +:+ b) = (a, split ":::" b).
Proof.
  intros Ha. induction a as [|c a IH].
  - change ("" +:+ ":::" +:+ b) with (String ":" (String ":" (String ":" b))).
    cbn. rewrite prefix_empty. unfold split.
    destruct (split_from ":::" 0 b). reflexivity.
  - cbn [no_colon] in Ha. apply andb_prop in Ha as [Hc Ha].
    apply negb_true_iff in Hc.
    change (String c a +:+ ":::" +:+ b) with (String c (a +:+ ":::" +:+ b)).
    cbn [split_from]. rewrite (prefix_sep_no_colon c _ Hc), (IH Ha).
    reflexivity.
Qed.

Lemma split_two_fields (a b : string) :
  no_colon a = true -> no_colon b = true ->
  split ":::" (a +:+ ":::" +:+ b) = [a; b].
Proof.
  intros Ha Hb. unfold split at 1. rewrite (split_from_field a b Ha).
  unfold split. rewrite (split_from_no_colon b Hb). reflexivity.
Qed.

Lemma no_colon_app (a b : string) :
  no_colon a = true -> no_colon b = true -> no_colon (a +:+ b) = true.
Proof.
  intros Ha Hb. induction a as [|c a IH]; [exact Hb|].
  cbn [no_colon] in *. apply andb_prop in Ha as [Hc Ha].
  change (String c a +:+ b) with (String c (a +:+ b)). cbn [no_colon].
  rewrite Hc, (IH Ha). reflexivity.
Qed.

Lemma no_colon_uint (d : Decimal.uint) :
  no_colon (DecimalString.NilEmpty.string_of_uint d) = true.
Proof. induction d; cbn; auto. Qed.

Lemma no_colon_str_of_Z (z : Z) : no_colon (str_of_Z z) = true.
Proof.
  unfold str_of_Z, DecimalString.NilZero.string_of_int,
    DecimalString.NilZero.string_of_uint.
  destruct (Z.to_int z) as [d|d]; destruct d; cbn [no_colon];
    try reflexivity;
    try (apply (no_colon_uint (_ d)));
    try (apply (no_colon_app "-" _ eq_refl); apply no_colon_uint).
Qed.

Lemma split_release (t : Z) :
  split ":::" ("release:::" +:+ str_of_Z t) = ["release"; str_of_Z t].
Proof.
  apply (split_two_fields "release" (str_of_Z t) eq_refl).
  apply no_colon_str_of_Z.
Qed.

Lemma bind_state_after {S A B} (m : M S A) (k : A -> M S B) (s s1 : S)
      (a : A) (t1 : list effect) :
  m s = (Ret a, s1, t1) -> state ((m ≫= k) s) = state (k a s1).
Proof.
  intros H. rewrite bind_run, H. unfold state.
  destruct (k a s1) as [[r s2] t2]. reflexivity.
Qed.

Lemma establishes_bind {A B} (P : Dwarf -> Prop) (m : M Dwarf A)
      (k : A -> M Dwarf B) (s : Dwarf) :
  P (state (m s)) -> (forall a, keeps P (k a)) -> P (state ((m ≫= k) s)).
Proof.
  intros Hm Hk. unfold state in *. rewrite bind_run.
  destruct (m s) as [[[a|e] s1] t1]; cbn in *.
  - specialize (Hk a s1 Hm). unfold state in Hk.
    destruct (k a s1) as [[r s2] t2]. exact Hk.
  - exact Hm.
Qed.

(** A hit stores its context under the thread id it reports. *)
Lemma apply_context_stores (E : Env) (self : Dwarf)
      (cd : list (string * pyval)) (r c tid : pyval) :
  dict_get "reason" cd = Some r -> eq_int r (-1) = false ->
  dict_get "context" cd = Some c -> dict_get "tid" cd = Some tid ->
  dict_get (py_str E tid)
           (contexts (state (_on_apply_context E cd self)))
  = Some {| snapshot := c |}.
Proof.
  intros Hr Hneg Hc Htid. unfold _on_apply_context.
  rewrite (bind_state_after _ _ self self r [])
    by (unfold item, lift_res; cbn [getitem]; rewrite Hr; reflexivity).
  rewrite Hneg. unfold dict_has at 1. rewrite Hc.
  apply (establishes_bind
           (fun s => dict_get (py_str E tid) (contexts s)
                     = Some {| snapshot := c |})).
  - rewrite (bind_state_after _ _ self self c [])
      by (unfold item, lift_res; cbn [getitem]; rewrite Hc; reflexivity).
    rewrite (bind_state_after _ _ self self tid [])
      by (unfold item, lift_res; cbn [getitem]; rewrite Htid; reflexivity).
    apply (establishes_bind
             (fun s => dict_get (py_str E tid) (contexts s)
                       = Some {| snapshot := c |})).
    + cbn. apply dict_get_set_same.
    + intros _. unfold item. repeat keeps_step.
  - intros _. unfold item. repeat keeps_step.
    intros s Hs. exact Hs.
Qed.

(** The handler of [release] removes the context of the thread it names,
    whether or not the rest of the handler goes through. *)
Lemma release_removes (E : Env) (self : Dwarf) (k : string)
      (rest : list string) :
  dict_get k (contexts (state (on_release E ("release" :: k :: rest) self)))
  = None.
Proof.
  unfold on_release, p, part, dict_has, mbind, M_bind, modify, get, lift_res,
    tell, emit, mret, M_ret, state.
  cbn [nth_error of_option].
  destruct (dict_get k (contexts self)) eqn:Hk;
    destruct (py_int E k); cbn; auto using dict_get_del_same.
Qed.

(** A release leaves the contexts of the threads it does not name as they
    are, whether or not the handler goes through. *)
Lemma release_keeps_others (E : Env) (self : Dwarf) (parts : list string)
      (k : string) :
  nth_error parts 1 <> Some k ->
  dict_get k (contexts (state (on_release E parts self)))
  = dict_get k (contexts self).
Proof.
  intros Hother.
  unfold on_release, p, part, dict_has, mbind, M_bind, modify, get, lift_res,
    tell, emit, mret, M_ret, state.
  destruct (nth_error parts 1) as [p1|]; cbn [of_option]; [|reflexivity].
  assert (Hne : k <> p1) by (intros ->; apply Hother; reflexivity).
  destruct (dict_get p1 (contexts self)); destruct (py_int E p1); cbn;
    auto using dict_get_del_other.
Qed.

Lemma keeps_lift_res_bind {A B} (P : Dwarf -> Prop) (r : res A)
      (k : A -> M Dwarf B) :
  (forall a, r = Ret a -> keeps P (k a)) -> keeps P (lift_res r ≫= k).
Proof.
  intros Hk s Hs. unfold state in *. rewrite bind_run, lift_res_run.
  destruct r as [a|e]; [|exact Hs].
  specialize (Hk a eq_refl s Hs). unfold state in Hk.
  destruct (k a s) as [[r s2] t2]. exact Hk.
Qed.

(** A context message that reports another thread leaves the context
    stored for [k] as it is. *)
Lemma apply_context_keeps_others (E : Env) (cd : list (string * pyval))
      (k : string) (store : option Context) :
  (forall tid, dict_get "tid" cd = Some tid -> py_str E tid <> k) ->
  keeps (fun s => dict_get k (contexts s) = store) (_on_apply_context E cd).
Proof.
  intros Hother. unfold _on_apply_context, item.
  apply keeps_bind; [apply keeps_lift_res|intros reason].
  apply keeps_bind.
  - destruct (eq_int reason (-1)).
    + repeat keeps_step. all: intros s Hs; exact Hs.
    + destruct (dict_has "context" cd); [|apply keeps_ret].
      apply keeps_bind; [apply keeps_lift_res|intros c]. cbv zeta.
      apply keeps_lift_res_bind. intros tid Htid.
      assert (Hne : k <> py_str E tid).
      { intros ->. apply (Hother tid); [|reflexivity].
        cbn [getitem] in Htid. destruct (dict_get "tid" cd); [|discriminate].
        cbn in Htid. congruence. }
      apply keeps_bind.
      * apply keeps_modify. intros s Hs. cbn [contexts set_contexts].
        rewrite dict_get_set_other by exact Hne. exact Hs.
      * intros _. repeat keeps_step. all: intros s Hs; exact Hs.
  - intros _. repeat keeps_step. all: intros s Hs; exact Hs.
Qed.

(** C7.  For every thread id [t]: an apply-context hit for [t] stores its
    context under [t]; dispatching the release message for [t] removes it;
    no other message removes a context stored for [t], be it a message of
    another tag or a release that names another thread; a release that
    names another thread and a context message that reports another thread
    leave the very context stored for [t]; and apart from [release] and
    from [set_context], which stores the context of a new hit, the tags
    leave the whole store as it is. *)
Theorem context_lifetime (E : Env) (self : Dwarf) (t : Z) :
  (forall cd r c,
     dict_get "reason" cd = Some r -> eq_int r (-1) = false ->
     dict_get "context" cd = Some c -> dict_get "tid" cd = Some (PInt t) ->
     dict_get (str_of_Z t)
              (contexts (state (_on_apply_context E cd self)))
     = Some {| snapshot := c |})
  /\
  (forall message data,
     dict_get "payload" message
     = Some (PStr ("release:::" +:+ str_of_Z t)) ->
     dict_get (str_of_Z t)
              (contexts (state (_on_message E message data self)))
     = None)
  /\
  (forall message data,
     (forall what, dict_get "payload" message = Some (PStr what) ->
                   nth 0 (split ":::" what) "" = "release" ->
                   nth_error (split ":::" what) 1 <> Some (str_of_Z t)) ->
     dict_has (str_of_Z t) (contexts self) = true ->
     dict_has (str_of_Z t)
              (contexts (state (_on_message E message data self)))
     = true)
  /\
  (forall message data what k rest,
     dict_get "payload" message = Some (PStr what) ->
     split ":::" what = "release" :: k :: rest ->
     k <> str_of_Z t ->
     dict_get (str_of_Z t)
              (contexts (state (_on_message E message data self)))
     = dict_get (str_of_Z t) (contexts self))
  /\
  (forall cd,
     (forall tid, dict_get "tid" cd = Some tid ->
                  py_str E tid <> str_of_Z t) ->
     dict_get (str_of_Z t)
              (contexts (state (_on_apply_context E cd self)))
     = dict_get (str_of_Z t) (contexts self))
  /\
  (forall message data,
     (forall what, dict_get "payload" message = Some (PStr what) ->
                   nth 0 (split ":::" what) "" <> "release"
                   /\ nth 0 (split ":::" what) "" <> "set_context") ->
     contexts (state (_on_message E message data self)) = contexts self).
Proof.
  repeat split.
  - intros cd r c Hr Hneg Hc Htid.
    exact (apply_context_stores E self cd r c (PInt t) Hr Hneg Hc Htid).
  - intros message data Hp.
    rewrite (on_message_dispatches E message data _ _ _ _ Hp
               (split_release t)).
    rewrite dispatch_release. apply release_removes.
  - intros message data Htag Hhas. unfold _on_message.
    destruct (dict_get "payload" message) as [v|] eqn:Hp; [|exact Hhas].
    destruct v; try exact Hhas.
    destruct (length (split ":::" s) <? 2)%nat; [exact Hhas|].
    destruct (String.eqb_spec (nth 0 (split ":::" s) "") "release")
      as [Hrel|Hrel].
    + rewrite Hrel, dispatch_release. unfold dict_has in *.
      rewrite release_keeps_others by exact (Htag s eq_refl Hrel).
      exact Hhas.
    + apply dispatch_keeps_context; [exact Hrel|exact Hhas].
  - intros message data what k rest Hp Hs Hk.
    rewrite (on_message_dispatches E message data _ _ _ _ Hp Hs).
    rewrite dispatch_release. apply release_keeps_others.
    cbn. intros [= ->]. apply Hk. reflexivity.
  - intros cd Hother.
    exact (apply_context_keeps_others E cd (str_of_Z t) _ Hother self
             eq_refl).
  - intros message data Htag. unfold _on_message.
    destruct (dict_get "payload" message) as [v|] eqn:Hp; [|reflexivity].
    destruct v; try reflexivity.
    destruct (length (split ":::" s) <? 2)%nat; [reflexivity|].
    destruct (Htag s eq_refl) as [Hrel Hset].
    apply (dispatch_keeps_store E s _ data _ (contexts self) Hrel Hset).
    reflexivity.
Qed.

Lemma context_lifetime_witness :
  dict_get "7"
    (contexts (state (_on_apply_context Sample.quiet
                        [("reason", PInt 0); ("tid", PInt 7);
                         ("ptr", PStr "0x1000");
                         ("context", PDict [("sp", PInt 64)])]
                        Sample.attached)))
  = Some {| snapshot := PDict [("sp", PInt 64)] |}
  /\ dict_get "7"
       (contexts (state (_on_message Sample.quiet
                           [("payload", PStr "release:::7")] None
                           Sample.stopped)))
     = None
  /\ dict_has "7"
       (contexts (state (_on_message Sample.quiet
                           [("payload", PStr "log:::hello")] None
                           Sample.stopped)))
     = true
  /\ dict_get "7"
       (contexts (state (_on_message Sample.quiet
                           [("payload", PStr "release:::9")] None
                           Sample.stopped)))
     = Some (Sample.ctx 4096)
  /\ dict_get "7"
       (contexts (state (_on_apply_context Sample.quiet
                           [("reason", PInt 0); ("tid", PInt 9);
                            ("ptr", PStr "0x2000");
                            ("context", PDict [("sp", PInt 64)])]
                           Sample.stopped)))
     = Some (Sample.ctx 4096).
Proof.
  split; [|split; [|split; [|split]]].
  - exact (proj1 (context_lifetime Sample.quiet Sample.attached 7)
                 [("reason", PInt 0); ("tid", PInt 7);
                  ("ptr", PStr "0x1000");
                  ("context", PDict [("sp", PInt 64)])]
                 (PInt 0) (PDict [("sp", PInt 64)])
                 eq_refl eq_refl eq_refl eq_refl).
  - exact (proj1 (proj2 (context_lifetime Sample.quiet Sample.stopped 7))
                 [("payload", PStr "release:::7")] None eq_refl).
  - refine (proj1 (proj2 (proj2 (context_lifetime Sample.quiet
                                   Sample.stopped 7)))
                  [("payload", PStr "log:::hello")] None _ eq_refl).
    intros what H. injection H as <-. discriminate.
  - exact (proj1 (proj2 (proj2 (proj2 (context_lifetime Sample.quiet
                                         Sample.stopped 7))))
                 [("payload", PStr "release:::9")] None "release:::9" "9" []
                 eq_refl eq_refl ltac:(discriminate)).
  - refine (proj1 (proj2 (proj2 (proj2 (proj2
              (context_lifetime Sample.quiet Sample.stopped 7)))))
              [("reason", PInt 0); ("tid", PInt 9); ("ptr", PStr "0x2000");
               ("context", PDict [("sp", PInt 64)])] _).
    intros tid [= <-]. discriminate.
Defined.

(** ** Reinitialization *)

Lemma load_plugins_state (candidates : list (option plugin)) (s : Dwarf) :
  state (load_plugins candidates s)
  = set_plugins (_plugins s ++ loadable candidates) s.
Proof.
  revert s. induction candidates as [|[p|] rest IH]; intros s.
  - cbn. rewrite app_nil_r. destruct s; reflexivity.
  - cbn [load_plugins loadable].
    rewrite (bind_state_after _ _ s _ tt [] (modify_run _ s)).
    rewrite IH. destruct s; cbn. rewrite <- app_assoc. reflexivity.
  - cbn. rewrite app_nil_r. destruct s; reflexivity.
Qed.

Lemma reinitialize_state (E : Env) (self : Dwarf) :
  state (reinitialize E self)
  = {| _plugins := loadable (plugin_candidates E);
       _pid := 0; _package := None; _process := None; _script := None;
       _spawned := false; _resumed := false;
       java_available := PBool false;
       _device := None;
       hooks := ∅; native_on_loads := ∅; java_on_loads := ∅;
       java_hooks := ∅;
       temporary_input := ""; native_pending_args := PNone;
       java_pending_args := PNone;
       context_tid := PInt 0;
       watchers := watchers self; contexts := contexts self;
       _arch := _arch self; _pointer_size := _pointer_size self;
       _platform := _platform self |}.
Proof.
  unfold reinitialize, reload_plugins.
  rewrite (bind_state_after _ _ self _ tt [] (modify_run _ self)).
  rewrite load_plugins_state. reflexivity.
Qed.

(** The initial [set_context] message assigns the four attributes of the
    handshake and nothing else. *)
Lemma initial_context_run (E : Env) (s : Dwarf)
      (message : list (string * pyval)) (data : option (list Byte.byte))
      (what p1 : string) (rest : list string) (d : list (string * pyval))
      (arch platform pointer_size java : pyval) :
  dict_get "payload" message = Some (PStr what) ->
  split ":::" what = "set_context" :: p1 :: rest ->
  json_loads E p1 = Some (PDict d) ->
  optional_list "modules" d -> optional_list "ranges" d ->
  optional_dict "backtrace" d ->
  dict_get "reason" d = Some (PInt (-1)) ->
  dict_get "arch" d = Some arch ->
  dict_get "platform" d = Some platform ->
  dict_get "pointerSize" d = Some pointer_size ->
  dict_get "java" d = Some java ->
  outcome (_on_message E message data s) = Ret tt
  /\ state (_on_message E message data s)
     = set_java_available java
         (set_pointer_size pointer_size
            (set_platform platform (set_arch arch s))).
Proof.
  intros Hp Hs Hj Hm Hr Hb Hreason Harch Hplat Hps Hjava.
  rewrite (on_message_dispatches E message data what _ _ _ Hp Hs).
  change (dispatch E what _ data "set_context")
    with (on_set_context E ("set_context" :: p1 :: rest)).
  unfold optional_list, optional_dict in Hm, Hr, Hb.
  unfold on_set_context, _on_apply_context, p, part, loads, item, as_dict,
    as_list, mbind, M_bind, modify, get, lift_res, tell, emit, mret, M_ret,
    outcome, state.
  cbn [nth_error of_option]. rewrite Hj.
  cbn [of_option contains getitem]. unfold dict_has.
  rewrite Hreason, Harch, Hplat, Hps, Hjava.
  destruct (dict_get "modules" d) as [[]|]; try contradiction;
    destruct (dict_get "ranges" d) as [[]|]; try contradiction;
    destruct (dict_get "backtrace" d) as [[]|]; try contradiction;
    cbn [of_option eq_int Z.eqb Pos.eqb java_available set_java_available
         _pid set_pointer_size set_platform set_arch fst snd];
    destruct (truthy java); split; reflexivity.
Qed.

(** C1, amended.  [reinitialize] resets the process, script and spawn
    state, the java flag, the native, java and on-load hook registries, the
    staged hook input and pending arguments and the active thread id to
    their empty values, sets the device reference to [None] as well, and
    rebuilds the plugin list from the plugins found on disk.  A
    [set_context] message with the initial reason that follows is handled
    without error and records architecture, platform, pointer size and
    java availability from the message, with those hook registries still
    empty and no active thread. *)
Theorem reinitialize_then_initial_context (E : Env) (self : Dwarf)
        (message : list (string * pyval)) (data : option (list Byte.byte))
        (what p1 : string) (rest : list string) (d : list (string * pyval))
        (arch platform pointer_size java : pyval) :
  dict_get "payload" message = Some (PStr what) ->
  split ":::" what = "set_context" :: p1 :: rest ->
  json_loads E p1 = Some (PDict d) ->
  optional_list "modules" d -> optional_list "ranges" d ->
  optional_dict "backtrace" d ->
  dict_get "reason" d = Some (PInt (-1)) ->
  dict_get "arch" d = Some arch ->
  dict_get "platform" d = Some platform ->
  dict_get "pointerSize" d = Some pointer_size ->
  dict_get "java" d = Some java ->
  let s1 := state (reinitialize E self) in
  let s2 := state (_on_message E message data s1) in
  (_plugins s1 = loadable (plugin_candidates E)
   /\ _pid s1 = 0 /\ _package s1 = None /\ _process s1 = None
   /\ _script s1 = None /\ _spawned s1 = false /\ _resumed s1 = false
   /\ java_available s1 = PBool false /\ _device s1 = None
   /\ hooks s1 = ∅ /\ native_on_loads s1 = ∅ /\ java_on_loads s1 = ∅
   /\ java_hooks s1 = ∅ /\ temporary_input s1 = ""
   /\ native_pending_args s1 = PNone /\ java_pending_args s1 = PNone
   /\ context_tid s1 = PInt 0)
  /\ outcome (_on_message E message data s1) = Ret tt
  /\ (_arch s2 = arch /\ _platform s2 = platform
      /\ _pointer_size s2 = pointer_size /\ java_available s2 = java
      /\ hooks s2 = ∅ /\ native_on_loads s2 = ∅ /\ java_on_loads s2 = ∅
      /\ java_hooks s2 = ∅ /\ context_tid s2 = PInt 0).
Proof.
  intros Hp Hs Hj Hm Hr Hb Hreason Harch Hplat Hps Hjava s1 s2.
  destruct (initial_context_run E s1 message data what p1 rest d arch
              platform pointer_size java Hp Hs Hj Hm Hr Hb Hreason Harch
              Hplat Hps Hjava) as [Hout Hst].
  subst s2. rewrite Hout, Hst.
  subst s1. rewrite reinitialize_state.
  cbn. repeat split; reflexivity.
Qed.

Lemma reinitialize_then_initial_context_witness :
  _device (state (reinitialize Sample.handshake Sample.stopped)) = None
  /\ hooks (state (reinitialize Sample.handshake Sample.stopped)) = ∅
  /\ _arch (state (_on_message Sample.handshake
                     [("payload", PStr "set_context:::<initial>")] None
                     (state (reinitialize Sample.handshake Sample.stopped))))
     = PStr "arm64"
  /\ _pointer_size
       (state (_on_message Sample.handshake
                 [("payload", PStr "set_context:::<initial>")] None
                 (state (reinitialize Sample.handshake Sample.stopped))))
     = PInt 8.
Proof.
  pose proof (reinitialize_then_initial_context Sample.handshake
                Sample.stopped
                [("payload", PStr "set_context:::<initial>")] None
                "set_context:::<initial>" "<initial>" []
                Sample.initial_context
                (PStr "arm64") (PStr "linux") (PInt 8) (PBool false)
                eq_refl eq_refl eq_refl I I I eq_refl
                eq_refl eq_refl eq_refl eq_refl) as H.
  cbv zeta in H.
  destruct H as (H1 & _ & H2).
  split; [apply H1|]. split; [apply H1|]. split; apply H2.
Defined.

(** C1 as stated fails: [reinitialize] does not leave the device reference
    intact, it sets it to [None] (line 160). *)
Lemma reinitialize_clears_device :
  ~ (_device (state (reinitialize Sample.handshake Sample.stopped))
     = _device Sample.stopped
     /\ contexts
          (state (_on_message Sample.handshake
                    [("payload", PStr "set_context:::<initial>")] None
                    (state (reinitialize Sample.handshake Sample.stopped))))
        = []).
Proof. intros [H _]. vm_compute in H. discriminate H. Qed.

(** What [reinitialize] does not assign survives it: the contexts and the
    watchers of the previous session are still there afterwards. *)
Lemma reinitialize_keeps_contexts_and_watchers (E : Env) (self : Dwarf) :
  contexts (state (reinitialize E self)) = contexts self
  /\ watchers (state (reinitialize E self)) = watchers self.
Proof. rewrite reinitialize_state. split; reflexivity. Qed.

(* ===================================================================== *)
(** * Further properties of the code *)
(* ===================================================================== *)

(** ** The command gateway *)

(** Under the handler of [dwarf_api] only the engine and [int(tid)]
    raise. *)
Lemma dwarf_api_loop_raises (E : Env) (is_releasing : bool) (api : string)
      (keys : list string) :
  forall (tid : pyval) (e : exn) (t : list effect),
    dwarf_api_loop E is_releasing api keys tid = (Raise e, t) ->
    (exists k, In k keys /\ e = InvalidLiteral k)
    \/ (exists msg, e = RemoteError msg).
Proof.
  induction keys as [|k keys IH]; intros tid e t Hrun; [discriminate Hrun|].
  cbn [dwarf_api_loop] in Hrun.
  unfold mbind, T_bind, script_post, script_api, t_res, mret, T_ret in Hrun.
  destruct (post_error E (PStr k)) as [msg|];
    [injection Hrun as <- _; right; eexists; reflexivity|].
  destruct is_releasing.
  - destruct (py_int E k) as [n|]; cbn [of_option] in Hrun;
      [|injection Hrun as <- _; left; exists k; split;
        [left; reflexivity|reflexivity]].
    destruct (api_reply E (PInt n) api (PList [PInt n])) as [v|msg];
      [|injection Hrun as <- _; right; eexists; reflexivity].
    destruct (dwarf_api_loop E true api keys (PStr k)) as [[v'|e'] t'] eqn:Hl;
      [discriminate Hrun|].
    injection Hrun as <- _.
    destruct (IH _ _ _ Hl) as [(k' & Hin & ->)|Hmsg]; [left|right; exact Hmsg].
    exists k'. split; [right; exact Hin|reflexivity].
  - destruct (dwarf_api_loop E false api keys (PStr k)) as [[v'|e'] t'] eqn:Hl;
      [discriminate Hrun|].
    injection Hrun as <- _.
    destruct (IH _ _ _ Hl) as [(k' & Hin & ->)|Hmsg]; [left|right; exact Hmsg].
    exists k'. split; [right; exact Hin|reflexivity].
Qed.

Lemma dwarf_api_outcome (E : Env) (self : Dwarf) (api : string)
      (args tid : pyval) :
  exists v, (dwarf_api E self api args tid).1 = Ret v.
Proof.
  unfold dwarf_api.
  destruct ((negb (_pid self =? 0) && (_pid self =? 0))
            || bool_decide (_process self = None)); [eexists; reflexivity|].
  destruct (bool_decide (_script self = None)); [eexists; reflexivity|].
  unfold t_try.
  destruct (if eq_int _ 0 then _ else _) as [[v|e] t].
  - exists v. reflexivity.
  - exists PNone. reflexivity.
Qed.


(** With a session attached, a call routed to a thread other than 0 posts
    the routing notification for that thread, then invokes the api once;
    it returns the reply, or [None] with the engine's message logged when
    the call raises. *)
Theorem dwarf_api_routes (E : Env) (self : Dwarf) (api : string)
        (args tid : pyval) :
  _process self <> None -> _script self <> None ->
  eq_int (routed_tid self api tid) 0 = false ->
  post_error E (PStr (py_str E (routed_tid self api tid))) = None ->
  dwarf_api E self api args tid
  = match api_reply E (routed_tid self api tid) api (passed_args args) with
    | inl v =>
        (Ret v,
         [ScriptPost (PStr (py_str E (routed_tid self api tid)));
          ScriptApi (routed_tid self api tid) api (passed_args args)])
    | inr msg =>
        (Ret PNone,
         [ScriptPost (PStr (py_str E (routed_tid self api tid)));
          ScriptApi (routed_tid self api tid) api (passed_args args);
          Emit (onLogEvent msg)])
    end.
Proof.
  intros Hp Hs Ht Hpost. unfold dwarf_api.
  rewrite (bool_decide_eq_false_2 _ Hp), (bool_decide_eq_false_2 _ Hs).
  replace (negb (_pid self =? 0) && (_pid self =? 0)) with false
    by (destruct (_pid self =? 0); reflexivity).
  cbn [orb]. fold (routed_tid self api tid). fold (passed_args args).
  rewrite Ht. unfold script_post, script_api, mbind, T_bind, t_try, t_tell.
  rewrite Hpost.
  destruct (api_reply E _ api _) as [v|msg]; reflexivity.
Qed.

Lemma read_memory_loop_chunks (E : Env) (self : Dwarf) (ptr length : Z)
      (count : nat) :
  forall (k fuel : nat) (data : list Byte.byte),
    (count < fuel)%nat ->
    MiB * (Z.of_nat k + Z.of_nat count) < length
      <= MiB * (Z.of_nat k + Z.of_nat count + 1) ->
    Forall (fun c => is_Some (chunk_bytes E self c))
           (chunks ptr length k (S count)) ->
    read_memory_loop E self fuel ptr length (MiB * Z.of_nat k)
      (Z.min MiB (length - MiB * Z.of_nat k)) data
    = (Ret (PBytes
              (data ++ concat (map (fun c => default [] (chunk_bytes E self c))
                                   (chunks ptr length k (S count))))),
       concat (map (fun c => (read_chunk E self c).2)
                   (chunks ptr length k (S count)))).
Proof.
  induction count as [|count IH]; intros k fuel data Hfuel Hlen Hok.
  - destruct fuel as [|fuel]; [lia|].
    apply Forall_cons in Hok as [[b Hb] _].
    unfold chunk_bytes, read_chunk, chunk in Hb. cbn [fst snd] in Hb.
    cbn [read_memory_loop chunks seq map concat].
    unfold mbind, T_bind, read_chunk, chunk at 2. cbn [fst snd].
    unfold chunk_bytes at 1, read_chunk, chunk. cbn [fst snd].
    destruct (dwarf_api E self "readBytes" _ _) as [[r|e] t];
      [|discriminate Hb].
    cbn [fst] in Hb |- *.
    destruct (extend_of r) as [b'|e]; [|discriminate Hb].
    unfold MiB in *.
    replace (length - (1024 * 1024 * Z.of_nat k
                       + Z.min (1024 * 1024)
                               (length - 1024 * 1024 * Z.of_nat k))
             >? 1024 * 1024) with false
      by (symmetry; rewrite Z.gtb_ltb; apply Z.ltb_ge; lia).
    replace (length - (1024 * 1024 * Z.of_nat k
                       + Z.min (1024 * 1024)
                               (length - 1024 * 1024 * Z.of_nat k))
             >? 0) with false
      by (symmetry; rewrite Z.gtb_ltb; apply Z.ltb_ge; lia).
    cbn. rewrite !app_nil_r. reflexivity.
  - destruct fuel as [|fuel]; [lia|].
    change (chunks ptr length k (S (S count)))
      with (chunk ptr length k :: chunks ptr length (S k) (S count)) in *.
    apply Forall_cons in Hok as [[b Hb] Hok].
    specialize (IH (S k) fuel).
    cbn [read_memory_loop map concat].
    unfold mbind, T_bind.
    unfold chunk_bytes at 1, read_chunk at 1 2, chunk at 1 2. cbn [fst snd].
    unfold chunk_bytes, read_chunk, chunk in Hb. cbn [fst snd] in Hb.
    destruct (dwarf_api E self "readBytes" _ _) as [[r|e] t];
      [|discriminate Hb].
    cbn [fst snd] in Hb |- *.
    destruct (extend_of r) as [b'|e]; [|discriminate Hb].
    cbn [default].
    assert (Hmin : Z.min MiB (length - MiB * Z.of_nat k) = MiB)
      by (unfold MiB in *; lia).
    rewrite Hmin.
    replace (MiB * Z.of_nat k + MiB) with (MiB * Z.of_nat (S k))
      by (unfold MiB; lia).
    assert (Hnext : (if length - MiB * Z.of_nat (S k) >? MiB
                     then MiB else length - MiB * Z.of_nat (S k))
                    = Z.min MiB (length - MiB * Z.of_nat (S k))).
    { destruct (length - MiB * Z.of_nat (S k) >? MiB) eqn:Hbig.
      - apply Z.gtb_lt in Hbig. lia.
      - rewrite Z.gtb_ltb in Hbig. apply Z.ltb_ge in Hbig. lia. }
    assert (Hpos : (length - MiB * Z.of_nat (S k) >? 0) = true)
      by (apply Z.gtb_lt; unfold MiB in *; lia).
    assert (Hrec :
      (if length - MiB * Z.of_nat (S k) >? MiB
       then read_memory_loop E self fuel ptr length (MiB * Z.of_nat (S k))
              MiB (data ++ b')
       else if length - MiB * Z.of_nat (S k) >? 0
       then read_memory_loop E self fuel ptr length (MiB * Z.of_nat (S k))
              (length - MiB * Z.of_nat (S k)) (data ++ b')
       else mret (PBytes (data ++ b')))
      = read_memory_loop E self fuel ptr length (MiB * Z.of_nat (S k))
          (Z.min MiB (length - MiB * Z.of_nat (S k))) (data ++ b')).
    { rewrite <- Hnext, Hpos.
      destruct (length - MiB * Z.of_nat (S k) >? MiB); reflexivity. }
    rewrite Hrec.
    rewrite (IH (data ++ b')) by (try assumption; unfold MiB in *; lia).
    rewrite <- app_assoc. reflexivity.
Qed.

Lemma read_memory_loop_stops (E : Env) (self : Dwarf) (ptr length : Z)
      (good : list (Z * Z)) :
  forall (k count fuel : nat) (data : list Byte.byte) (bad : Z * Z)
         (rest : list (Z * Z)),
    (count < fuel)%nat ->
    MiB * (Z.of_nat k + Z.of_nat count) < length
      <= MiB * (Z.of_nat k + Z.of_nat count + 1) ->
    chunks ptr length k (S count) = good ++ bad :: rest ->
    Forall (fun c => is_Some (chunk_bytes E self c)) good ->
    chunk_bytes E self bad = None ->
    read_memory_loop E self fuel ptr length (MiB * Z.of_nat k)
      (Z.min MiB (length - MiB * Z.of_nat k)) data
    = (Ret PNone,
       concat (map (fun c => (read_chunk E self c).2) (good ++ [bad]))).
Proof.
  induction good as [|g good IH];
    intros k count fuel data bad rest Hfuel Hlen Hplan Hok Hbad.
  - destruct fuel as [|fuel]; [lia|].
    change (chunks ptr length k (S count))
      with (chunk ptr length k :: chunks ptr length (S k) count) in Hplan.
    cbn [app] in Hplan. injection Hplan as Hb _. subst bad.
    cbn [read_memory_loop app map concat]. unfold mbind, T_bind.
    unfold chunk_bytes, read_chunk, chunk in Hbad. cbn [fst snd] in Hbad.
    unfold read_chunk, chunk. cbn [fst snd].
    destruct (dwarf_api_outcome E self "readBytes"
                (PList [PInt (ptr + MiB * Z.of_nat k);
                        PInt (Z.min MiB (length - MiB * Z.of_nat k))])
                (PInt 0)) as [v Hv].
    destruct (dwarf_api E self "readBytes" _ _) as [[r|e] t];
      cbn [fst snd] in *; [|discriminate Hv].
    destruct (extend_of r) as [b'|e]; [discriminate Hbad|].
    cbn. rewrite !app_nil_r. reflexivity.
  - destruct fuel as [|fuel]; [lia|].
    change (chunks ptr length k (S count))
      with (chunk ptr length k :: chunks ptr length (S k) count) in Hplan.
    cbn [app] in Hplan. injection Hplan as Hg Hplan. subst g.
    destruct count as [|count]; [destruct good; discriminate Hplan|].
    apply Forall_cons in Hok as [[b Hb] Hok].
    specialize (IH (S k) count fuel).
    cbn [read_memory_loop app map concat].
    unfold mbind, T_bind.
    unfold read_chunk at 1, chunk at 1. cbn [fst snd].
    unfold chunk_bytes, read_chunk, chunk in Hb. cbn [fst snd] in Hb.
    destruct (dwarf_api E self "readBytes" _ _) as [[r|e] t];
      [|discriminate Hb].
    cbn [fst snd] in Hb |- *.
    destruct (extend_of r) as [b'|e]; [|discriminate Hb].
    assert (Hmin : Z.min MiB (length - MiB * Z.of_nat k) = MiB)
      by (unfold MiB in *; lia).
    rewrite Hmin.
    replace (MiB * Z.of_nat k + MiB) with (MiB * Z.of_nat (S k))
      by (unfold MiB; lia).
    assert (Hnext : (if length - MiB * Z.of_nat (S k) >? MiB
                     then MiB else length - MiB * Z.of_nat (S k))
                    = Z.min MiB (length - MiB * Z.of_nat (S k))).
    { destruct (length - MiB * Z.of_nat (S k) >? MiB) eqn:Hbig.
      - apply Z.gtb_lt in Hbig. lia.
      - rewrite Z.gtb_ltb in Hbig. apply Z.ltb_ge in Hbig. lia. }
    assert (Hpos : (length - MiB * Z.of_nat (S k) >? 0) = true)
      by (apply Z.gtb_lt; unfold MiB in *; lia).
    assert (Hrec :
      (if length - MiB * Z.of_nat (S k) >? MiB
       then read_memory_loop E self fuel ptr length (MiB * Z.of_nat (S k))
              MiB (data ++ b')
       else if length - MiB * Z.of_nat (S k) >? 0
       then read_memory_loop E self fuel ptr length (MiB * Z.of_nat (S k))
              (length - MiB * Z.of_nat (S k)) (data ++ b')
       else mret (PBytes (data ++ b')))
      = read_memory_loop E self fuel ptr length (MiB * Z.of_nat (S k))
          (Z.min MiB (length - MiB * Z.of_nat (S k))) (data ++ b')).
    { rewrite <- Hnext, Hpos.
      destruct (length - MiB * Z.of_nat (S k) >? MiB); reflexivity. }
    rewrite Hrec.
    rewrite (IH (data ++ b') bad rest)
      by (try assumption; unfold MiB in *; lia).
    reflexivity.
Qed.

(** ** Reading memory *)

(** A read of more than 1 MiB is split into [ceil(length / 1 MiB)] reads
    that follow one another from [ptr], each of 1 MiB but the last, which
    takes what is left.  When every reply is a bytes object, [read_memory]
    returns their concatenation, in order.  The first reply that is not
    (a list, [None] after an error of the script, ...) ends the read:
    [read_memory] returns [None] and asks for no further chunk. *)
Theorem read_memory_chunked (E : Env) (self : Dwarf) (ptr length : Z) :
  MiB < length ->
  let plan := chunks ptr length 0 (Z.to_nat ((length + MiB - 1) / MiB)) in
  (Forall (fun c => is_Some (chunk_bytes E self c)) plan ->
   read_memory E self ptr length
   = (Ret (PBytes (concat (map (fun c => default [] (chunk_bytes E self c))
                               plan))),
      concat (map (fun c => (read_chunk E self c).2) plan)))
  /\
  (forall good bad rest,
     plan = good ++ bad :: rest ->
     Forall (fun c => is_Some (chunk_bytes E self c)) good ->
     chunk_bytes E self bad = None ->
     read_memory E self ptr length
     = (Ret PNone,
        concat (map (fun c => (read_chunk E self c).2) (good ++ [bad])))).
Proof.
  intros Hbig plan.
  assert (Hfails : forall good bad rest,
             plan = good ++ bad :: rest ->
             Forall (fun c => is_Some (chunk_bytes E self c)) good ->
             chunk_bytes E self bad = None ->
             read_memory E self ptr length
             = (Ret PNone,
                concat (map (fun c => (read_chunk E self c).2)
                            (good ++ [bad])))).
  { intros good bad rest Hplan Hgood Hbad. unfold read_memory.
    replace (length >? MiB) with true by (symmetry; apply Z.gtb_lt; lia).
    subst plan.
    assert (Hn : exists count,
               Z.to_nat ((length + MiB - 1) / MiB) = S count
               /\ MiB * Z.of_nat count < length
                  <= MiB * (Z.of_nat count + 1)).
    { exists (Z.to_nat ((length + MiB - 1) / MiB - 1)).
      unfold MiB in *.
      pose proof (Z.div_mod (length + 1024 * 1024 - 1) (1024 * 1024)
                    ltac:(lia)) as Hdm.
      pose proof (Z.mod_pos_bound (length + 1024 * 1024 - 1) (1024 * 1024)
                    ltac:(lia)) as Hmod.
      split; lia. }
    destruct Hn as (count & Hcount & Hlen). rewrite Hcount in *.
    pose proof (read_memory_loop_stops E self ptr length good 0 count
                  (Z.to_nat length) [] bad rest
                  ltac:(unfold MiB in *; lia)
                  ltac:(cbn [Z.of_nat]; unfold MiB in *; lia)
                  Hplan Hgood Hbad) as Hloop.
    cbn [Z.of_nat] in Hloop. rewrite Z.mul_0_r, Z.sub_0_r in Hloop.
    rewrite Z.min_l in Hloop by lia.
    exact Hloop. }
  split; [|exact Hfails].
  intros Hok. unfold read_memory.
  replace (length >? MiB) with true by (symmetry; apply Z.gtb_lt; lia).
  subst plan.
  assert (Hn : exists count,
             Z.to_nat ((length + MiB - 1) / MiB) = S count
             /\ MiB * Z.of_nat count < length
                <= MiB * (Z.of_nat count + 1)).
  { exists (Z.to_nat ((length + MiB - 1) / MiB - 1)).
    unfold MiB in *.
    pose proof (Z.div_mod (length + 1024 * 1024 - 1) (1024 * 1024)
                  ltac:(lia)) as Hdm.
    pose proof (Z.mod_pos_bound (length + 1024 * 1024 - 1) (1024 * 1024)
                  ltac:(lia)) as Hmod.
    split; lia. }
  destruct Hn as (count & Hcount & Hlen). rewrite Hcount in *.
  pose proof (read_memory_loop_chunks E self ptr length count 0
                (Z.to_nat length) [] ltac:(unfold MiB in *; lia)
                ltac:(cbn [Z.of_nat]; unfold MiB in *; lia) Hok) as Hloop.
  cbn [Z.of_nat] in Hloop. rewrite Z.mul_0_r, Z.sub_0_r in Hloop.
  rewrite Z.min_l in Hloop by lia.
  exact Hloop.
Qed.

(** ** The address-range cache, continued *)

Lemma status_zero_or_one (E : Env) (dwarf : Dwarf) (self self' : Range)
      (address : pyval) (length base_arg : Z) (require_data : bool)
      (status : Z) (t : list effect) :
  cache_hit (set_start_address (parse_ptr E address) self) = false ->
  init_with_address E dwarf address length base_arg require_data self
  = (Ret status, self', t) ->
  status = 0 \/ status = 1.
Proof.
  intros Hhit H. unfold init_with_address in H.
  bind_inv H. rewrite modify_run in Hrun. injection Hrun as <- <- <-.
  bind_inv H. rewrite get_run in Hrun. injection Hrun as <- <- <-.
  rewrite Hhit in H. bind_inv H.
  destruct a as [st|].
  - rewrite ret_run in H. injection H as <- <- <-.
    destruct (source _ =? SOURCE_TARGET).
    + apply fetch_outcome in Hrun. destruct Hrun as [-> _]. right. reflexivity.
    + rewrite ret_run in Hrun. discriminate Hrun.
  - apply data_status_spec in H. apply H.
Qed.

Lemma bind_trace_prefix {S A B} (m : M S A) (k : A -> M S B) (s : S) :
  exists rest, trace ((m ≫= k) s) = trace (m s) ++ rest.
Proof.
  rewrite bind_run. destruct (m s) as [[[a|e] s1] t1].
  - destruct (k a s1) as [[r s2] t2]. exists t2. reflexivity.
  - exists []. cbn. rewrite app_nil_r. reflexivity.
Qed.

(** A fetch starts with the range lookup. *)
Lemma fetch_trace_prefix (E : Env) (dwarf : Dwarf) (length base_arg : Z)
      (require_data : bool) (s : Range) :
  exists rest,
    trace (fetch E dwarf length base_arg require_data s)
    = (dwarf_api E dwarf "getRange" (PInt (start_address s)) (PInt 0)).2
      ++ rest.
Proof.
  unfold fetch. rewrite bind_run, get_run.
  match goal with
  | |- context [(attempt ?m ≫= ?k) s] =>
      destruct (bind_trace_prefix (attempt m) k s) as [rest Hrest];
      destruct ((attempt m ≫= k) s) as [[r1 s1] t1]
  end.
  exists rest. unfold trace in *. cbn [snd] in *. rewrite Hrest.
  unfold attempt.
  destruct (dwarf_api E dwarf "getRange" _ _) as [[v|e] t0]; reflexivity.
Qed.

(** What a routed call sends first: the routing notification and the call
    itself. *)
Lemma dwarf_api_routed_trace (E : Env) (self : Dwarf) (api : string)
      (args tid : pyval) :
  _process self <> None -> _script self <> None ->
  eq_int (routed_tid self api tid) 0 = false ->
  post_error E (PStr (py_str E (routed_tid self api tid))) = None ->
  exists rest,
    (dwarf_api E self api args tid).2
    = ScriptPost (PStr (py_str E (routed_tid self api tid)))
      :: ScriptApi (routed_tid self api tid) api (passed_args args) :: rest.
Proof.
  intros Hp Hs Ht Hpost. unfold dwarf_api.
  rewrite (bool_decide_eq_false_2 _ Hp), (bool_decide_eq_false_2 _ Hs).
  replace (negb (_pid self =? 0) && (_pid self =? 0)) with false
    by (destruct (_pid self =? 0); reflexivity).
  cbn [orb]. fold (routed_tid self api tid). fold (passed_args args).
  rewrite Ht. unfold script_post, script_api, mbind, T_bind, t_try, t_tell.
  rewrite Hpost.
  destruct (api_reply E _ api _) as [v|msg]; eexists; reflexivity.
Qed.

(** After [invalidate] the next request to a cache of the target is never
    answered from the cache, whatever the address: the status is not -1
    and the run starts with the [getRange] lookup for the address.  With a
    session attached and a thread stopped, that is the routing notification
    for the active thread followed by the [getRange] call. *)
Theorem invalidate_forces_fetch (E : Env) (dwarf : Dwarf) (r : Range)
        (address : pyval) (length base_arg : Z) (require_data : bool) :
  source r = SOURCE_TARGET ->
  let a := parse_ptr E address in
  let run := init_with_address E dwarf address length base_arg require_data
               (invalidate r) in
  outcome run <> Ret (-1)
  /\ (exists rest,
        trace run
        = (dwarf_api E dwarf "getRange" (PInt a) (PInt 0)).2 ++ rest)
  /\ (_process dwarf <> None -> _script dwarf <> None ->
      eq_int (context_tid dwarf) 0 = false ->
      post_error E (PStr (py_str E (context_tid dwarf))) = None ->
      exists rest,
        trace run
        = ScriptPost (PStr (py_str E (context_tid dwarf)))
          :: ScriptApi (context_tid dwarf) "getRange" (PList [PInt a])
          :: rest).
Proof.
  intros Hsrc a run.
  assert (Hstatus : outcome run <> Ret (-1)).
  { subst run.
    destruct (init_with_address E dwarf address length base_arg require_data
                (invalidate r)) as [[[status|e] s'] t] eqn:Hrun;
      [|discriminate].
    apply status_zero_or_one in Hrun; [|reflexivity].
    cbn. intros [= ->]. lia. }
  assert (Hprefix : exists rest,
             trace run
             = (dwarf_api E dwarf "getRange" (PInt a) (PInt 0)).2 ++ rest).
  { subst run. unfold init_with_address.
    rewrite bind_run, modify_run, bind_run, get_run.
    replace (cache_hit (set_start_address (parse_ptr E address)
                          (invalidate r))) with false by reflexivity.
    cbn [set_start_address source invalidate]. rewrite Hsrc.
    cbn [Z.eqb SOURCE_TARGET].
    match goal with
    | |- context [(fetch E dwarf length base_arg require_data ≫= ?k) ?s] =>
        destruct (bind_trace_prefix
                    (fetch E dwarf length base_arg require_data) k s)
          as [rest1 H1];
        destruct (fetch_trace_prefix E dwarf length base_arg require_data s)
          as [rest0 H0];
        destruct ((fetch E dwarf length base_arg require_data ≫= k) s)
          as [[r1 s1] t1]
    end.
    exists (rest0 ++ rest1). unfold trace in *. cbn [snd app] in *.
    rewrite H1, H0, app_assoc. reflexivity. }
  split; [exact Hstatus|]. split; [exact Hprefix|].
  intros Hp Hs Ht Hpost. destruct Hprefix as [rest Hrest].
  destruct (dwarf_api_routed_trace E dwarf "getRange" (PInt a) (PInt 0)
              Hp Hs) as [rest' Hcall].
  - unfold routed_tid. cbn. exact Ht.
  - unfold routed_tid. cbn. exact Hpost.
  - exists (rest' ++ rest). rewrite Hrest, Hcall. reflexivity.
Qed.

(** When the range lookup fails on a request that the cache cannot answer,
    [init_with_address] returns 1 and only the start address has changed:
    base, size, tail, the byte buffer and also the start offset are those
    of the previous fetch. *)
Theorem init_with_address_lookup_failure (E : Env) (dwarf : Dwarf)
        (self : Range) (address : pyval) (length base_arg : Z)
        (require_data : bool) :
  ~ (0 < base self /\ base self < parse_ptr E address < tail self) ->
  lookup_fails E dwarf self (parse_ptr E address) ->
  init_with_address E dwarf address length base_arg require_data self
  = (Ret 1, set_start_address (parse_ptr E address) self,
     (dwarf_api E dwarf "getRange" (PInt (parse_ptr E address)) (PInt 0)).2).
Proof.
  intros Hno [Hsrc Hfail].
  unfold init_with_address.
  rewrite bind_run, modify_run, bind_run, get_run.
  destruct (cache_hit _) eqn:Hhit.
  { exfalso. apply Hno. unfold cache_hit in Hhit.
    cbn [set_start_address base tail start_address] in Hhit.
    apply andb_prop in Hhit as [Hhit H3]. apply andb_prop in Hhit as [H1 H2].
    apply Z.gtb_lt in H1. apply Z.ltb_lt in H2, H3. lia. }
  cbn [set_start_address source]. rewrite Hsrc. cbn [Z.eqb SOURCE_TARGET].
  rewrite bind_run. unfold fetch. rewrite bind_run, get_run, bind_run.
  unfold attempt. cbn [set_start_address start_address].
  destruct (dwarf_api E dwarf "getRange" _ _) as [[v|e] t0]; cbn [snd].
  2: { cbn. rewrite ?app_nil_r. reflexivity. }
  destruct v; cbn [len] in Hfail; try discriminate Hfail.
  1: { cbn. rewrite ?app_nil_r. reflexivity. }
  all: rewrite bind_run, lift_res_run; cbn [len]; injection Hfail as Hfail;
    rewrite Hfail; cbn; rewrite ?app_nil_r; reflexivity.
Qed.

(** Past the end of the buffer nothing is overwritten: [patch_bytes] with
    an offset at or beyond the length of the buffer appends the bytes, so
    they do not come to lie at the offset asked for. *)
Theorem patch_bytes_past_end (E : Env) (self : Range)
        (buf org : list Byte.byte) (text : string) (offset : Z) :
  data self = PBytes buf ->
  fromhex E text = Some org ->
  Z.of_nat (length buf) <= offset ->
  patch_bytes E (PStr text) offset self
  = (Ret tt, set_data (PBytes (buf ++ org)) self, []).
Proof.
  intros Hd Hx Hoff.
  unfold patch_bytes, mbind, M_bind, modify, get, lift_res.
  rewrite Hd, Hx. cbn [bytearray_of of_option].
  unfold slice_assign, slice_index. cbv zeta.
  destruct (Z.ltb_spec offset 0); [lia|].
  destruct (Z.ltb_spec (offset + Z.of_nat (length org)) 0); [lia|].
  destruct (Z.ltb_spec offset 0); [lia|].
  destruct (Z.ltb_spec (offset + Z.of_nat (length org)) 0); [lia|].
  replace (Z.of_nat (length buf) <? offset + Z.of_nat (length org))
    with (negb (Z.of_nat (length org) =? 0) || (Z.of_nat (length buf) <? offset)).
  2: { destruct (Z.eqb_spec (Z.of_nat (length org)) 0);
       destruct (Z.ltb_spec (Z.of_nat (length buf)) offset);
       destruct (Z.ltb_spec (Z.of_nat (length buf))
                            (offset + Z.of_nat (length org)));
       cbn; try reflexivity; lia. }
  destruct (Z.ltb_spec (Z.of_nat (length buf)) offset);
    destruct (Z.eqb_spec (Z.of_nat (length org)) 0); cbn [negb orb];
    rewrite ?Z.max_id, ?Z.max_l, ?Z.max_r by lia;
    rewrite ?Nat2Z.id;
    try (replace (Z.to_nat offset) with (length buf) by lia);
    rewrite ?firstn_all, ?take_ge, ?drop_ge by lia;
    rewrite ?app_nil_r; reflexivity.
Qed.

(** [patch_hook] leaves the buffer alone for a table entry whose pointer
    reads as 1 (a java hook), whose original bytes are empty, or whose
    address, thumb bit stripped, is not strictly between base and tail. *)
Theorem patch_hook_skips (E : Env) (self : Range)
        (hook : list (string * pyval)) (np hb : pyval) :
  dict_get "nativePtr" hook = Some np ->
  dict_get "bytes" hook = Some hb ->
  let address := if parse_ptr E np mod 2 =? 0 then parse_ptr E np
                 else parse_ptr E np - 1 in
  parse_ptr E np = 1 \/ truthy hb = false
  \/ ~ (base self < address < tail self) ->
  patch_hook E (PDict hook) self = (Ret tt, self, []).
Proof.
  intros Hnp Hb address Hskip.
  unfold patch_hook, mbind, M_bind, get, lift_res, mret, M_ret.
  cbn [getitem]. rewrite Hnp, Hb. cbn [of_option].
  destruct (Z.eqb_spec (parse_ptr E np) 1) as [H1|H1]; [reflexivity|].
  cbn [negb]. destruct (truthy hb) eqn:Htr; [|reflexivity].
  destruct Hskip as [H|[H|H]]; [contradiction|discriminate|].
  replace (if negb (parse_ptr E np mod 2 =? 0)
           then parse_ptr E np - 1 else parse_ptr E np) with address
    by (subst address; destruct (parse_ptr E np mod 2 =? 0); reflexivity).
  destruct (Z.ltb_spec (base self) address);
    destruct (Z.ltb_spec address (tail self)); cbn [andb];
    try reflexivity.
  exfalso. apply H. lia.
Qed.

Section Maintains.
Context {S : Type} (P : S -> Prop).

Lemma maintains_ret {A} (a : A) : maintains P (mret a : M S A).
Proof. intros s a' s' t Heq Hs. inversion Heq; subst. exact Hs. Qed.

Lemma maintains_raise {A} (e : exn) : maintains P (raise e : M S A).
Proof. intros s a' s' t H. discriminate H. Qed.

Lemma maintains_lift_res {A} (r : res A) : maintains P (lift_res r : M S A).
Proof. intros s a' s' t Heq Hs. inversion Heq; subst. exact Hs. Qed.

Lemma maintains_get : maintains P (get : M S S).
Proof. intros s a' s' t Heq Hs. inversion Heq; subst. exact Hs. Qed.

Lemma maintains_tell (e : effect) : maintains P (tell e : M S unit).
Proof. intros s a' s' t Heq Hs. inversion Heq; subst. exact Hs. Qed.

Lemma maintains_reading {A} (f : S -> T A) : maintains P (reading f).
Proof.
  intros s a' s' t. unfold reading. destruct (f s). intros Heq Hs.
  inversion Heq; subst. exact Hs.
Qed.

Lemma maintains_attempt {A} (m : T A) : maintains P (attempt m : M S _).
Proof.
  intros s a' s' t. unfold attempt. destruct m as [[a|e] t0];
    intros Heq Hs; inversion Heq; subst; exact Hs.
Qed.

Lemma maintains_modify (f : S -> S) :
  (forall s, P s -> P (f s)) -> maintains P (modify f).
Proof.
  intros Hf s a' s' t Heq Hs. inversion Heq; subst. apply Hf, Hs.
Qed.

Lemma maintains_bind {A B} (m : M S A) (k : A -> M S B) :
  maintains P m -> (forall a, maintains P (k a)) -> maintains P (m ≫= k).
Proof.
  intros Hm Hk s b s' t H Hs. apply bind_returns in H.
  destruct H as (a & s1 & t1 & t2 & H1 & H2 & _).
  exact (Hk a s1 b s' t2 H2 (Hm s a s1 t1 H1 Hs)).
Qed.

Lemma ensures_maintains {A} (m : M S A) : ensures P m -> maintains P m.
Proof. intros H s a s' t Hrun _. exact (H s a s' t Hrun). Qed.

Lemma ensures_modify (f : S -> S) : (forall s, P (f s)) -> ensures P (modify f).
Proof. intros Hf s a' s' t Heq. inversion Heq; subst. apply Hf. Qed.

Lemma ensures_bind_last {A B} (m : M S A) (k : A -> M S B) :
  (forall a, ensures P (k a)) -> ensures P (m ≫= k).
Proof.
  intros Hk s b s' t H. apply bind_returns in H.
  destruct H as (a & s1 & t1 & t2 & _ & H2 & _).
  exact (Hk a s1 b s' t2 H2).
Qed.

Lemma ensures_bind_first {A B} (m : M S A) (k : A -> M S B) :
  ensures P m -> (forall a, maintains P (k a)) -> ensures P (m ≫= k).
Proof.
  intros Hm Hk s b s' t H. apply bind_returns in H.
  destruct H as (a & s1 & t1 & t2 & H1 & H2 & _).
  exact (Hk a s1 b s' t2 H2 (Hm s a s1 t1 H1)).
Qed.

End Maintains.

Ltac maintains_step :=
  lazymatch goal with
  | |- maintains _ (mbind _ _) => apply maintains_bind; [|intros ?]
  | |- maintains _ (mret _) => apply maintains_ret
  | |- maintains _ (raise _) => apply maintains_raise
  | |- maintains _ (lift_res _) => apply maintains_lift_res
  | |- maintains _ get => apply maintains_get
  | |- maintains _ (tell _) => apply maintains_tell
  | |- maintains _ (emit _) => apply maintains_tell
  | |- maintains _ (reading _) => apply maintains_reading
  | |- maintains _ (attempt _) => apply maintains_attempt
  | |- maintains _ (modify _) => apply maintains_modify
  | |- maintains _ (if ?b then _ else _) => destruct b
  | |- maintains _ (match ?x with _ => _ end) => destruct x
  end.

(** Patching touches nothing but the byte buffer. *)
Lemma patch_hooks_maintains (E : Env) (P : Range -> Prop)
      (hooks : list (string * pyval)) (keys : list string) :
  (forall s d, P s -> P (set_data d s)) ->
  maintains P (patch_hooks E hooks keys).
Proof.
  intros HP. induction keys as [|key keys IH]; cbn [patch_hooks].
  - apply maintains_ret.
  - unfold patch_hook, patch_bytes. repeat maintains_step.
    all: try (intros s Hs; apply HP; exact Hs).
    all: exact IH.
Qed.

Lemma fetch_maintains_tail (E : Env) (dwarf : Dwarf) (length base_arg : Z)
      (require_data : bool) :
  maintains (fun s => tail s = base s + size s)
            (fetch E dwarf length base_arg require_data).
Proof.
  unfold fetch.
  apply maintains_bind; [apply maintains_get|intros self].
  apply maintains_bind; [apply maintains_attempt|intros reply].
  destruct reply as [v|]; [|apply maintains_ret].
  destruct v; try apply maintains_ret.
  all: apply maintains_bind; [apply maintains_lift_res|intros n].
  all: destruct (n =? 0); [apply maintains_ret|].
  all: apply ensures_maintains.
  all: do 8 (apply ensures_bind_last; intros ?).
  all: apply ensures_bind_first;
    [apply ensures_modify; intros ?; reflexivity|intros _].
  all: repeat maintains_step.
  all: try (intros ? Hs; exact Hs).
  all: apply patch_hooks_maintains; intros ? ? Hs; exact Hs.
Qed.

(** Whenever [init_with_address] returns a status, the cache still
    satisfies [tail = base + size] if it did before the call. *)
Theorem init_with_address_keeps_tail (E : Env) (dwarf : Dwarf)
        (self self' : Range) (address : pyval) (length base_arg : Z)
        (require_data : bool) (status : Z) (t : list effect) :
  init_with_address E dwarf address length base_arg require_data self
  = (Ret status, self', t) ->
  tail self = base self + size self ->
  tail self' = base self' + size self'.
Proof.
  revert self status self' t.
  change (maintains (fun s => tail s = base s + size s)
            (init_with_address E dwarf address length base_arg
                               require_data)).
  unfold init_with_address, data_status.
  repeat maintains_step.
  all: try (intros s Hs; exact Hs).
  apply fetch_maintains_tail.
Qed.

(** ** The dispatcher, continued *)

(** An empty [memoryscan_result] field publishes the empty list without
    decoding anything; any other field is decoded and published. *)
Theorem memoryscan_result_event (E : Env) (self : Dwarf)
        (message : list (string * pyval)) (data : option (list Byte.byte))
        (what p1 : string) (rest : list string) :
  dict_get "payload" message = Some (PStr what) ->
  split ":::" what = "memoryscan_result" :: p1 :: rest ->
  (p1 = "" ->
   _on_message E message data self
   = (Ret tt, self, [Emit (onMemoryScanResult [])]))
  /\
  (forall l, p1 <> "" -> json_loads E p1 = Some (PList l) ->
   _on_message E message data self
   = (Ret tt, self, [Emit (onMemoryScanResult l)])).
Proof.
  intros Hp Hs.
  rewrite (on_message_dispatches E message data what _ _ _ Hp Hs).
  change (dispatch E what _ data "memoryscan_result")
    with (on_memoryscan_result E ("memoryscan_result" :: p1 :: rest)).
  unfold on_memoryscan_result, p, part, loads, as_list, mbind, M_bind,
    lift_res, emit, tell, mret, M_ret.
  cbn [nth_error of_option].
  split.
  - intros ->. reflexivity.
  - intros l Hne Hl. apply String.eqb_neq in Hne. rewrite Hne, Hl.
    reflexivity.
Qed.

(** Only ten tags ever change the session: a message of any other tag,
    well-formed or not, handled or raising, leaves every attribute as it
    was. *)
Theorem on_message_mutating_tags (E : Env) (self : Dwarf)
        (message : list (string * pyval)) (data : option (list Byte.byte)) :
  (forall what, dict_get "payload" message = Some (PStr what) ->
                ~ In (nth 0 (split ":::" what) "") mutating_tags) ->
  state (_on_message E message data self) = self.
Proof.
  intros Htag. unfold _on_message.
  destruct (dict_get "payload" message) as [v|] eqn:Hp; [|reflexivity].
  destruct v; try reflexivity.
  destruct (length (split ":::" s) <? 2)%nat; [reflexivity|].
  specialize (Htag s eq_refl).
  set (cmd := nth 0 (split ":::" s) "") in *. clearbody cmd.
  assert (Hkeep : keeps (fun x => x = self)
                        (dispatch E s (split ":::" s) data cmd)).
  { unfold dispatch.
    repeat match goal with
           | |- keeps _ (if String.eqb cmd ?t then _ else _) =>
               destruct (String.eqb_spec cmd t)
           end.
    all: try (exfalso; apply Htag; subst cmd; unfold mutating_tags;
              cbn; tauto).
    all: keeps_unfold.
    all: repeat keeps_step.
    all: intros x Hx; exact Hx. }
  apply Hkeep. reflexivity.
Qed.

(** [set_data] republishes the out-of-band buffer as "raw" when there is a
    non-empty one, and the third field as "plain" otherwise; without a
    buffer and without a third field the handler raises [IndexError]. *)
Theorem set_data_event (E : Env) (self : Dwarf)
        (message : list (string * pyval)) (data : option (list Byte.byte))
        (what p1 : string) (rest : list string) :
  dict_get "payload" message = Some (PStr what) ->
  split ":::" what = "set_data" :: p1 :: rest ->
  (forall b bs, data = Some (b :: bs) ->
   _on_message E message data self
   = (Ret tt, self,
      [Emit (onSetData [PStr "raw"; PStr p1; PBytes (b :: bs)])]))
  /\
  (forall p2 rest', data = None \/ data = Some [] -> rest = p2 :: rest' ->
   _on_message E message data self
   = (Ret tt, self, [Emit (onSetData [PStr "plain"; PStr p1; PStr p2])]))
  /\
  (data = None \/ data = Some [] -> rest = [] ->
   _on_message E message data self = (Raise IndexError, self, [])).
Proof.
  intros Hp Hs.
  rewrite (on_message_dispatches E message data what _ _ _ Hp Hs).
  change (dispatch E what _ data "set_data")
    with (on_set_data ("set_data" :: p1 :: rest) data).
  unfold on_set_data, p, part, mbind, M_bind, lift_res, emit, tell, mret,
    M_ret.
  repeat split.
  - intros b bs ->. reflexivity.
  - intros p2 rest' [->| ->] ->; reflexivity.
  - intros [->| ->] ->; reflexivity.
Qed.

(** A message with only two fields whose tag needs a third one is not
    dropped like a malformed message: the handler raises [IndexError],
    having published nothing and changed nothing. *)
Theorem missing_field_raises (E : Env) (self : Dwarf)
        (message : list (string * pyval)) (data : option (list Byte.byte))
        (what cmd p1 : string) :
  dict_get "payload" message = Some (PStr what) ->
  split ":::" what = [cmd; p1] ->
  In cmd three_field_tags ->
  _on_message E message data self = (Raise IndexError, self, []).
Proof.
  intros Hp Hs Hin.
  rewrite (on_message_dispatches E message data what _ _ _ Hp Hs).
  unfold three_field_tags in Hin. cbn [In] in Hin.
  repeat (destruct Hin as [<-|Hin]); try contradiction.
  all: try reflexivity.
  - change (dispatch E what _ data "hook_deleted")
      with (on_hook_deleted E ["hook_deleted"; p1]).
    unfold on_hook_deleted, p, part, mbind, M_bind, lift_res, get.
    cbn [nth_error of_option].
    destruct (p1 =? "java")%string; [reflexivity|].
    destruct (p1 =? "native_on_load")%string; [reflexivity|].
    destruct (p1 =? "java_on_load")%string; reflexivity.
Qed.

(** The handshake: the initial [set_context] message on any session
    republishes the decoded object, records architecture, platform,
    pointer size and java availability, logs the process id, and asks the
    window for the java on-load entry exactly when java is available.  It
    stores no context and names no active thread. *)
Theorem initial_context_handshake (E : Env) (self : Dwarf)
        (message : list (string * pyval)) (data : option (list Byte.byte))
        (what p1 : string) (rest : list string) (d : list (string * pyval))
        (arch platform pointer_size java : pyval) :
  dict_get "payload" message = Some (PStr what) ->
  split ":::" what = "set_context" :: p1 :: rest ->
  json_loads E p1 = Some (PDict d) ->
  dict_get "modules" d = None -> dict_get "ranges" d = None ->
  dict_get "backtrace" d = None ->
  dict_get "reason" d = Some (PInt (-1)) ->
  dict_get "arch" d = Some arch ->
  dict_get "platform" d = Some platform ->
  dict_get "pointerSize" d = Some pointer_size ->
  dict_get "java" d = Some java ->
  _on_message E message data self
  = (Ret tt,
     set_java_available java
       (set_pointer_size pointer_size
          (set_platform platform (set_arch arch self))),
     [Emit (onApplyContext d);
      Emit (onLogEvent ("injected into := " +:+ str_of_Z (_pid self)))]
     ++ (if truthy java then [UiAddJavaOnLoadAction] else [])).
Proof.
  intros Hp Hs Hj Hm Hr Hb Hreason Harch Hplat Hps Hjava.
  rewrite (on_message_dispatches E message data what _ _ _ Hp Hs).
  change (dispatch E what _ data "set_context")
    with (on_set_context E ("set_context" :: p1 :: rest)).
  unfold on_set_context, _on_apply_context, p, part, loads, item, as_dict,
    as_list, mbind, M_bind, modify, get, lift_res, tell, emit, mret, M_ret.
  cbn [nth_error of_option]. rewrite Hj.
  cbn [of_option contains getitem]. unfold dict_has.
  rewrite Hm, Hr, Hb, Hreason. cbn [of_option eq_int Z.eqb Pos.eqb].
  rewrite Harch. cbn [of_option]. rewrite Hplat. cbn [of_option].
  rewrite Hps. cbn [of_option]. rewrite Hjava. cbn [of_option].
  cbn [java_available set_java_available _pid set_pointer_size set_platform
       set_arch app].
  destruct (truthy java); reflexivity.
Qed.

(** [resume] resumes a spawned process that has not been resumed yet, once:
    the first message marks the session resumed and asks the device to
    resume the process, a later one does nothing; a process that was not
    spawned is never resumed. *)
Theorem resume_once (E : Env) (self : Dwarf)
        (message : list (string * pyval)) (data : option (list Byte.byte))
        (what p1 : string) (rest : list string) :
  dict_get "payload" message = Some (PStr what) ->
  split ":::" what = "resume" :: p1 :: rest ->
  (_spawned self = true -> _resumed self = false -> _device self <> None ->
   _on_message E message data self
   = (Ret tt, set_resumed true self, [DeviceResume (_pid self)])
   /\ _on_message E message data (set_resumed true self)
      = (Ret tt, set_resumed true self, []))
  /\
  (_spawned self = false ->
   _on_message E message data self = (Ret tt, self, [])).
Proof.
  intros Hp Hs.
  rewrite (on_message_dispatches E message data what _ _ _ Hp Hs).
  change (dispatch E what _ data "resume") with on_resume.
  unfold on_resume, resume_proc, mbind, M_bind, modify, get, tell, raise,
    mret, M_ret.
  split.
  - intros Hsp Hre Hdev. split.
    + cbv beta. rewrite Hre. cbn [negb]. cbv beta iota.
      rewrite Hsp, Hre. cbn [negb andb].
      destruct (_device self); [|contradiction]. reflexivity.
    + reflexivity.
  - intros Hsp. cbv beta.
    destruct (_resumed self); cbn [negb]; cbv beta iota;
      rewrite ?Hsp; reflexivity.
Qed.

(** ** The context store as a dictionary *)

Lemma dict_keys_del_sub {V} (k k0 : string) (d : list (string * V)) :
  k0 ∈ dict_keys (dict_del k d) -> k0 ∈ dict_keys d.
Proof.
  induction d as [|[k' v'] d IH]; cbn; [auto|].
  destruct (String.eqb k k'); cbn.
  - intros H. right. apply IH, H.
  - intros H. apply elem_of_cons in H as [->|H]; [left|right; apply IH, H].
Qed.

Lemma NoDup_dict_del {V} (k : string) (d : list (string * V)) :
  NoDup (dict_keys d) -> NoDup (dict_keys (dict_del k d)).
Proof.
  induction d as [|[k' v'] d IH]; cbn; [auto|].
  intros H. apply NoDup_cons in H as [Hnot Hnd].
  destruct (String.eqb k k'); cbn; [apply IH, Hnd|].
  apply NoDup_cons. split; [|apply IH, Hnd].
  intros Hin. apply Hnot. exact (dict_keys_del_sub k k' d Hin).
Qed.

Lemma dict_keys_set_sub {V} (k k0 : string) (v : V) (d : list (string * V)) :
  k0 ∈ dict_keys (dict_set k v d) -> k0 = k \/ k0 ∈ dict_keys d.
Proof.
  induction d as [|[k' v'] d IH]; cbn.
  - intros H. apply list_elem_of_singleton in H. left. exact H.
  - destruct (String.eqb k k'); cbn.
    + intros H. right. exact H.
    + intros H. apply elem_of_cons in H as [->|H].
      * right. left.
      * destruct (IH H) as [->|Hin]; [left; reflexivity|right; right; exact Hin].
Qed.

Lemma NoDup_dict_set {V} (k : string) (v : V) (d : list (string * V)) :
  NoDup (dict_keys d) -> NoDup (dict_keys (dict_set k v d)).
Proof.
  induction d as [|[k' v'] d IH]; cbn.
  - intros _. apply NoDup_singleton.
  - intros H. apply NoDup_cons in H as [Hnot Hnd].
    destruct (String.eqb_spec k k') as [->|Hne]; cbn.
    + apply NoDup_cons. split; assumption.
    + apply NoDup_cons. split; [|apply IH, Hnd].
      intros Hin. apply dict_keys_set_sub in Hin as [Heq|Hin];
        [congruence|contradiction].
Qed.

Lemma keeps_get_bind {B} (P : Dwarf -> Prop) (k : Dwarf -> M Dwarf B) :
  (forall s, P s -> P (state (k s s))) -> keeps P (get ≫= k).
Proof.
  intros H s Hs. unfold state in *. rewrite bind_run, get_run.
  specialize (H s Hs). destruct (k s s) as [[r s2] t2]. exact H.
Qed.

Lemma on_release_keeps_distinct (E : Env) (parts : list string) :
  keeps (fun x => NoDup (dict_keys (contexts x))) (on_release E parts).
Proof.
  intros x Hx.
  unfold on_release, p, part, mbind, M_bind, modify, get, lift_res, tell,
    emit, mret, M_ret, state.
  destruct (nth_error parts 1) as [p1|]; cbn [of_option]; [|exact Hx].
  destruct (dict_has p1 (contexts x)); destruct (py_int E p1);
    cbn; first [exact Hx | apply NoDup_dict_del; exact Hx].
Qed.

(** The dispatcher never stores two contexts under one thread id: the keys
    of the context store stay pairwise distinct through every message. *)
Theorem on_message_keeps_contexts_distinct (E : Env) (self : Dwarf)
        (message : list (string * pyval)) (data : option (list Byte.byte)) :
  NoDup (dict_keys (contexts self)) ->
  NoDup (dict_keys (contexts (state (_on_message E message data self)))).
Proof.
  intros Hnd. unfold _on_message.
  destruct (dict_get "payload" message) as [v|] eqn:Hp; [|exact Hnd].
  destruct v; try exact Hnd.
  destruct (length (split ":::" s) <? 2)%nat; [exact Hnd|].
  revert self Hnd.
  change (keeps (fun x => NoDup (dict_keys (contexts x)))
                (dispatch E s (split ":::" s) data
                          (nth 0 (split ":::" s) ""))).
  generalize (nth 0 (split ":::" s) "") as cmd. intros cmd.
  unfold dispatch.
  repeat match goal with
         | |- keeps _ (if String.eqb cmd ?t then _ else _) =>
             destruct (String.eqb cmd t)
         end.
  all: try apply on_release_keeps_distinct.
  all: keeps_unfold.
  all: repeat keeps_step.
  all: try (intros x Hx; exact Hx).
  all: intros x Hx; cbn [contexts set_contexts]; apply NoDup_dict_set;
    exact Hx.
Qed.

(** ** The active thread *)

Lemma apply_context_keeps_active (E : Env) (cd : list (string * pyval))
      (c : pyval) :
  eq_int c 0 = false ->
  keeps (fun s => context_tid s = c) (_on_apply_context E cd).
Proof.
  intros Hc. unfold _on_apply_context, item.
  apply keeps_bind; [apply keeps_lift_res|intros reason].
  apply keeps_bind.
  - repeat keeps_step. all: intros s Hs; exact Hs.
  - intros _. apply keeps_get_bind. intros s Hs.
    rewrite Hs, Hc, andb_false_r. exact Hs.
Qed.

Lemma apply_context_branch_keeps_active (E : Env)
      (cd : list (string * pyval)) (reason c : pyval) :
  keeps (fun s => context_tid s = c)
    (if eq_int reason (-1)
     then
       v ← item (PDict cd) "arch"; modify (set_arch v) ;;
       v ← item (PDict cd) "platform"; modify (set_platform v) ;;
       v ← item (PDict cd) "pointerSize"; modify (set_pointer_size v) ;;
       v ← item (PDict cd) "java"; modify (set_java_available v) ;;
       self ← get;
       emit (onLogEvent ("injected into := " +:+ str_of_Z (_pid self))) ;;
       if truthy (java_available self)
       then tell UiAddJavaOnLoadAction
       else mret tt
     else if dict_has "context" cd
     then
       c ← item (PDict cd) "context";
       let context := {| snapshot := c |} in
       tid ← item (PDict cd) "tid";
       modify (fun self =>
         set_contexts (dict_set (py_str E tid) context (contexts self)) self) ;;
       '(name, sym) ← lift_res (hit_symbol (PDict cd));
       r ← item (PDict cd) "reason";
       if eq_int r 0
       then
         tid ← item (PDict cd) "tid";
         d ← lift_res (fmt_d tid);
         emit (onLogEvent ("hook " +:+ py_str E name +:+ " "
                           +:+ py_str E sym +:+ " @thread := " +:+ d))
       else mret tt
     else mret tt).
Proof.
  unfold item. repeat keeps_step. all: intros s Hs; exact Hs.
Qed.

(** The active thread is named once: while [context_tid] is not 0 no
    [set_context] message changes it, whatever it carries; and when it is
    0, a message with a reason other than the initial one that is handled
    without error makes the thread it reports the active one, with or
    without a context in it. *)
Theorem active_thread_named_once (E : Env) (self : Dwarf)
        (cd : list (string * pyval)) :
  (eq_int (context_tid self) 0 = false ->
   context_tid (state (_on_apply_context E cd self)) = context_tid self)
  /\
  (forall r tid,
     eq_int (context_tid self) 0 = true ->
     dict_get "reason" cd = Some r -> eq_int r (-1) = false ->
     dict_get "tid" cd = Some tid ->
     outcome (_on_apply_context E cd self) = Ret tt ->
     context_tid (state (_on_apply_context E cd self)) = tid).
Proof.
  split.
  - intros Hc.
    exact (apply_context_keeps_active E cd (context_tid self) Hc self
             eq_refl).
  - intros r tid Hzero Hr Hneg Htid.
    destruct (_on_apply_context E cd self) as [[o s'] t] eqn:Hrun.
    unfold outcome, state. cbn [fst snd]. intros ->.
    unfold _on_apply_context in Hrun.
    bind_inv Hrun. unfold item in Hrun0. rewrite lift_res_run in Hrun0.
    cbn [getitem] in Hrun0. rewrite Hr in Hrun0.
    injection Hrun0 as <- <- <-.
    bind_inv Hrun.
    pose proof (apply_context_branch_keeps_active E cd r (context_tid self)
                  self eq_refl) as Hkeep.
    unfold item in Hrun0. unfold item in Hkeep.
    unfold state in Hkeep. rewrite Hrun0 in Hkeep. cbn [fst snd] in Hkeep.
    bind_inv Hrun. rewrite get_run in Hrun1. injection Hrun1 as <- <- <-.
    rewrite Hneg, Hkeep, Hzero in Hrun. cbn [negb andb] in Hrun.
    bind_inv Hrun. unfold item in Hrun1. rewrite lift_res_run in Hrun1.
    cbn [getitem] in Hrun1. rewrite Htid in Hrun1.
    injection Hrun1 as <- <- <-.
    rewrite modify_run in Hrun. injection Hrun as <- _. reflexivity.
Qed.

(** A release does not give up the active thread: the handler leaves
    [context_tid] as it is, so after the active thread has been released
    the session still names it although it has no current context. *)
Theorem release_keeps_active_thread (E : Env) (self : Dwarf) (t : Z)
        (message : list (string * pyval)) (data : option (list Byte.byte)) :
  dict_get "payload" message = Some (PStr ("release:::" +:+ str_of_Z t)) ->
  context_tid (state (_on_message E message data self)) = context_tid self
  /\ (context_tid self = PInt t ->
      current_context E (state (_on_message E message data self)) = None).
Proof.
  intros Hp.
  rewrite (on_message_dispatches E message data _ _ _ _ Hp (split_release t)).
  rewrite dispatch_release. split.
  - unfold on_release, p, part, dict_has, mbind, M_bind, modify, get,
      lift_res, tell, emit, mret, M_ret, state.
    cbn [nth_error of_option].
    destruct (dict_get (str_of_Z t) (contexts self));
      destruct (py_int E (str_of_Z t)); reflexivity.
  - intros Hact. unfold current_context.
    assert (Hsame : context_tid (state (on_release E
                       ["release"; str_of_Z t] self)) = PInt t).
    { rewrite <- Hact.
      unfold on_release, p, part, dict_has, mbind, M_bind, modify, get,
        lift_res, tell, emit, mret, M_ret, state.
      cbn [nth_error of_option].
      destruct (dict_get (str_of_Z t) (contexts self));
        destruct (py_int E (str_of_Z t)); reflexivity. }
    rewrite Hsame. cbn [py_str]. apply release_removes.
Qed.

(** ** Round trips through the registries *)

(** A java hook is registered under its name and removed under the same
    name: the acknowledgement of the hook followed by the acknowledgement
    of its deletion leaves the java registry as it was before, and each
    publishes its event. *)
Theorem java_hook_added_then_deleted (E : Env) (self : Dwarf)
        (m1 m2 : list (string * pyval)) (data : option (list Byte.byte))
        (what1 what2 name : string) (rest1 rest2 : list string) :
  dict_get "payload" m1 = Some (PStr what1) ->
  split ":::" what1 = "hook_java_callback" :: name :: rest1 ->
  dict_get "payload" m2 = Some (PStr what2) ->
  split ":::" what2 = "hook_deleted" :: "java" :: name :: rest2 ->
  truthy (java_pending_args self) = false ->
  java_hooks self !! name = None ->
  let h := set_input name (set_ptr 1 (Hook_init E HOOK_JAVA)) in
  _on_message E m1 data self
  = (Ret tt, set_java_hooks (<[name := h]> (java_hooks self)) self,
     [Emit (onAddJavaHook h)])
  /\ outcome (_on_message E m2 data (state (_on_message E m1 data self)))
     = Ret tt
  /\ java_hooks (state (_on_message E m2 data
                          (state (_on_message E m1 data self))))
     = java_hooks self
  /\ trace (_on_message E m2 data (state (_on_message E m1 data self)))
     = [Emit (onDeleteHook ("hook_deleted" :: "java" :: name :: rest2))].
Proof.
  intros Hp1 Hs1 Hp2 Hs2 Hpend Habs h.
  assert (H1 : _on_message E m1 data self
               = (Ret tt, set_java_hooks (<[name := h]> (java_hooks self)) self,
                  [Emit (onAddJavaHook h)])).
  { rewrite (on_message_dispatches E m1 data what1 _ _ _ Hp1 Hs1).
    change (dispatch E what1 _ data "hook_java_callback")
      with (on_hook_java_callback E ("hook_java_callback" :: name :: rest1)).
    unfold on_hook_java_callback, p, part, mbind, M_bind, modify, get,
      lift_res, tell, emit, mret, M_ret.
    cbn [nth_error of_option]. rewrite Hpend. reflexivity. }
  split; [exact H1|]. rewrite H1. unfold state. cbn [fst snd].
  rewrite (on_message_dispatches E m2 data what2 _ _ _ Hp2 Hs2).
  change (dispatch E what2 _ data "hook_deleted")
    with (on_hook_deleted E ("hook_deleted" :: "java" :: name :: rest2)).
  unfold on_hook_deleted, p, part, pop, mbind, M_bind, modify, get,
    lift_res, tell, emit, mret, M_ret, outcome, trace.
  cbn [nth_error of_option String.eqb Ascii.eqb Bool.eqb].
  cbn [java_hooks set_java_hooks get_input input set_input].
  rewrite lookup_insert_eq. cbn.
  repeat split. rewrite delete_insert_eq. apply delete_id. exact Habs.
Qed.

(** A watcher is registered under the hexadecimal form of its pointer:
    once [watcher_added] has been handled, [is_address_watched] answers yes
    for the pointer of the message, and once [watcher_removed] for the same
    pointer has been handled, it answers no. *)
Theorem watcher_added_then_removed (E : Env) (self : Dwarf)
        (m1 m2 : list (string * pyval)) (data : option (list Byte.byte))
        (what1 what2 p1 p2 p3 : string) (rest1 rest2 : list string)
        (flags : Z) (sym : pyval) :
  dict_get "payload" m1 = Some (PStr what1) ->
  split ":::" what1 = "watcher_added" :: p1 :: p2 :: p3 :: rest1 ->
  py_int E p2 = Some flags ->
  json_loads E p3 = Some sym ->
  dict_get "payload" m2 = Some (PStr what2) ->
  split ":::" what2 = "watcher_removed" :: p1 :: rest2 ->
  let s1 := state (_on_message E m1 data self) in
  let s2 := state (_on_message E m2 data s1) in
  trace (_on_message E m1 data self)
  = [Emit (onWatcherAdded (hex (parse_ptr E (PStr p1))) flags)]
  /\ is_address_watched E s1 (PStr p1) = true
  /\ _on_message E m2 data s1
     = (Ret tt, s2, [Emit (onWatcherRemoved (hex (parse_ptr E (PStr p1))))])
  /\ is_address_watched E s2 (PStr p1) = false.
Proof.
  intros Hp1 Hs1 Hflags Hsym Hp2 Hs2 s1 s2.
  assert (H1 : exists h,
             _on_message E m1 data self
             = (Ret tt,
                set_watchers (<[hex (parse_ptr E (PStr p1)) := h]>
                                (watchers self)) self,
                [Emit (onWatcherAdded (hex (parse_ptr E (PStr p1))) flags)])).
  { eexists.
    rewrite (on_message_dispatches E m1 data what1 _ _ _ Hp1 Hs1).
    change (dispatch E what1 _ data "watcher_added")
      with (on_watcher_added E
              ("watcher_added" :: p1 :: p2 :: p3 :: rest1)).
    unfold on_watcher_added, p, part, loads, mbind, M_bind, modify, get,
      lift_res, tell, emit, mret, M_ret.
    cbn [nth_error of_option]. rewrite Hflags. cbn [of_option].
    rewrite Hsym. reflexivity. }
  destruct H1 as [h H1].
  assert (H2 : _on_message E m2 data
                 (set_watchers (<[hex (parse_ptr E (PStr p1)) := h]>
                                  (watchers self)) self)
               = (Ret tt,
                  set_watchers (delete (hex (parse_ptr E (PStr p1)))
                                  (<[hex (parse_ptr E (PStr p1)) := h]>
                                     (watchers self))) self,
                  [Emit (onWatcherRemoved (hex (parse_ptr E (PStr p1))))])).
  { rewrite (on_message_dispatches E m2 data what2 _ _ _ Hp2 Hs2).
    change (dispatch E what2 _ data "watcher_removed")
      with (on_watcher_removed E ("watcher_removed" :: p1 :: rest2)).
    unfold on_watcher_removed, p, part, pop, mbind, M_bind, modify, get,
      lift_res, tell, emit, mret, M_ret.
    cbn [nth_error of_option watchers set_watchers].
    rewrite lookup_insert_eq. reflexivity. }
  subst s2 s1. rewrite H1. unfold state, trace. cbn [fst snd].
  rewrite H2. cbn [fst snd].
  unfold is_address_watched. cbn [watchers set_watchers].
  rewrite lookup_insert_eq, lookup_delete_eq. repeat split.
Qed.

(** [release_js] does not release anything itself: once the thread id has
    been read, the handler publishes the request and hands it to the
    gateway as a release for that thread, leaving the session, its context
    store included, as it is; it raises nothing. *)
Theorem release_js_loops_back (E : Env) (self : Dwarf)
        (message : list (string * pyval)) (data : option (list Byte.byte))
        (what p1 : string) (rest : list string) (n : Z) :
  dict_get "payload" message = Some (PStr what) ->
  split ":::" what = "release_js" :: p1 :: rest ->
  py_int E p1 = Some n ->
  _on_message E message data self
  = (Ret tt, self,
     Emit (onRequestJsThreadResume n)
     :: (dwarf_api E self "release" (PInt n) (PInt n)).2).
Proof.
  intros Hp Hs Hn.
  rewrite (on_message_dispatches E message data what _ _ _ Hp Hs).
  change (dispatch E what _ data "release_js")
    with (on_release_js E ("release_js" :: p1 :: rest)).
  unfold on_release_js, _on_request_resume_from_js, reading, p, part, mbind,
    M_bind, lift_res, tell, emit, mret, M_ret.
  cbn [nth_error of_option]. rewrite Hn. cbn -[dwarf_api].
  destruct (dwarf_api_outcome E self "release" (PInt n) (PInt n)) as [v Hv].
  destruct (dwarf_api E self "release" (PInt n) (PInt n)) as [r t].
  cbn [fst snd] in Hv |- *. subst r. cbn. rewrite ?app_nil_r. reflexivity.
Qed.

(** ** Requests and their acknowledgements *)

Lemma reading_gateway (E : Env) (self : Dwarf) (api : string)
      (args tid : pyval) :
  (reading (fun s => dwarf_api E s api args tid) ;; mret tt) self
  = (Ret tt, self, (dwarf_api E self api args tid).2).
Proof.
  unfold reading, mbind, M_bind, mret, M_ret.
  destruct (dwarf_api_outcome E self api args tid) as [v Hv].
  destruct (dwarf_api E self api args tid) as [r t].
  cbn [fst snd] in Hv |- *. subst r. cbn. rewrite ?app_nil_r. reflexivity.
Qed.

Lemma reading_const_run {S A} (m : T A) (s : S) :
  reading (fun _ => m) s = (m.1, s, m.2).
Proof. unfold reading. destruct m. reflexivity. Qed.

(** The condition and logic given to [hook_java] travel with the session
    until the target acknowledges a java hook: the hook registered by the
    next [hook_java_callback] carries them, and the staging attribute is
    empty again afterwards.  The request itself goes out with the blanks
    removed from the name. *)
Theorem hook_java_stages_arguments (E : Env) (self : Dwarf)
        (input_ : string) (pending : list (string * pyval))
        (message : list (string * pyval)) (data : option (list Byte.byte))
        (what name : string) (rest : list string) (c l : pyval) :
  dict_get "condition" pending = Some c ->
  dict_get "logic" pending = Some l ->
  dict_get "payload" message = Some (PStr what) ->
  split ":::" what = "hook_java_callback" :: name :: rest ->
  let staged := set_java_pending_args (PDict pending) self in
  let h := set_logic l (set_condition c
             (set_input name (set_ptr 1 (Hook_init E HOOK_JAVA)))) in
  hook_java E input_ (PDict pending) self
  = (Ret tt, staged,
     (dwarf_api E staged "hookJava" (PStr (remove_spaces input_))
                (PInt 0)).2)
  /\ _on_message E message data staged
     = (Ret tt,
        set_java_hooks (<[name := h]> (java_hooks self))
          (set_java_pending_args PNone self),
        [Emit (onAddJavaHook h)]).
Proof.
  intros Hc Hl Hp Hs staged h. split.
  - unfold hook_java. rewrite bind_run, modify_run.
    fold staged. rewrite reading_gateway. reflexivity.
  - rewrite (on_message_dispatches E message data what _ _ _ Hp Hs).
    change (dispatch E what _ data "hook_java_callback")
      with (on_hook_java_callback E ("hook_java_callback" :: name :: rest)).
    unfold on_hook_java_callback, p, part, mbind, M_bind, modify, get,
      lift_res, tell, emit, mret, M_ret.
    cbn [nth_error of_option]. subst staged.
    cbn [java_pending_args set_java_pending_args truthy getitem].
    destruct pending as [|kv pending']; [discriminate Hc|].
    rewrite Hc, Hl. reflexivity.
Qed.

(** The input given to [hook_native] becomes the input of the hook that
    the next [hook_native_callback] registers (the caller's [own_input]
    when there is one), and the staged input and pending arguments are
    empty again afterwards; the condition and the logic of the hook are
    those of the message, never the pending arguments.  A name that
    evaluates to no positive pointer stages nothing and requests nothing
    beyond the evaluation. *)
Theorem hook_native_stages_input (E : Env) (self window : Dwarf)
        (input_ : string) (pending : pyval) (own_input : option string)
        (v : pyval) (t0 : list effect) :
  dwarf_api E window "evaluatePtr" (PStr input_) (PInt 0) = (Ret v, t0) ->
  let staged :=
    set_native_pending_args pending
      (set_temporary_input (default input_ own_input) self) in
  (parse_ptr E v <= 0 ->
   hook_native E window input_ pending own_input self = (Ret tt, self, t0))
  /\
  (0 < parse_ptr E v ->
   hook_native E window input_ pending own_input self
   = (Ret tt, staged,
      t0 ++ (dwarf_api E staged "hookNative" (PInt (parse_ptr E v))
                       (PInt 0)).2)
   /\ forall message data what p1 p2 p3 p4 p5 p6 rest a b sym,
        dict_get "payload" message = Some (PStr what) ->
        split ":::" what
        = "hook_native_callback" :: p1 :: p2 :: p3 :: p4 :: p5 :: p6
            :: rest ->
        internal_hook (Hook_init E HOOK_NATIVE) = Some false ->
        py_int16 E p1 = Some a ->
        unhexlify E p2 = Some b ->
        json_loads E p6 = Some sym ->
        exists h,
          state (_on_message E message data staged)
          = set_hooks (<[a := h]> (hooks self))
              (set_native_pending_args PNone (set_temporary_input "" self))
          /\ input h = default input_ own_input
          /\ condition h = PStr p4 /\ logic h = PStr p3).
Proof.
  intros Heval staged. split.
  - intros Hle. unfold hook_native.
    rewrite bind_run, reading_const_run, Heval. cbv beta zeta. cbn [fst snd].
    replace (parse_ptr E v >? 0) with false
      by (symmetry; rewrite Z.gtb_ltb; apply Z.ltb_ge; exact Hle).
    cbn. rewrite ?app_nil_r. reflexivity.
  - intros Hpos. split.
    + unfold hook_native.
      rewrite bind_run, reading_const_run, Heval. cbv beta zeta.
      cbn [fst snd].
      replace (parse_ptr E v >? 0) with true
        by (symmetry; apply Z.gtb_lt; exact Hpos).
      rewrite bind_run, modify_run, bind_run.
      assert (Hown : (match own_input with
                      | Some o => modify (set_temporary_input o)
                      | None => mret tt
                      end) (set_temporary_input input_ self)
                     = (Ret tt,
                        set_temporary_input (default input_ own_input) self,
                        [])).
      { destruct own_input; reflexivity. }
      rewrite Hown, bind_run, modify_run. fold staged.
      rewrite reading_gateway. reflexivity.
    + intros message data what p1 p2 p3 p4 p5 p6 rest a b sym
             Hp Hs Hi Ha Hb Hsym.
      eexists.
      rewrite (on_message_dispatches E message data what _ _ _ Hp Hs).
      change (dispatch E what _ data "hook_native_callback")
        with (on_hook_native_callback E
                ("hook_native_callback" :: p1 :: p2 :: p3 :: p4 :: p5 :: p6
                   :: rest)).
      unfold on_hook_native_callback, p, part, loads, mbind, M_bind, modify,
        get, lift_res, tell, emit, mret, M_ret, state.
      cbn [nth_error of_option]. rewrite Ha. cbn [of_option].
      rewrite Hb. cbn [of_option]. rewrite Hsym. cbn [of_option].
      cbn [internal_hook set_debug_symbol set_internalHook set_logic
           set_condition set_bytes set_input set_ptr].
      rewrite Hi. cbn [fst snd]. repeat split.
Qed.

(** The guard of both on-load requests looks at the native on-load
    registry.  After the target has acknowledged a native on-load hook for
    a module, asking for it again sends nothing; after it has acknowledged
    a java on-load hook for a class that is no native on-load module, asking
    for it again sends the request again. *)
Theorem on_load_requested_again (E : Env) (self : Dwarf)
        (message : list (string * pyval)) (data : option (list Byte.byte))
        (what name : string) (rest : list string) :
  dict_get "payload" message = Some (PStr what) ->
  (split ":::" what = "hook_native_on_load_callback" :: name :: rest ->
   let s1 := state (_on_message E message data self) in
   hook_native_on_load E s1 name s1 = (Ret tt, s1, []))
  /\
  (split ":::" what = "hook_java_on_load_callback" :: name :: rest ->
   native_on_loads self !! name = None ->
   let s1 := state (_on_message E message data self) in
   java_on_loads s1 !! name <> None
   /\ hook_java_on_load E s1 name s1
      = (Ret tt, s1,
         (dwarf_api E s1 "hookJavaOnLoad" (PStr name) (PInt 0)).2)).
Proof.
  intros Hp. split.
  - intros Hs s1.
    assert (H1 : exists h,
               _on_message E message data self
               = (Ret tt,
                  set_native_on_loads (<[name := h]> (native_on_loads self))
                                      self,
                  [Emit (onAddNativeOnLoadHook h)])).
    { eexists.
      rewrite (on_message_dispatches E message data what _ _ _ Hp Hs).
      reflexivity. }
    destruct H1 as [h H1]. subst s1. rewrite H1. unfold state. cbn [fst snd].
    unfold hook_native_on_load. cbn [native_on_loads set_native_on_loads].
    rewrite lookup_insert_eq. reflexivity.
  - intros Hs Habs s1.
    assert (H1 : exists h,
               _on_message E message data self
               = (Ret tt,
                  set_java_on_loads (<[name := h]> (java_on_loads self)) self,
                  [Emit (onAddJavaOnLoadHook h)])).
    { eexists.
      rewrite (on_message_dispatches E message data what _ _ _ Hp Hs).
      reflexivity. }
    destruct H1 as [h H1]. subst s1. rewrite H1. unfold state. cbn [fst snd].
    split.
    + cbn [java_on_loads set_java_on_loads]. rewrite lookup_insert_eq.
      discriminate.
    + unfold hook_java_on_load. cbn [native_on_loads set_java_on_loads].
      rewrite Habs. apply reading_gateway.
Qed.

(** ** The search pattern *)






(** ** The further properties on examples *)


Lemma dwarf_api_routes_witness :
  (_process Sample.stopped <> None /\ _script Sample.stopped <> None
   /\ eq_int (routed_tid Sample.stopped "readBytes" (PInt 0)) 0 = false)
  /\ dwarf_api Sample.quiet Sample.stopped "readBytes" (PInt 4096) (PInt 0)
     = (Ret PNone,
        [ScriptPost (PStr "7");
         ScriptApi (PInt 7) "readBytes" (PList [PInt 4096])]).
Proof.
  assert (Hp : _process Sample.stopped <> None) by discriminate.
  assert (Hs : _script Sample.stopped <> None) by discriminate.
  assert (Ht : eq_int (routed_tid Sample.stopped "readBytes" (PInt 0)) 0
               = false) by reflexivity.
  split; [tauto|].
  exact (dwarf_api_routes Sample.quiet Sample.stopped "readBytes"
           (PInt 4096) (PInt 0) Hp Hs Ht eq_refl).
Defined.

Lemma read_memory_chunked_witness :
  (MiB < 2 * MiB + 5
   /\ Forall (fun c => is_Some (chunk_bytes Sample.reader Sample.attached c))
             (chunks 4096 (2 * MiB + 5) 0 3))
  /\ (read_memory Sample.reader Sample.attached 4096 (2 * MiB + 5)).1
     = Ret (PBytes [Byte.x01; Byte.x01; Byte.x01])
  /\ chunks 4096 (2 * MiB + 5) 0 3
     = [(4096, MiB); (4096 + MiB, MiB); (4096 + 2 * MiB, 5)]
  /\ read_memory Sample.quiet Sample.attached 4096 (2 * MiB + 5)
     = (Ret PNone,
        [ScriptApi (PInt 0) "readBytes" (PList [PInt 4096; PInt MiB])]).
Proof.
  assert (Hbig : MiB < 2 * MiB + 5) by (unfold MiB; lia).
  assert (Hok : Forall (fun c => is_Some (chunk_bytes Sample.reader
                                            Sample.attached c))
                       (chunks 4096 (2 * MiB + 5) 0 3)).
  { repeat constructor; eexists; vm_compute; reflexivity. }
  split; [split; assumption|]. split; [|split; [vm_compute; reflexivity|]].
  - rewrite (proj1 (read_memory_chunked Sample.reader Sample.attached 4096
                      (2 * MiB + 5) Hbig) Hok).
    vm_compute. reflexivity.
  - rewrite (proj2 (read_memory_chunked Sample.quiet Sample.attached 4096
                      (2 * MiB + 5) Hbig)
                   [] (4096, MiB) [(4096 + MiB, MiB); (4096 + 2 * MiB, 5)]
                   ltac:(vm_compute; reflexivity) ltac:(constructor)
                   ltac:(vm_compute; reflexivity)).
    vm_compute. reflexivity.
Defined.

Lemma init_with_address_lookup_failure_witness :
  (~ (0 < base (Range_init 0)
      /\ base (Range_init 0) < parse_ptr Sample.quiet (PInt 4100)
         < tail (Range_init 0))
   /\ lookup_fails Sample.quiet Sample.attached (Range_init 0)
                   (parse_ptr Sample.quiet (PInt 4100)))
  /\ init_with_address Sample.quiet Sample.attached (PInt 4100) 0 0 true
       (Range_init 0)
     = (Ret 1, set_start_address 4100 (Range_init 0),
        [ScriptApi (PInt 0) "getRange" (PList [PInt 4100])]).
Proof.
  assert (Hno : ~ (0 < base (Range_init 0)
                   /\ base (Range_init 0)
                      < parse_ptr Sample.quiet (PInt 4100)
                      < tail (Range_init 0))) by (cbn; lia).
  assert (Hf : lookup_fails Sample.quiet Sample.attached (Range_init 0)
                            (parse_ptr Sample.quiet (PInt 4100)))
    by (split; [reflexivity|exact I]).
  split; [split; assumption|].
  exact (init_with_address_lookup_failure Sample.quiet Sample.attached
           (Range_init 0) (PInt 4100) 0 0 true Hno Hf).
Defined.

Lemma patch_bytes_past_end_witness :
  (data Sample.short_cache
   = PBytes [Byte.xcc; Byte.xcc; Byte.xcc; Byte.xcc]
   /\ fromhex Sample.quiet "0607" = Some [Byte.x06; Byte.x07]
   /\ Z.of_nat (length [Byte.xcc; Byte.xcc; Byte.xcc; Byte.xcc]) <= 6)
  /\ patch_bytes Sample.quiet (PStr "0607") 6 Sample.short_cache
     = (Ret tt,
        set_data (PBytes [Byte.xcc; Byte.xcc; Byte.xcc; Byte.xcc;
                          Byte.x06; Byte.x07]) Sample.short_cache,
        []).
Proof.
  assert (Hd : data Sample.short_cache
               = PBytes [Byte.xcc; Byte.xcc; Byte.xcc; Byte.xcc])
    by reflexivity.
  assert (Hx : fromhex Sample.quiet "0607" = Some [Byte.x06; Byte.x07])
    by reflexivity.
  assert (Ho : Z.of_nat (length [Byte.xcc; Byte.xcc; Byte.xcc; Byte.xcc])
               <= 6) by (cbn; lia).
  split; [tauto|].
  exact (patch_bytes_past_end Sample.quiet Sample.short_cache _ _ "0607" 6
           Hd Hx Ho).
Defined.

Lemma patch_hook_skips_witness :
  patch_hook Sample.quiet
    (PDict [("nativePtr", PStr "1"); ("bytes", PStr "0607")])
    Sample.short_cache
  = (Ret tt, Sample.short_cache, [])
  /\ patch_hook Sample.quiet
       (PDict [("nativePtr", PStr "0x1000"); ("bytes", PStr "0607")])
       Sample.short_cache
     = (Ret tt, Sample.short_cache, []).
Proof.
  split.
  - refine (patch_hook_skips Sample.quiet Sample.short_cache
              [("nativePtr", PStr "1"); ("bytes", PStr "0607")]
              (PStr "1") (PStr "0607") eq_refl eq_refl _).
    left. reflexivity.
  - refine (patch_hook_skips Sample.quiet Sample.short_cache
              [("nativePtr", PStr "0x1000"); ("bytes", PStr "0607")]
              (PStr "0x1000") (PStr "0607") eq_refl eq_refl _).
    right. right. vm_compute. intros [H _]. discriminate H.
Defined.

Lemma patch_hook_restores_witness :
  exists buf',
    patch_hook Sample.quiet
      (PDict [("nativePtr", PInt 4099); ("bytes", PStr "0203")])
      Sample.short_cache
    = (Ret tt, set_data (PBytes buf') Sample.short_cache, [])
    /\ length buf' = 4%nat
    /\ take 2 (drop 2 buf') = [Byte.x02; Byte.x03].
Proof.
  refine (patch_hook_restores Sample.quiet Sample.short_cache
            [("nativePtr", PInt 4099); ("bytes", PStr "0203")]
            (PInt 4099) "0203"
            [Byte.xcc; Byte.xcc; Byte.xcc; Byte.xcc] [Byte.x02; Byte.x03]
            eq_refl eq_refl _ _ eq_refl eq_refl _ _).
  - cbn. lia.
  - discriminate.
  - vm_compute. split; reflexivity.
  - vm_compute. discriminate.
Defined.

Lemma init_with_address_keeps_tail_witness :
  tail (Range_init 0) = base (Range_init 0) + size (Range_init 0)
  /\ tail Sample.fetched = base Sample.fetched + size Sample.fetched.
Proof.
  assert (H0 : tail (Range_init 0)
               = base (Range_init 0) + size (Range_init 0)) by reflexivity.
  split; [exact H0|].
  refine (init_with_address_keeps_tail Sample.target Sample.attached
            (Range_init 0) Sample.fetched (PInt 4100) 0 0 true 0 _ _ H0).
  vm_compute. reflexivity.
Defined.

Lemma memoryscan_result_event_witness :
  _on_message Sample.quiet [("payload", PStr "memoryscan_result:::")] None
              Sample.attached
  = (Ret tt, Sample.attached, [Emit (onMemoryScanResult [])])
  /\ _on_message Sample.quiet [("payload", PStr "memoryscan_result:::[]")]
                 None Sample.attached
     = (Ret tt, Sample.attached, [Emit (onMemoryScanResult [])]).
Proof.
  split.
  - exact (proj1 (memoryscan_result_event Sample.quiet Sample.attached
                    [("payload", PStr "memoryscan_result:::")] None
                    "memoryscan_result:::" "" [] eq_refl eq_refl) eq_refl).
  - refine (proj2 (memoryscan_result_event Sample.quiet Sample.attached
                     [("payload", PStr "memoryscan_result:::[]")] None
                     "memoryscan_result:::[]" "[]" [] eq_refl eq_refl)
                  [] _ eq_refl).
    discriminate.
Defined.

Lemma on_message_mutating_tags_witness :
  state (_on_message Sample.quiet [("payload", PStr "log:::hi")] None
                     Sample.stopped)
  = Sample.stopped.
Proof.
  apply (on_message_mutating_tags Sample.quiet Sample.stopped
           [("payload", PStr "log:::hi")] None).
  intros what Hw. inversion Hw; subst what. vm_compute.
  intuition discriminate.
Defined.

Lemma set_data_event_witness :
  _on_message Sample.quiet [("payload", PStr "set_data:::key:::value")]
              (Some [Byte.x01]) Sample.attached
  = (Ret tt, Sample.attached,
     [Emit (onSetData [PStr "raw"; PStr "key"; PBytes [Byte.x01]])])
  /\ _on_message Sample.quiet [("payload", PStr "set_data:::key:::value")]
                 None Sample.attached
     = (Ret tt, Sample.attached,
        [Emit (onSetData [PStr "plain"; PStr "key"; PStr "value"])])
  /\ _on_message Sample.quiet [("payload", PStr "set_data:::key")] None
                 Sample.attached
     = (Raise IndexError, Sample.attached, []).
Proof.
  split; [|split].
  - exact (proj1 (set_data_event Sample.quiet Sample.attached
                    [("payload", PStr "set_data:::key:::value")]
                    (Some [Byte.x01]) "set_data:::key:::value" "key"
                    ["value"] eq_refl eq_refl)
                 Byte.x01 [] eq_refl).
  - exact (proj1 (proj2 (set_data_event Sample.quiet Sample.attached
                           [("payload", PStr "set_data:::key:::value")]
                           None "set_data:::key:::value" "key"
                           ["value"] eq_refl eq_refl))
                 "value" [] (or_introl eq_refl) eq_refl).
  - exact (proj2 (proj2 (set_data_event Sample.quiet Sample.attached
                           [("payload", PStr "set_data:::key")]
                           None "set_data:::key" "key" [] eq_refl eq_refl))
                 (or_introl eq_refl) eq_refl).
Defined.

Lemma missing_field_raises_witness :
  In "new_thread" three_field_tags
  /\ _on_message Sample.quiet [("payload", PStr "new_thread:::1")] None
                 Sample.stopped
     = (Raise IndexError, Sample.stopped, []).
Proof.
  assert (Hin : In "new_thread" three_field_tags).
  { unfold three_field_tags. cbn. tauto. }
  split; [exact Hin|].
  exact (missing_field_raises Sample.quiet Sample.stopped
           [("payload", PStr "new_thread:::1")] None "new_thread:::1"
           "new_thread" "1" eq_refl eq_refl Hin).
Defined.

Lemma initial_context_handshake_witness :
  _on_message Sample.handshake [("payload", PStr "set_context:::<initial>")]
              None Sample.spawned
  = (Ret tt,
     set_java_available (PBool false)
       (set_pointer_size (PInt 8)
          (set_platform (PStr "linux")
             (set_arch (PStr "arm64") Sample.spawned))),
     [Emit (onApplyContext Sample.initial_context);
      Emit (onLogEvent "injected into := 1234")]).
Proof.
  exact (initial_context_handshake Sample.handshake Sample.spawned
           [("payload", PStr "set_context:::<initial>")] None
           "set_context:::<initial>" "<initial>" []
           Sample.initial_context
           (PStr "arm64") (PStr "linux") (PInt 8) (PBool false)
           eq_refl eq_refl eq_refl eq_refl eq_refl eq_refl eq_refl eq_refl
           eq_refl eq_refl eq_refl).
Defined.

Lemma resume_once_witness :
  (_on_message Sample.quiet [("payload", PStr "resume:::0")] None
               Sample.spawned
   = (Ret tt, set_resumed true Sample.spawned, [DeviceResume 1234])
   /\ _on_message Sample.quiet [("payload", PStr "resume:::0")] None
                  (set_resumed true Sample.spawned)
      = (Ret tt, set_resumed true Sample.spawned, []))
  /\ _on_message Sample.quiet [("payload", PStr "resume:::0")] None
                 Sample.attached
     = (Ret tt, Sample.attached, []).
Proof.
  split.
  - refine (proj1 (resume_once Sample.quiet Sample.spawned
                     [("payload", PStr "resume:::0")] None "resume:::0"
                     "0" [] eq_refl eq_refl) eq_refl eq_refl _).
    discriminate.
  - exact (proj2 (resume_once Sample.quiet Sample.attached
                    [("payload", PStr "resume:::0")] None "resume:::0"
                    "0" [] eq_refl eq_refl) eq_refl).
Defined.

Lemma on_message_keeps_contexts_distinct_witness :
  NoDup (dict_keys (contexts Sample.stopped))
  /\ NoDup (dict_keys (contexts
              (state (_on_message Sample.quiet
                        [("payload", PStr "release:::7")] None
                        Sample.stopped)))).
Proof.
  assert (H0 : NoDup (dict_keys (contexts Sample.stopped))).
  { apply (bool_decide_unpack (NoDup ["7"; "9"])). vm_compute. exact I. }
  split; [exact H0|].
  exact (on_message_keeps_contexts_distinct Sample.quiet Sample.stopped
           [("payload", PStr "release:::7")] None H0).
Defined.

Lemma active_thread_named_once_witness :
  context_tid (state (_on_apply_context Sample.quiet
                        [("reason", PInt 0); ("tid", PInt 9)]
                        Sample.stopped))
  = PInt 7
  /\ context_tid (state (_on_apply_context Sample.quiet
                           [("reason", PInt 0); ("tid", PInt 9)]
                           Sample.attached))
     = PInt 9.
Proof.
  split.
  - exact (proj1 (active_thread_named_once Sample.quiet Sample.stopped
                    [("reason", PInt 0); ("tid", PInt 9)]) eq_refl).
  - refine (proj2 (active_thread_named_once Sample.quiet Sample.attached
                     [("reason", PInt 0); ("tid", PInt 9)])
                  (PInt 0) (PInt 9) eq_refl eq_refl eq_refl eq_refl _).
    vm_compute. reflexivity.
Defined.

Lemma release_keeps_active_thread_witness :
  context_tid (state (_on_message Sample.quiet
                        [("payload", PStr "release:::7")] None
                        Sample.stopped))
  = PInt 7
  /\ current_context Sample.quiet
       (state (_on_message Sample.quiet [("payload", PStr "release:::7")]
                           None Sample.stopped))
     = None.
Proof.
  pose proof (release_keeps_active_thread Sample.quiet Sample.stopped 7
                [("payload", PStr "release:::7")] None eq_refl)
    as [Hkeep Hnone].
  split; [exact Hkeep|exact (Hnone eq_refl)].
Defined.

Lemma java_hook_added_then_deleted_witness :
  java_hooks (state (_on_message Sample.quiet
                       [("payload", PStr "hook_java_callback:::a.b.C")] None
                       Sample.attached))
  !! "a.b.C" <> None
  /\ java_hooks
       (state (_on_message Sample.quiet
                 [("payload", PStr "hook_deleted:::java:::a.b.C")] None
                 (state (_on_message Sample.quiet
                           [("payload", PStr "hook_java_callback:::a.b.C")]
                           None Sample.attached))))
     = java_hooks Sample.attached.
Proof.
  pose proof (java_hook_added_then_deleted Sample.quiet Sample.attached
                [("payload", PStr "hook_java_callback:::a.b.C")]
                [("payload", PStr "hook_deleted:::java:::a.b.C")] None
                "hook_java_callback:::a.b.C" "hook_deleted:::java:::a.b.C"
                "a.b.C" [] [] eq_refl eq_refl eq_refl eq_refl eq_refl
                eq_refl) as (Hadd & _ & Hback & _).
  split; [|exact Hback].
  rewrite Hadd. cbn [state fst snd java_hooks set_java_hooks].
  rewrite lookup_insert_eq. discriminate.
Defined.

Lemma watcher_added_then_removed_witness :
  is_address_watched Sample.quiet
    (state (_on_message Sample.quiet
              [("payload", PStr "watcher_added:::0x1000:::3:::null")] None
              Sample.attached))
    (PStr "0x1000") = true
  /\ is_address_watched Sample.quiet
       (state (_on_message Sample.quiet
                 [("payload", PStr "watcher_removed:::0x1000")] None
                 (state (_on_message Sample.quiet
                           [("payload",
                             PStr "watcher_added:::0x1000:::3:::null")]
                           None Sample.attached))))
       (PStr "0x1000") = false.
Proof.
  pose proof (watcher_added_then_removed Sample.quiet Sample.attached
                [("payload", PStr "watcher_added:::0x1000:::3:::null")]
                [("payload", PStr "watcher_removed:::0x1000")] None
                "watcher_added:::0x1000:::3:::null"
                "watcher_removed:::0x1000" "0x1000" "3" "null" [] []
                3 PNone eq_refl eq_refl eq_refl eq_refl eq_refl eq_refl)
    as (_ & Hyes & _ & Hno).
  split; [exact Hyes|exact Hno].
Defined.

Lemma release_js_loops_back_witness :
  _on_message Sample.quiet [("payload", PStr "release_js:::7")] None
              Sample.stopped
  = (Ret tt, Sample.stopped,
     [Emit (onRequestJsThreadResume 7);
      ScriptPost (PStr "7");
      ScriptApi (PInt 7) "release" (PList [PInt 7])]).
Proof.
  exact (release_js_loops_back Sample.quiet Sample.stopped
           [("payload", PStr "release_js:::7")] None "release_js:::7" "7"
           [] 7 eq_refl eq_refl eq_refl).
Defined.

Lemma hook_java_stages_arguments_witness :
  exists h,
    _on_message Sample.quiet
      [("payload", PStr "hook_java_callback:::a.b.C")] None
      (state (hook_java Sample.quiet " a.b.C "
                (PDict [("condition", PStr "c"); ("logic", PStr "l")])
                Sample.attached))
    = (Ret tt,
       set_java_hooks (<["a.b.C" := h]> (java_hooks Sample.attached))
         (set_java_pending_args PNone Sample.attached),
       [Emit (onAddJavaHook h)])
    /\ condition h = PStr "c" /\ logic h = PStr "l".
Proof.
  pose proof (hook_java_stages_arguments Sample.quiet Sample.attached
                " a.b.C " [("condition", PStr "c"); ("logic", PStr "l")]
                [("payload", PStr "hook_java_callback:::a.b.C")] None
                "hook_java_callback:::a.b.C" "a.b.C" []
                (PStr "c") (PStr "l") eq_refl eq_refl eq_refl eq_refl)
    as [Hreq Hack].
  eexists. rewrite Hreq. cbn [state fst snd].
  split; [exact Hack|]. split; reflexivity.
Defined.

Lemma hook_native_stages_input_witness :
  hook_native Sample.quiet Sample.attached "open" PNone None Sample.attached
  = (Ret tt, Sample.attached,
     [ScriptApi (PInt 0) "evaluatePtr" (PList [PStr "open"])])
  /\ exists h,
       state (_on_message Sample.evaluating
                [("payload",
                  PStr "hook_native_callback:::0x1000:::cccc:::l:::c:::0:::null")]
                None
                (state (hook_native Sample.evaluating Sample.attached "open"
                          PNone None Sample.attached)))
       = set_hooks (<[4096 := h]> (hooks Sample.attached))
           (set_native_pending_args PNone
              (set_temporary_input "" Sample.attached))
       /\ input h = "open".
Proof.
  split.
  - refine (proj1 (hook_native_stages_input Sample.quiet Sample.attached
                     Sample.attached "open" PNone None PNone
                     [ScriptApi (PInt 0) "evaluatePtr" (PList [PStr "open"])]
                     eq_refl) _).
    cbn. lia.
  - destruct (proj2 (hook_native_stages_input Sample.evaluating
                       Sample.attached Sample.attached "open" PNone None
                       (PInt 4096)
                       [ScriptApi (PInt 0) "evaluatePtr"
                                  (PList [PStr "open"])]
                       eq_refl) ltac:(cbn; lia)) as [Hreq Hack].
    destruct (Hack
                [("payload",
                  PStr "hook_native_callback:::0x1000:::cccc:::l:::c:::0:::null")]
                None
                "hook_native_callback:::0x1000:::cccc:::l:::c:::0:::null"
                "0x1000" "cccc" "l" "c" "0" "null" [] 4096
                [Byte.xcc; Byte.xcc] PNone
                eq_refl eq_refl eq_refl eq_refl eq_refl eq_refl)
      as (h & Hst & Hin & _).
    exists h. rewrite Hreq. cbn [state fst snd].
    split; [exact Hst|exact Hin].
Defined.

Lemma on_load_requested_again_witness :
  hook_native_on_load Sample.quiet
    (state (_on_message Sample.quiet
              [("payload", PStr "hook_native_on_load_callback:::libc.so")]
              None Sample.attached))
    "libc.so"
    (state (_on_message Sample.quiet
              [("payload", PStr "hook_native_on_load_callback:::libc.so")]
              None Sample.attached))
  = (Ret tt,
     state (_on_message Sample.quiet
              [("payload", PStr "hook_native_on_load_callback:::libc.so")]
              None Sample.attached),
     [])
  /\ trace (hook_java_on_load Sample.quiet
              (state (_on_message Sample.quiet
                        [("payload",
                          PStr "hook_java_on_load_callback:::a.b.C")]
                        None Sample.attached))
              "a.b.C"
              (state (_on_message Sample.quiet
                        [("payload",
                          PStr "hook_java_on_load_callback:::a.b.C")]
                        None Sample.attached)))
     = [ScriptApi (PInt 0) "hookJavaOnLoad" (PList [PStr "a.b.C"])].
Proof.
  split.
  - exact (proj1 (on_load_requested_again Sample.quiet Sample.attached
                    [("payload",
                      PStr "hook_native_on_load_callback:::libc.so")]
                    None "hook_native_on_load_callback:::libc.so"
                    "libc.so" [] eq_refl) eq_refl).
  - destruct (proj2 (on_load_requested_again Sample.quiet Sample.attached
                       [("payload",
                         PStr "hook_java_on_load_callback:::a.b.C")]
                       None "hook_java_on_load_callback:::a.b.C"
                       "a.b.C" [] eq_refl) eq_refl eq_refl) as [_ Hrun].
    rewrite Hrun. vm_compute. reflexivity.
Defined.

Lemma invalidate_forces_fetch_witness :
  source Sample.fetched = Range.SOURCE_TARGET
  /\ exists rest,
       trace (init_with_address Sample.target Sample.stopped (PInt 4100)
                0 0 true (invalidate Sample.fetched))
       = ScriptPost (PStr "7")
         :: ScriptApi (PInt 7) "getRange" (PList [PInt 4100]) :: rest.
Proof.
  assert (Hsrc : source Sample.fetched = Range.SOURCE_TARGET)
    by (vm_compute; reflexivity).
  split; [exact Hsrc|].
  refine (proj2 (proj2 (invalidate_forces_fetch Sample.target Sample.stopped
                          Sample.fetched (PInt 4100) 0 0 true Hsrc))
                _ _ eq_refl eq_refl); discriminate.
Defined.

